(** * Decision engine and portfolio simulator of the BVMT trading assistant

    A shallow embedding of [modules/decision/portfolio.py] and
    [modules/decision/engine.py] (with the parts of
    [modules/decision/explainer.py] the engine calls), the properties
    the design document states about them, and further properties of the
    ledger, of its metrics and of the batch analysis read off the code.

    Numbers.  Python's [float] is modelled by the exact rationals [Q] and
    Python's [int] by [Z]; rounding only happens where the source calls
    [round] or formats a number.  Equality of amounts is therefore [Qeq]
    ([==]).  The concrete inputs used below are small integers and short
    decimals, far from any rounding tie, so that binary floating point
    reaches the same outcome on them as the rationals do.  Where the
    exact value is a tie (0.525 to two decimals), the float Python holds
    lies a hair to one side of it and [round] follows the float; what
    is stated of a rounded result is therefore that it is a decimal
    within half a unit of its last digit of the exact value, not which
    neighbour a tie goes to.  The float power [x ** 2], which raises
    [OverflowError] out of range, and [x ** 0.5] are arguments of the
    functions that use them.

    Dictionaries.  [Portfolio.holdings] and the allocation dictionary are
    finite maps ([gmap string _]); a dictionary with a fixed set of keys
    is a record, a key that may be absent an [option] field.

    Effects.  The wall clock ([datetime.now()]) is an explicit argument;
    the signal sources the engine calls are fields of an [Adapters]
    record, each returning [Ok v] or [Raise msg]. *)

From Stdlib Require Import ZArith QArith Qfield Qround Qabs Qminmax Lqa Lia.
From Stdlib Require Import Ascii DecimalString Sorted.
From stdpp Require Import gmap strings list fin_maps.

Local Open Scope Q_scope.

(** ** Python values and built-ins *)

Module Py.

(** Comparisons of floats, as decidable propositions. *)
#[global] Instance Qlt_decision (x y : Q) : Decision (x < y) :=
  decide (Qnum x * QDen y < Qnum y * QDen x)%Z.
#[global] Instance Qle_decision (x y : Q) : Decision (x <= y) :=
  decide (Qnum x * QDen y <= Qnum y * QDen x)%Z.
#[global] Instance Qeq_decision (x y : Q) : Decision (x == y) :=
  decide (Qnum x * QDen y = Qnum y * QDen x)%Z.

(** A call that returns a value or raises an exception. *)
Inductive Result (A : Type) : Type :=
| Ok (a : A)
| Raise (exc : string).
Arguments Ok {A} a.
Arguments Raise {A} exc.

Definition bind {A B} (r : Result A) (k : A → Result B) : Result B :=
  match r with
  | Ok a => k a
  | Raise e => Raise e
  end.

Notation "'let!' x ':=' r 'in' k" := (bind r (λ x, k))
  (at level 10, x name, r at level 100, k at level 200,
   format "'let!'  x  :=  r  'in'  '/' k").

(** [dict.get(key, default)] on a key that may be absent. *)
Definition get {A} (field : option A) (dflt : A) : A :=
  match field with
  | Some v => v
  | None => dflt
  end.

(** Rounding to the nearest integer, ties to the even neighbour: the
    rule of [round] and of the [f] and [%] format specifiers. *)
Definition round_half_even (x : Q) : Z :=
  let f := Qfloor x in
  match Qcompare (x - inject_Z f) (1 # 2) with
  | Lt => f
  | Gt => (f + 1)%Z
  | Eq => if Z.even f then f else (f + 1)%Z
  end.

Definition pow10 (ndigits : nat) : Z := (10 ^ Z.of_nat ndigits)%Z.

(** [round(x, ndigits)] *)
Definition round (x : Q) (ndigits : nat) : Q :=
  inject_Z (round_half_even (x * inject_Z (pow10 ndigits)))
  / inject_Z (pow10 ndigits).

(** [str(n)] of an integer. *)
Definition str_int (n : Z) : string := NilZero.string_of_int (Z.to_int n).

(** [c * n] for a one-character string [c]. *)
Fixpoint repeat_char (c : Ascii.ascii) (n : nat) : string :=
  match n with
  | O => EmptyString
  | S k => String c (repeat_char c k)
  end.

(** [s.zfill(width)] for an unsigned digit string. *)
Definition zfill (width : nat) (s : string) : string :=
  repeat_char "0"%char (width - String.length s) +:+ s.

(** The digits of [abs(x)] with [ndigits] decimals, without a sign. *)
Definition digits_fixed (x : Q) (ndigits : nat) : string :=
  let n := round_half_even (Qabs x * inject_Z (pow10 ndigits)) in
  let ip := str_int (n / pow10 ndigits) in
  match ndigits with
  | O => ip
  | S _ => ip +:+ "." +:+ zfill ndigits (str_int (n mod pow10 ndigits))
  end.

(** [f"{x:.<ndigits>f}"] *)
Definition fmt_f (x : Q) (ndigits : nat) : string :=
  (if decide (x < 0) then "-" else EmptyString) +:+ digits_fixed x ndigits.

(** [f"{x:+.<ndigits>f}"] *)
Definition fmt_f_signed (x : Q) (ndigits : nat) : string :=
  (if decide (x < 0) then "-" else "+") +:+ digits_fixed x ndigits.

(** [f"{x:.<ndigits>%}"] *)
Definition fmt_pct (x : Q) (ndigits : nat) : string :=
  fmt_f (x * 100) ndigits +:+ "%".

Definition newline : string := String (Ascii.ascii_of_nat 10) EmptyString.

(** ['\n'.join(lines)] *)
Definition join_lines (lines : list string) : string :=
  String.concat newline lines.

Definition upper_char (c : Ascii.ascii) : Ascii.ascii :=
  let n := Ascii.nat_of_ascii c in
  if ((97 <=? n) && (n <=? 122))%nat then Ascii.ascii_of_nat (n - 32) else c.

(** [s.upper()] on ASCII text. *)
Fixpoint upper (s : string) : string :=
  match s with
  | EmptyString => EmptyString
  | String c rest => String (upper_char c) (upper rest)
  end.

(** [l[:n]]: the first [n] items, or all but the last [-n] when [n] is
    negative. *)
Definition slice_to {A} (l : list A) (n : Z) : list A :=
  if decide (n < 0)%Z then take (length l - Z.to_nat (- n)) l
  else take (Z.to_nat n) l.

(** [sorted(l, key=...)] and [l.sort(key=...)]. [before y x] holds when
    the key of [y] sorts strictly before the key of [x]. The sort is
    stable: an item goes in front of the items that came after it in [l]
    unless their key sorts strictly before its own; with
    [reverse=True], which keeps the order of items with equal keys,
    "before" is "greater". *)
Fixpoint insert_by {A} (before : A → A → bool) (x : A) (l : list A) : list A :=
  match l with
  | [] => [x]
  | y :: rest =>
      if before y x then y :: insert_by before x rest else x :: y :: rest
  end.

Definition sorted_by {A} (before : A → A → bool) (l : list A) : list A :=
  foldr (insert_by before) [] l.

(** [[f(x) for x in l]] where [f] may raise: the first exception ends
    the loop. *)
Fixpoint map_result {A B} (f : A → Result B) (l : list A) : Result (list B) :=
  match l with
  | [] => Ok []
  | x :: rest =>
      let! y := f x in
      let! ys := map_result f rest in
      Ok (y :: ys)
  end.

(** [sum(l)] of floats. *)
Definition sum_list (l : list Q) : Q := foldl Qplus 0 l.

(** [bool(s)] of a string and [bool(n)] of an integer. *)
Definition truthy_str (s : string) : bool :=
  match s with
  | EmptyString => false
  | String _ _ => true
  end.

Definition truthy_int (n : Z) : bool := negb (n =? 0)%Z.

End Py.
Import Py.

(** ** The wall clock *)

(** One reading of [datetime.now()]: the day
    ([strftime('%Y-%m-%d')]) and the full timestamp ([isoformat()]). *)
Record Clock := {
  clock_today : string;
  clock_isoformat : string;
}.

(** ** [modules/decision/portfolio.py] *)

Module PortfolioLedger.

(** A value of [Portfolio.holdings]. The key ['last_buy_date'] is absent
    from a holding until [buy] writes it. *)
Record Holding := {
  stock_name : string;
  quantity : Z;
  avg_price : Q;
  first_buy_date : string;
  last_buy_date : option string;
}.

Inductive TxType := BUY | SELL.

#[global] Instance TxType_eq_dec : EqDecision TxType.
Proof. solve_decision. Defined.

(** An entry of [Portfolio.transaction_history]; ['profit_loss'] is a key
    of SELL entries only. *)
Record Transaction := {
  tx_type : TxType;
  tx_stock_code : string;
  tx_stock_name : string;
  tx_quantity : Z;
  tx_price : Q;
  tx_total : Q;
  tx_profit_loss : option Q;
  tx_date : string;
  tx_timestamp : string;
  tx_cash_after : Q;
}.

(** An entry of [Portfolio.daily_snapshots], as [take_snapshot] builds it. *)
Record Snapshot := {
  snap_date : string;
  snap_total_value : Q;
  snap_cash : Q;
  snap_holdings_value : Q;
  snap_num_positions : nat;
  snap_timestamp : string;
}.

(** An entry of [Portfolio.daily_values]. *)
Record DailyValue := {
  dv_date : string;
  dv_value : Q;
}.

Record Portfolio := {
  name : string;
  initial_capital : Q;
  cash : Q;
  holdings : gmap string Holding;
  transaction_history : list Transaction;
  daily_snapshots : list Snapshot;
  daily_values : list DailyValue;
  created_at : string;
}.

(** [Portfolio.__init__] *)
Definition init (clk : Clock) (initial_capital : Q) (name : string) : Portfolio :=
  {| name := name;
     initial_capital := initial_capital;
     cash := initial_capital;
     holdings := ∅;
     transaction_history := [];
     daily_snapshots := [];
     daily_values := [];
     created_at := clock_isoformat clk |}.

(** The sum over [self.holdings.items()] that [get_current_value] and
    [get_holdings_value] both compute: each holding is valued at
    [current_prices.get(stock_code, holding['avg_price'])]. *)
Definition get_holdings_value (self : Portfolio) (current_prices : gmap string Q) : Q :=
  map_fold
    (λ stock_code holding acc,
       acc + inject_Z (quantity holding)
             * get (current_prices !! stock_code) (avg_price holding))
    0 (holdings self).

Definition get_current_value (self : Portfolio) (current_prices : gmap string Q) : Q :=
  cash self + get_holdings_value self current_prices.

(** The loop at the end of [_record_daily_value]: the latest entry dated
    [date] gets the new value; [None] when no entry has that date. *)
Fixpoint update_latest (date : string) (value : Q) (entries : list DailyValue)
  : option (list DailyValue) :=
  match entries with
  | [] => None
  | entry :: rest =>
      match update_latest date value rest with
      | Some rest' => Some (entry :: rest')
      | None =>
          if decide (dv_date entry = date)
          then Some ({| dv_date := dv_date entry; dv_value := value |} :: rest)
          else None
      end
  end.

Definition set_daily_values (self : Portfolio) (entries : list DailyValue) : Portfolio :=
  {| name := name self;
     initial_capital := initial_capital self;
     cash := cash self;
     holdings := holdings self;
     transaction_history := transaction_history self;
     daily_snapshots := daily_snapshots self;
     daily_values := entries;
     created_at := created_at self |}.

(** [Portfolio._record_daily_value] *)
Definition _record_daily_value (self : Portfolio) (date : string)
    (price_overrides : option (gmap string Q)) : Portfolio :=
  let prices := avg_price <$> holdings self in
  let prices :=
    match price_overrides with
    | Some overrides => overrides ∪ prices
    | None => prices
    end in
  let value := get_current_value self prices in
  match update_latest date value (daily_values self) with
  | Some entries => set_daily_values self entries
  | None =>
      set_daily_values self
        (daily_values self ++ [{| dv_date := date; dv_value := value |}])
  end.

(** What [buy] returns: the success dictionary or the rejection. *)
Inductive BuyResult :=
| BuyOk (message : string) (transaction : Transaction)
| InsufficientFunds (message : string) (required available : Q).

(** [Portfolio.buy] *)
Definition buy (clk : Clock) (self : Portfolio) (stock_code stock_name : string)
    (price : Q) (qty : Z) (date : option string) : Portfolio * BuyResult :=
  let date := get date (clock_today clk) in
  let total_cost := price * inject_Z qty in
  if decide (cash self < total_cost) then
    (self,
     InsufficientFunds
       ("Fonds insuffisants. Requis: " +:+ fmt_f total_cost 2
        +:+ " TND, Disponible: " +:+ fmt_f (cash self) 2 +:+ " TND")
       total_cost (cash self))
  else
    let cash' := cash self - total_cost in
    let holding :=
      match holdings self !! stock_code with
      | Some h => h
      | None =>
          {| stock_name := stock_name; quantity := 0; avg_price := 0;
             first_buy_date := date; last_buy_date := None |}
      end in
    let total_quantity := (quantity holding + qty)%Z in
    let total_value :=
      inject_Z (quantity holding) * avg_price holding + inject_Z qty * price in
    let holding' :=
      {| stock_name := PortfolioLedger.stock_name holding;
         quantity := total_quantity;
         avg_price :=
           if decide (0 < total_quantity)%Z
           then total_value / inject_Z total_quantity else 0;
         first_buy_date := first_buy_date holding;
         last_buy_date := Some date |} in
    let transaction :=
      {| tx_type := BUY; tx_stock_code := stock_code;
         tx_stock_name := stock_name; tx_quantity := qty; tx_price := price;
         tx_total := total_cost; tx_profit_loss := None; tx_date := date;
         tx_timestamp := clock_isoformat clk; tx_cash_after := cash' |} in
    let self' :=
      {| name := name self;
         initial_capital := initial_capital self;
         cash := cash';
         holdings := <[stock_code := holding']> (holdings self);
         transaction_history := transaction_history self ++ [transaction];
         daily_snapshots := daily_snapshots self;
         daily_values := daily_values self;
         created_at := created_at self |} in
    (_record_daily_value self' date (Some {[stock_code := price]}),
     BuyOk
       ("Achat reussi: " +:+ str_int qty +:+ " actions de " +:+ stock_name
        +:+ " a " +:+ fmt_f price 2 +:+ " TND")
       transaction).

(** What [sell] returns. *)
Inductive SellResult :=
| SellOk (message : string) (transaction : Transaction) (profit_loss : Q)
| NoPosition (message : string) (stock_code : string)
| InsufficientQuantity (message : string) (available : Z).

(** [Portfolio.sell] *)
Definition sell (clk : Clock) (self : Portfolio) (stock_code : string)
    (price : Q) (qty : Z) (date : option string) : Portfolio * SellResult :=
  let date := get date (clock_today clk) in
  match holdings self !! stock_code with
  | None =>
      (self, NoPosition "Vous ne possedez pas d'actions de ce titre" stock_code)
  | Some holding =>
      if decide (quantity holding < qty)%Z then
        (self,
         InsufficientQuantity
           ("Quantite insuffisante. Disponible: " +:+ str_int (quantity holding)
            +:+ ", Demande: " +:+ str_int qty)
           (quantity holding))
      else
        let avg_cost := avg_price holding * inject_Z qty in
        let proceeds := price * inject_Z qty in
        let profit_loss := proceeds - avg_cost in
        let cash' := cash self + proceeds in
        let stock_name := PortfolioLedger.stock_name holding in
        let holding' :=
          {| stock_name := stock_name;
             quantity := (quantity holding - qty)%Z;
             avg_price := avg_price holding;
             first_buy_date := first_buy_date holding;
             last_buy_date := last_buy_date holding |} in
        let holdings' :=
          if decide (quantity holding' = 0)%Z
          then delete stock_code (holdings self)
          else <[stock_code := holding']> (holdings self) in
        let transaction :=
          {| tx_type := SELL; tx_stock_code := stock_code;
             tx_stock_name := stock_name; tx_quantity := qty;
             tx_price := price; tx_total := proceeds;
             tx_profit_loss := Some profit_loss; tx_date := date;
             tx_timestamp := clock_isoformat clk; tx_cash_after := cash' |} in
        let self' :=
          {| name := name self;
             initial_capital := initial_capital self;
             cash := cash';
             holdings := holdings';
             transaction_history := transaction_history self ++ [transaction];
             daily_snapshots := daily_snapshots self;
             daily_values := daily_values self;
             created_at := created_at self |} in
        (_record_daily_value self' date (Some {[stock_code := price]}),
         SellOk
           ("Vente reussie: " +:+ str_int qty +:+ " actions a "
            +:+ fmt_f price 2 +:+ " TND (P/L: " +:+ fmt_f_signed profit_loss 2
            +:+ " TND)")
           transaction profit_loss)
  end.

(** The realized-profit tally of [get_performance_metrics]: over the SELL
    entries of the history, the sum of [tx.get('profit_loss', 0)]. *)
Definition total_realized_profit (self : Portfolio) : Q :=
  foldl
    (λ acc tx,
       match tx_type tx with
       | SELL => acc + get (tx_profit_loss tx) 0
       | BUY => acc
       end)
    0 (transaction_history self).

(** [Portfolio.get_allocation] *)
Definition get_allocation (self : Portfolio) (current_prices : gmap string Q)
  : gmap string Q :=
  let total_value := get_current_value self current_prices in
  if decide (total_value <= 0) then {["CASH" := 100]}
  else
    map_fold
      (λ stock_code holding allocation,
         let current_price :=
           get (current_prices !! stock_code) (avg_price holding) in
         let value := inject_Z (quantity holding) * current_price in
         <[stock_code := round (value / total_value * 100) 2]> allocation)
      {["CASH" := round (cash self / total_value * 100) 2]}
      (holdings self).

(** [Portfolio.take_snapshot] *)
Definition take_snapshot (clk : Clock) (self : Portfolio)
    (current_prices : gmap string Q) (date : option string) : Portfolio :=
  let date := get date (clock_today clk) in
  let snapshot :=
    {| snap_date := date;
       snap_total_value := get_current_value self current_prices;
       snap_cash := cash self;
       snap_holdings_value := get_holdings_value self current_prices;
       snap_num_positions := size (holdings self);
       snap_timestamp := clock_isoformat clk |} in
  {| name := name self;
     initial_capital := initial_capital self;
     cash := cash self;
     holdings := holdings self;
     transaction_history := transaction_history self;
     daily_snapshots := daily_snapshots self ++ [snapshot];
     daily_values := daily_values self;
     created_at := created_at self |}.

(** The dictionary [to_dict] builds and [from_dict] reads with
    [data.get(key, default)]: any of its keys may be missing. *)
Record PortfolioData := {
  d_name : option string;
  d_initial_capital : option Q;
  d_cash : option Q;
  d_holdings : option (gmap string Holding);
  d_transaction_history : option (list Transaction);
  d_daily_snapshots : option (list Snapshot);
  d_daily_values : option (list DailyValue);
  d_created_at : option string;
}.

(** [Portfolio.to_dict] *)
Definition to_dict (self : Portfolio) : PortfolioData :=
  {| d_name := Some (name self);
     d_initial_capital := Some (initial_capital self);
     d_cash := Some (cash self);
     d_holdings := Some (holdings self);
     d_transaction_history := Some (transaction_history self);
     d_daily_snapshots := Some (daily_snapshots self);
     d_daily_values := Some (daily_values self);
     d_created_at := Some (created_at self) |}.

(** The list comprehension of [from_dict]: one valuation entry per
    snapshot, dated as the snapshot and holding its total value. *)
Definition values_of_snapshots (snapshots : list Snapshot) : list DailyValue :=
  (λ snap, {| dv_date := snap_date snap; dv_value := snap_total_value snap |})
    <$> snapshots.

(** [Portfolio.from_dict]; [clk] is read by the constructor and by the
    default of ['created_at']. *)
Definition from_dict (clk : Clock) (data : PortfolioData) : Portfolio :=
  let portfolio :=
    init clk (get (d_initial_capital data) 10000)
      (get (d_name data) "Mon Portefeuille") in
  let snapshots := get (d_daily_snapshots data) [] in
  let values := get (d_daily_values data) [] in
  let values :=
    match values, snapshots with
    | [], _ :: _ => values_of_snapshots snapshots
    | _, _ => values
    end in
  {| name := name portfolio;
     initial_capital := initial_capital portfolio;
     cash := get (d_cash data) (initial_capital portfolio);
     holdings := get (d_holdings data) ∅;
     transaction_history := get (d_transaction_history data) [];
     daily_snapshots := snapshots;
     daily_values := values;
     created_at := get (d_created_at data) (clock_isoformat clk) |}.

(** [Portfolio.get_transaction_history]; [None] is the default of
    [limit] and of [stock_code]. Timestamps are compared as strings. *)
Definition get_transaction_history (self : Portfolio) (limit : option Z)
    (stock_code : option string) : list Transaction :=
  let history := transaction_history self in
  let history :=
    match stock_code with
    | Some code =>
        if truthy_str code
        then filter (λ t, tx_stock_code t = code) history
        else history
    | None => history
    end in
  let history :=
    sorted_by (λ a b, String.ltb (tx_timestamp b) (tx_timestamp a)) history in
  match limit with
  | Some n => if truthy_int n then slice_to history n else history
  | None => history
  end.

(** The values of the valuation series in the order of their dates:
    [[float(v.get('value', 0.0)) for v in sorted(self.daily_values,
    key=lambda x: x.get('date', ''))]]. *)
Definition values_by_date (self : Portfolio) : list Q :=
  dv_value
    <$> sorted_by (λ a b, String.ltb (dv_date a) (dv_date b))
          (daily_values self).

(** One turn of the loop of [_calculate_max_drawdown] on the pair
    [(peak, max_drawdown)]. *)
Definition drawdown_step (acc : Q * Q) (value : Q) : Q * Q :=
  let '(peak, max_drawdown) := acc in
  let peak := if decide (peak < value) then value else peak in
  if decide (0 < peak) then
    let drawdown := (peak - value) / peak in
    (peak, if decide (max_drawdown < drawdown) then drawdown else max_drawdown)
  else (peak, max_drawdown).

(** [Portfolio._calculate_max_drawdown] *)
Definition _calculate_max_drawdown (self : Portfolio) : Q :=
  if decide (length (daily_values self) < 2)%nat then 0
  else
    let values := values_by_date self in
    let peak := match values with v :: _ => v | [] => 0 end in
    snd (foldl drawdown_step (peak, 0) values) * 100.

(** The loop of [_calculate_sharpe_ratio] over [range(1, len(values))]:
    the relative change from each value to the next, a value of zero
    having no successor change. *)
Fixpoint returns_of (values : list Q) : list Q :=
  match values with
  | [] => []
  | prev :: rest =>
      match rest with
      | [] => []
      | value :: _ =>
          if decide (prev == 0) then returns_of rest
          else (value - prev) / prev :: returns_of rest
      end
  end.

(** [Portfolio._calculate_sharpe_ratio]; [sqrt x] stands for the float
    [x ** 0.5] and [square x] for the float [x ** 2], which raises
    [OverflowError] when the result is out of the range of a float. *)
Definition _calculate_sharpe_ratio (sqrt : Q → Q) (square : Q → Result Q)
    (self : Portfolio) : Result Q :=
  if decide (length (daily_values self) < 2)%nat then Ok 0
  else
    let returns := returns_of (values_by_date self) in
    if decide (length returns < 2)%nat then Ok 0
    else
      let n := inject_Z (Z.of_nat (length returns)) in
      let mean_return := sum_list returns / n in
      let! squares := map_result (λ r, square (r - mean_return)) returns in
      let variance := sum_list squares / n in
      let std_dev := sqrt variance in
      if decide (std_dev == 0) then Ok 0
      else Ok (mean_return / std_dev * sqrt 252).

(** The dictionary of [get_performance_metrics]. *)
Record Metrics := {
  m_portfolio_name : string;
  m_initial_capital : Q;
  m_total_value : Q;
  m_cash : Q;
  m_holdings_value : Q;
  m_total_gain_loss : Q;
  m_roi_percentage : Q;
  m_realized_profit : Q;
  m_unrealized_profit : Q;
  m_win_rate : Q;
  m_sharpe_ratio : Q;
  m_max_drawdown : Q;
  m_num_positions : nat;
  m_num_transactions : nat;
  m_num_closed_trades : nat;
}.

(** The three tallies of the loop over the log in
    [get_performance_metrics]. *)
Record Tally := {
  profitable_trades : nat;
  total_closed_trades : nat;
  realized_profit : Q;
}.

Definition tally_step (acc : Tally) (tx : Transaction) : Tally :=
  match tx_type tx with
  | SELL =>
      let pl := get (tx_profit_loss tx) 0 in
      {| profitable_trades :=
           if decide (0 < pl) then (profitable_trades acc + 1)%nat
           else profitable_trades acc;
         total_closed_trades := (total_closed_trades acc + 1)%nat;
         realized_profit := realized_profit acc + pl |}
  | BUY => acc
  end.

Definition tally (history : list Transaction) : Tally :=
  foldl tally_step
    {| profitable_trades := 0; total_closed_trades := 0; realized_profit := 0 |}
    history.

(** The second loop of [get_performance_metrics]: market value minus
    cost, position by position. *)
Definition unrealized_pl (self : Portfolio) (current_prices : gmap string Q) : Q :=
  map_fold
    (λ stock_code holding acc,
       let current_price :=
         get (current_prices !! stock_code) (avg_price holding) in
       let cost_basis := inject_Z (quantity holding) * avg_price holding in
       let market_value := inject_Z (quantity holding) * current_price in
       acc + (market_value - cost_basis))
    0 (holdings self).

(** [Portfolio.get_performance_metrics]. The division by the initial
    capital raises [ZeroDivisionError] when the capital is zero; the
    Sharpe ratio, computed while the dictionary is built, may raise
    [OverflowError]. *)
Definition get_performance_metrics (sqrt : Q → Q) (square : Q → Result Q)
    (self : Portfolio) (current_prices : gmap string Q) : Result Metrics :=
  let current_value := get_current_value self current_prices in
  let holdings_value := get_holdings_value self current_prices in
  let total_gain_loss := current_value - initial_capital self in
  let! roi_percentage :=
    if decide (initial_capital self == 0) then Raise "ZeroDivisionError"
    else Ok (total_gain_loss / initial_capital self * 100) in
  let t := tally (transaction_history self) in
  let win_rate :=
    if decide (0 < total_closed_trades t)%nat
    then inject_Z (Z.of_nat (profitable_trades t))
         / inject_Z (Z.of_nat (total_closed_trades t)) * 100
    else 0 in
  let! sharpe_ratio := _calculate_sharpe_ratio sqrt square self in
  Ok {| m_portfolio_name := name self;
        m_initial_capital := initial_capital self;
        m_total_value := round current_value 2;
        m_cash := round (cash self) 2;
        m_holdings_value := round holdings_value 2;
        m_total_gain_loss := round total_gain_loss 2;
        m_roi_percentage := round roi_percentage 2;
        m_realized_profit := round (realized_profit t) 2;
        m_unrealized_profit := round (unrealized_pl self current_prices) 2;
        m_win_rate := round win_rate 1;
        m_sharpe_ratio := round sharpe_ratio 4;
        m_max_drawdown := round (_calculate_max_drawdown self) 2;
        m_num_positions := size (holdings self);
        m_num_transactions := length (transaction_history self);
        m_num_closed_trades := total_closed_trades t |}.

(** *** Sequences of orders *)

(** One call of [buy] or [sell], with the clock reading it sees. *)
Inductive Order :=
| Buy (clk : Clock) (stock_code stock_name : string) (price : Q) (qty : Z)
      (date : option string)
| Sell (clk : Clock) (stock_code : string) (price : Q) (qty : Z)
       (date : option string).

Definition execute (self : Portfolio) (o : Order) : Portfolio :=
  match o with
  | Buy clk code nm price qty date => fst (buy clk self code nm price qty date)
  | Sell clk code price qty date => fst (sell clk self code price qty date)
  end.

Definition run (self : Portfolio) (orders : list Order) : Portfolio :=
  foldl execute self orders.

(** An order the ledger accepts in state [self]. *)
Definition accepted (self : Portfolio) (o : Order) : Prop :=
  match o with
  | Buy clk code nm price qty date =>
      ∃ msg tx, snd (buy clk self code nm price qty date) = BuyOk msg tx
  | Sell clk code price qty date =>
      ∃ msg tx pl, snd (sell clk self code price qty date) = SellOk msg tx pl
  end.

(** Every order of the sequence is accepted in the state it meets. *)
Fixpoint all_accepted (self : Portfolio) (orders : list Order) : Prop :=
  match orders with
  | [] => True
  | o :: rest => accepted self o ∧ all_accepted (execute self o) rest
  end.

(** The same, as a test that runs the orders. *)
Definition is_accepted (self : Portfolio) (o : Order) : bool :=
  match o with
  | Buy clk code nm price qty date =>
      match snd (buy clk self code nm price qty date) with
      | BuyOk _ _ => true
      | InsufficientFunds _ _ _ => false
      end
  | Sell clk code price qty date =>
      match snd (sell clk self code price qty date) with
      | SellOk _ _ _ => true
      | NoPosition _ _ | InsufficientQuantity _ _ => false
      end
  end.

Fixpoint are_accepted (self : Portfolio) (orders : list Order) : bool :=
  match orders with
  | [] => true
  | o :: rest => is_accepted self o && are_accepted (execute self o) rest
  end.

(** The totals the accounting identity speaks of, read off the
    transaction log. *)
Definition total_of (t : TxType) (history : list Transaction) : Q :=
  foldl
    (λ acc tx, if decide (tx_type tx = t) then acc + tx_total tx else acc)
    0 history.

Definition cash_spent_on_buys (self : Portfolio) : Q :=
  total_of BUY (transaction_history self).

Definition proceeds_from_sells (self : Portfolio) : Q :=
  total_of SELL (transaction_history self).

(** The sum of the values of a dictionary of percentages. *)
Definition sum_values (d : gmap string Q) : Q :=
  map_fold (λ _ v acc, acc + v) 0 d.

(** *** Statements about a ledger *)

(** The cash actually moved by the log accounts for the whole balance. *)
Definition cash_reconciles (self : Portfolio) : Prop :=
  cash_spent_on_buys self - proceeds_from_sells self + cash self
  == initial_capital self.

(** The identity with the realized profit on its right-hand side. *)
Definition identity_as_claimed (self : Portfolio) : Prop :=
  cash_spent_on_buys self - proceeds_from_sells self + cash self
  == initial_capital self + total_realized_profit self.

(** The market value of a map of holdings, the fold of
    [get_holdings_value] on any map. *)
Definition value_of_holdings (hs : gmap string Holding)
    (current_prices : gmap string Q) : Q :=
  map_fold
    (λ stock_code holding acc,
       acc + inject_Z (quantity holding)
             * get (current_prices !! stock_code) (avg_price holding))
    0 hs.

(** The percentage [get_allocation] files for one holding when the
    portfolio is worth [total_value]. *)
Definition allocation_of (current_prices : gmap string Q) (total_value : Q)
    (stock_code : string) (holding : Holding) : Q :=
  round
    (inject_Z (quantity holding)
     * get (current_prices !! stock_code) (avg_price holding)
     / total_value * 100) 2.

(** The holdings valued at their average cost. *)
Definition cost_basis (self : Portfolio) : Q :=
  get_holdings_value self ∅.

(** Cash plus the cost of the open positions is the capital plus the
    realized profit. *)
Definition profit_reconciles (self : Portfolio) : Prop :=
  cash self + cost_basis self
  == initial_capital self + total_realized_profit self.

(** No holding of the map has a zero or negative quantity. *)
Definition holdings_positive (self : Portfolio) : Prop :=
  map_Forall (λ _ h, (0 < quantity h)%Z) (holdings self).

(** Every [buy] of the sequence asks for at least one share. *)
Definition buys_positive (orders : list Order) : Prop :=
  Forall
    (λ o, match o with
          | Buy _ _ _ _ qty _ => (0 < qty)%Z
          | Sell _ _ _ _ _ => True
          end)
    orders.

(** Every [sell] of the sequence is at a price and for a quantity that
    are not negative. *)
Definition sells_nonnegative (orders : list Order) : Prop :=
  Forall
    (λ o, match o with
          | Buy _ _ _ _ _ _ => True
          | Sell _ _ price qty _ => 0 <= price ∧ (0 ≤ qty)%Z
          end)
    orders.

(** The dates of the valuation series. *)
Definition valuation_dates (self : Portfolio) : list string :=
  dv_date <$> daily_values self.

(** Every holding has a quantity and a price (the current one, or the
    average cost when none is given) that are not negative. *)
Definition holdings_nonnegative (self : Portfolio)
    (current_prices : gmap string Q) : Prop :=
  map_Forall
    (λ code h,
       (0 ≤ quantity h)%Z
       ∧ 0 <= get (current_prices !! code) (avg_price h))
    (holdings self).

(** The number of orders of the sequence the ledger accepts, each in
    the state it meets. *)
Fixpoint accepted_count (self : Portfolio) (orders : list Order) : nat :=
  match orders with
  | [] => 0
  | o :: rest =>
      ((if is_accepted self o then 1 else 0)
       + accepted_count (execute self o) rest)%nat
  end.

(** The dates of the valuation series are distinct and are the dates of
    the transactions of the log. *)
Definition valuation_tracks_log (self : Portfolio) : Prop :=
  NoDup (valuation_dates self)
  ∧ ∀ d, d ∈ valuation_dates self ↔ d ∈ tx_date <$> transaction_history self.

(** The date an order is booked on: the one given, or the day of the
    clock. *)
Definition order_date (o : Order) : string :=
  match o with
  | Buy clk _ _ _ _ date | Sell clk _ _ _ date => get date (clock_today clk)
  end.

(** Every valuation of the series is zero or more. *)
Definition valuations_nonnegative (self : Portfolio) : Prop :=
  Forall (λ entry, 0 <= dv_value entry) (daily_values self).

End PortfolioLedger.

(** ** [modules/decision/engine.py] and [modules/decision/explainer.py] *)

Module Engine.

(** *** Configuration *)

Record Weights := {
  w_forecast : Q;
  w_sentiment : Q;
  w_anomaly : Q;
  w_technical : Q;
}.

Definition WEIGHTS : Weights :=
  {| w_forecast := 0.40; w_sentiment := 0.30;
     w_anomaly := 0.20; w_technical := 0.10 |}.

Record Thresholds := {
  th_buy : Q;
  th_sell : Q;
  th_strong_signal : Q;
}.

Definition THRESHOLDS : Thresholds :=
  {| th_buy := 3; th_sell := -3; th_strong_signal := 5 |}.

Definition PROFILE_MULTIPLIERS : gmap string Q :=
  {["conservative" := 0.5; "moderate" := 1; "aggressive" := 1.2]}.

(** *** What the signal sources return *)

(** The dictionary of [get_forecast]; the engine reads each key with
    [.get(key, default)]. *)
Record Forecast := {
  fc_trend : option Q;
  fc_confidence : option Q;
  fc_predictions : option (list Q);
}.

(** The dictionary of [get_sentiment]. *)
Record Sentiment := {
  st_score : option Q;
  st_num_articles : option Z;
  st_sample_headlines : option (list string);
}.

(** The dictionary of [get_anomalies]. *)
Record Anomalies := {
  an_any_anomaly : option bool;
  an_anomaly_score : option Q;
  an_volume_spike : option bool;
  an_price_spike : option bool;
  an_details : option string;
}.

Inductive MacdTrend := Bullish | Bearish.

(** The dictionary of [calculate_macd]. *)
Record Macd := {
  macd_value : Q;
  macd_signal : Q;
  macd_histogram : Q;
  macd_trend : MacdTrend;
}.

(** One hit of the market-memory search. *)
Record MemoryItem := {
  mi_text : option string;
  mi_score : option Q;
}.

(** The collaborators the engine calls for one instrument. Each call
    returns or raises. [get_technical] stands for loading the price
    history and computing [calculate_rsi] and [calculate_macd] on it;
    [memory_available] for building the store and asking
    [is_available()]; [memory_search collection query ticker] for
    embedding the query and searching one collection. When the module
    is loaded with [USE_MOCKS = False] the names [get_forecast],
    [get_sentiment] and [get_anomalies] are not bound, and calling them
    raises. *)
Record Adapters := {
  get_stock_name : string → Result string;
  get_current_price : string → Result Q;
  get_forecast : string → Result Forecast;
  get_sentiment : string → Result Sentiment;
  get_anomalies : string → Result Anomalies;
  get_technical : string → Result (option Q * option Macd);
  memory_available : Result bool;
  memory_search : string → string → string → Result (list MemoryItem);
}.

(** *** The signals dictionary *)

Inductive Direction := Up | Down | Stable | Unknown.

(** [signals['forecast']]: the record of a forecast, or the error entry
    (with direction ['unknown'] and magnitude 0). *)
Inductive ForecastSignal :=
| ForecastOf (direction : Direction) (magnitude confidence weight : Q)
             (predictions : list Q)
| ForecastError (error : string).

(** [signals['sentiment']]; the error entry has score 0. *)
Inductive SentimentSignal :=
| SentimentOf (score : Q) (num_articles : Z) (headlines : list string)
              (weight : Q)
| SentimentError (error : string).

(** [signals['anomaly']]; the error entry has [detected = False]. *)
Inductive AnomalySignal :=
| AnomalyOf (detected volume_spike price_spike : bool) (anomaly_score : Q)
            (details : string) (weight : Q)
| AnomalyError (error : string).

(** [signals['technical']]. *)
Inductive TechnicalSignal :=
| TechnicalOf (rsi : option Q) (macd : option Macd) (signal : string)
              (weight : Q)
| TechnicalError (error : string).

(** [signals['memory']]: the empty dictionary, or the three lists. *)
Inductive MemorySignal :=
| MemoryEmpty
| MemoryFound (news anomalies recommendations : list MemoryItem).

(** The [signals] dictionary; [None] is a key not set. *)
Record Signals := {
  sig_forecast : option ForecastSignal;
  sig_sentiment : option SentimentSignal;
  sig_anomaly : option AnomalySignal;
  sig_technical : option TechnicalSignal;
  sig_memory : option MemorySignal;
}.

(** The three locals [_calculate_decision_score] updates. *)
Record Scoring := {
  score : Q;
  signals : Signals;
  explanations : list string;
}.

Definition set_forecast (s : Signals) (v : ForecastSignal) : Signals :=
  {| sig_forecast := Some v; sig_sentiment := sig_sentiment s;
     sig_anomaly := sig_anomaly s; sig_technical := sig_technical s;
     sig_memory := sig_memory s |}.

Definition set_sentiment (s : Signals) (v : SentimentSignal) : Signals :=
  {| sig_forecast := sig_forecast s; sig_sentiment := Some v;
     sig_anomaly := sig_anomaly s; sig_technical := sig_technical s;
     sig_memory := sig_memory s |}.

Definition set_anomaly (s : Signals) (v : AnomalySignal) : Signals :=
  {| sig_forecast := sig_forecast s; sig_sentiment := sig_sentiment s;
     sig_anomaly := Some v; sig_technical := sig_technical s;
     sig_memory := sig_memory s |}.

Definition set_technical (s : Signals) (v : TechnicalSignal) : Signals :=
  {| sig_forecast := sig_forecast s; sig_sentiment := sig_sentiment s;
     sig_anomaly := sig_anomaly s; sig_technical := Some v;
     sig_memory := sig_memory s |}.

Definition set_memory (s : Signals) (v : MemorySignal) : Signals :=
  {| sig_forecast := sig_forecast s; sig_sentiment := sig_sentiment s;
     sig_anomaly := sig_anomaly s; sig_technical := sig_technical s;
     sig_memory := Some v |}.

(** *** [_calculate_decision_score], one [try] block at a time *)

(** Signal 1: forecasting. *)
Definition forecast_stage (ad : Adapters) (stock_code : string) (st : Scoring)
  : Scoring :=
  match get_forecast ad stock_code with
  | Ok forecast =>
      let trend := get (fc_trend forecast) 0 in
      let forecast_confidence := get (fc_confidence forecast) 0.5 in
      let '(score', direction, line) :=
        if decide (0.02 < trend) then
          (score st + Qmin (trend * 100) 4, Up,
           "Prevision positive: +" +:+ fmt_pct trend 1
           +:+ " attendu sur 5 jours")
        else if decide (trend < -0.02) then
          (score st + Qmax (trend * 100) (-4), Down,
           "Prevision negative: " +:+ fmt_pct trend 1
           +:+ " attendu sur 5 jours")
        else
          (score st, Stable, "Prevision stable, pas de tendance claire") in
      {| score := score';
         signals :=
           set_forecast (signals st)
             (ForecastOf direction (Qabs trend) forecast_confidence
                (w_forecast WEIGHTS) (get (fc_predictions forecast) []));
         explanations := explanations st ++ [line] |}
  | Raise e =>
      {| score := score st;
         signals := set_forecast (signals st) (ForecastError e);
         explanations := explanations st ++ ["Prevision non disponible"] |}
  end.

(** Signal 2: sentiment analysis. *)
Definition sentiment_stage (ad : Adapters) (stock_code : string) (st : Scoring)
  : Scoring :=
  match get_sentiment ad stock_code with
  | Ok sentiment =>
      let sent_score := get (st_score sentiment) 0 in
      let num_articles := get (st_num_articles sentiment) 0%Z in
      let '(score', line) :=
        if decide (0.4 < sent_score) then
          (score st + sent_score * 3,
           "Sentiment positif (" +:+ fmt_f sent_score 2 +:+ ") base sur "
           +:+ str_int num_articles +:+ " articles")
        else if decide (sent_score < -0.4) then
          (score st + sent_score * 3,
           "Sentiment negatif (" +:+ fmt_f sent_score 2
           +:+ ") - prudence recommandee")
        else if decide (0 < num_articles)%Z then
          (score st,
           "Sentiment neutre (" +:+ fmt_f sent_score 2
           +:+ ") - marche indecis")
        else
          (score st, "Pas d'articles recents pour l'analyse de sentiment") in
      {| score := score';
         signals :=
           set_sentiment (signals st)
             (SentimentOf sent_score num_articles
                (get (st_sample_headlines sentiment) [])
                (w_sentiment WEIGHTS));
         explanations := explanations st ++ [line] |}
  | Raise e =>
      {| score := score st;
         signals := set_sentiment (signals st) (SentimentError e);
         explanations :=
           explanations st ++ ["Analyse de sentiment non disponible"] |}
  end.

(** Signal 3: anomaly detection. *)
Definition anomaly_stage (ad : Adapters) (stock_code : string) (st : Scoring)
  : Scoring :=
  match get_anomalies ad stock_code with
  | Ok anomalies =>
      let has_anomaly := get (an_any_anomaly anomalies) false in
      let anomaly_score := get (an_anomaly_score anomalies) 0 in
      let volume_spike := get (an_volume_spike anomalies) false in
      let price_spike := get (an_price_spike anomalies) false in
      let '(score1, lines1) :=
        if volume_spike then
          (score st - 2,
           ["Pic de volume anormal detecte - possible manipulation"])
        else (score st, []) in
      let '(score2, lines2) :=
        if price_spike then
          (score1 - 1,
           ["Variation de prix inhabituelle sans actualite justificative"])
        else (score1, []) in
      let '(score3, lines3) :=
        if negb has_anomaly then
          (score2 + 1, ["Aucune anomalie detectee - trading normal"])
        else (score2, []) in
      {| score := score3;
         signals :=
           set_anomaly (signals st)
             (AnomalyOf has_anomaly volume_spike price_spike anomaly_score
                (get (an_details anomalies) EmptyString)
                (w_anomaly WEIGHTS));
         explanations := explanations st ++ lines1 ++ lines2 ++ lines3 |}
  | Raise e =>
      {| score := score st;
         signals := set_anomaly (signals st) (AnomalyError e);
         explanations :=
           explanations st ++ ["Detection d'anomalies non disponible"] |}
  end.

Definition trend_name (t : MacdTrend) : string :=
  match t with
  | Bullish => "bullish"
  | Bearish => "bearish"
  end.

(** Signal 4: technical indicators. *)
Definition technical_stage (ad : Adapters) (stock_code : string) (st : Scoring)
  : Scoring :=
  match get_technical ad stock_code with
  | Ok (rsi, macd) =>
      let macd_trend := macd_trend <$> macd in
      let '(score1, rsi_signal, lines1) :=
        match rsi with
        | Some r =>
            if decide (r < 30) then
              (score st + 1.5, "oversold",
               ["RSI indique survente (" +:+ fmt_f r 1
                +:+ ") - opportunite d'achat"])
            else if decide (70 < r) then
              (score st - 1.5, "overbought",
               ["RSI indique surachat (" +:+ fmt_f r 1
                +:+ ") - risque de correction"])
            else (score st, "neutral", [])
        | None => (score st, "neutral", [])
        end in
      let '(score2, lines2) :=
        match macd_trend with
        | Some Bullish => (score1 + 0.5, ["MACD confirme tendance haussiere"])
        | Some Bearish => (score1 - 0.5, ["MACD indique tendance baissiere"])
        | None => (score1, [])
        end in
      let signals' :=
        match rsi, macd with
        | None, None => signals st
        | _, _ =>
            set_technical (signals st)
              (TechnicalOf rsi macd
                 (match macd_trend with
                  | Some t => trend_name t
                  | None => rsi_signal
                  end)
                 (w_technical WEIGHTS))
        end in
      {| score := score2;
         signals := signals';
         explanations := explanations st ++ lines1 ++ lines2 |}
  | Raise e =>
      {| score := score st;
         signals := set_technical (signals st) (TechnicalError e);
         explanations := explanations st |}
  end.

(** The body of the [try] of signal 5 once the store is available: the
    query text and the search of the three collections. *)
Definition collect_memory (ad : Adapters) (stock_code : string)
  : Result (list MemoryItem * list MemoryItem * list MemoryItem) :=
  let! stock_name := get_stock_name ad stock_code in
  let query_text := stock_name +:+ " " +:+ stock_code +:+ " analyse" in
  let! news := memory_search ad "bvmt_news" query_text stock_code in
  let! anomalies := memory_search ad "bvmt_anomalies" query_text stock_code in
  let! recommendations :=
    memory_search ad "bvmt_recommendations" query_text stock_code in
  Ok (news, anomalies, recommendations).

(** Signal 5: market memory. It never touches the score. *)
Definition memory_stage (ad : Adapters) (stock_code : string) (st : Scoring)
  : Scoring :=
  match memory_available ad with
  | Ok true =>
      match collect_memory ad stock_code with
      | Ok (news, anomalies, recommendations) =>
          let total_evidence :=
            (length news + length anomalies + length recommendations)%nat in
          {| score := score st;
             signals :=
               set_memory (signals st)
                 (MemoryFound news anomalies recommendations);
             explanations :=
               if decide (0 < total_evidence)%nat then
                 explanations st
                 ++ ["Evidence semantique: "
                     +:+ str_int (Z.of_nat total_evidence)
                     +:+ " elements retrouves dans Market Memory"]
               else explanations st |}
      | Raise _ =>
          {| score := score st;
             signals := set_memory (signals st) MemoryEmpty;
             explanations := explanations st |}
      end
  | Ok false => st
  | Raise _ =>
      {| score := score st;
         signals := set_memory (signals st) MemoryEmpty;
         explanations := explanations st |}
  end.

Definition no_signals : Signals :=
  {| sig_forecast := None; sig_sentiment := None; sig_anomaly := None;
     sig_technical := None; sig_memory := None |}.

(** [_calculate_decision_score] *)
Definition _calculate_decision_score (ad : Adapters) (stock_code : string)
  : Scoring :=
  let st := {| score := 0; signals := no_signals; explanations := [] |} in
  let st := forecast_stage ad stock_code st in
  let st := sentiment_stage ad stock_code st in
  let st := anomaly_stage ad stock_code st in
  let st := technical_stage ad stock_code st in
  memory_stage ad stock_code st.

(** *** From the score to the decision *)

Inductive Recommendation := BUY | SELL | HOLD.

Inductive RiskLevel := LOW | MEDIUM | HIGH.

(** The first [if] of [_score_to_recommendation]: the buy and the sell
    threshold of a profile. *)
Definition profile_thresholds (user_profile : string) : Q * Q :=
  if decide (user_profile = "conservative") then (4, -4)
  else if decide (user_profile = "aggressive") then (2, -2)
  else (th_buy THRESHOLDS, th_sell THRESHOLDS).

(** The confidence before it is rounded. *)
Definition raw_confidence (score : Q) (user_profile : string)
  : Recommendation * Q :=
  let '(buy_threshold, sell_threshold) := profile_thresholds user_profile in
  if decide (buy_threshold <= score) then
    (BUY, Qmin (0.5 + (score - buy_threshold) * 0.1) 0.95)
  else if decide (score <= sell_threshold) then
    (SELL, Qmin (0.5 + (Qabs score - Qabs sell_threshold) * 0.1) 0.95)
  else
    (HOLD, 0.5 + Qabs score * 0.05).

(** [_score_to_recommendation] *)
Definition _score_to_recommendation (score : Q) (user_profile : string)
  : Recommendation * Q :=
  let '(recommendation, confidence) := raw_confidence score user_profile in
  (recommendation, round confidence 2).

(** [_assess_risk]; each [signals.get(key, {})] and [.get(key, default)]
    is read off the signal, the error entries having only their own
    keys. *)
Definition _assess_risk (signals : Signals) (score : Q) : RiskLevel :=
  let '(detected, anomaly_score) :=
    match sig_anomaly signals with
    | Some (AnomalyOf detected _ _ anomaly_score _ _) =>
        (detected, anomaly_score)
    | Some (AnomalyError _) | None => (false, 0)
    end in
  let forecast_confidence :=
    match sig_forecast signals with
    | Some (ForecastOf _ _ confidence _ _) => confidence
    | Some (ForecastError _) | None => 1
    end in
  let sentiment_score :=
    match sig_sentiment signals with
    | Some (SentimentOf score _ _ _) => score
    | Some (SentimentError _) | None => 0
    end in
  let rsi :=
    match sig_technical signals with
    | Some (TechnicalOf rsi _ _ _) => rsi
    | Some (TechnicalError _) | None => Some 50
    end in
  let risk_score := 0%nat in
  let risk_score := if detected then (risk_score + 2)%nat else risk_score in
  let risk_score :=
    if decide (0.7 < anomaly_score) then (risk_score + 1)%nat
    else risk_score in
  let risk_score :=
    if decide (forecast_confidence < 0.5) then (risk_score + 1)%nat
    else risk_score in
  let risk_score :=
    if decide (0.8 < Qabs sentiment_score) then (risk_score + 1)%nat
    else risk_score in
  let risk_score :=
    match rsi with
    | Some r =>
        if decide (¬ r == 0 ∧ (r < 20 ∨ 80 < r)) then (risk_score + 1)%nat
        else risk_score
    | None => risk_score
    end in
  let risk_score :=
    if decide (7 < Qabs score) then (risk_score + 1)%nat else risk_score in
  if decide (risk_score ≤ 1)%nat then LOW
  else if decide (risk_score ≤ 3)%nat then MEDIUM
  else HIGH.

(** [_generate_suggested_action] *)
Definition _generate_suggested_action (recommendation : Recommendation)
    (stock_name : string) (current_price confidence : Q)
    (user_profile : string) : string :=
  let '(qty_range, action_modifier) :=
    if decide (user_profile = "conservative") then ("20-50", "prudemment")
    else if decide (user_profile = "aggressive") then ("100-200", EmptyString)
    else ("50-100", EmptyString) in
  match recommendation with
  | BUY =>
      if decide (0.7 <= confidence) then
        "Acheter " +:+ action_modifier +:+ " " +:+ qty_range
        +:+ " actions de " +:+ stock_name +:+ " au prix actuel de "
        +:+ fmt_f current_price 2 +:+ " TND"
      else
        "Envisager l'achat de " +:+ qty_range
        +:+ " actions - surveiller le prix avant d'agir"
  | SELL =>
      if decide (0.7 <= confidence) then
        "Vendre " +:+ action_modifier +:+ " vos positions sur "
        +:+ stock_name +:+ " au prix de " +:+ fmt_f current_price 2
        +:+ " TND"
      else
        "Envisager de reduire votre position - placer un ordre stop-loss"
  | HOLD =>
      "Conserver votre position actuelle sur " +:+ stock_name
      +:+ " - pas d'action immediate"
  end.

(** The dictionary [make_recommendation] returns; the two explanation
    keys are added last. *)
Record Decision := {
  d_stock_code : string;
  d_stock_name : string;
  d_current_price : Q;
  d_recommendation : Recommendation;
  d_confidence : Q;
  d_score : Q;
  d_raw_score : Q;
  d_signals : Signals;
  d_risk_level : RiskLevel;
  d_suggested_action : string;
  d_user_profile : string;
  d_timestamp : string;
  d_explanation : option string;
  d_short_explanation : option string;
}.

(** *** [explainer.py] *)

Definition rule : string := repeat_char "-"%char 40.

(** The lines of one category of memory evidence: the first two items,
    [text[:100]] and the score. *)
Definition evidence_lines (label : string) (items : list MemoryItem)
  : list string :=
  (λ item,
     "  [" +:+ label +:+ "] "
     +:+ String.substring 0 100 (get (mi_text item) EmptyString)
     +:+ "... (Score: " +:+ fmt_f (get (mi_score item) 0) 2 +:+ ")")
    <$> take 2 items.

(** [_generate_french_explanation]. It raises where Python does: the
    comparison [rsi < 30] when the technical entry holds [rsi = None]. *)
Definition _generate_french_explanation (data : Decision) : Result string :=
  let rec := d_recommendation data in
  let stock_name := d_stock_name data in
  let confidence := d_confidence data in
  let signals := d_signals data in
  let risk := d_risk_level data in
  let '(header, color_hint) :=
    match rec with
    | BUY => ("RECOMMANDATION: ACHETER " +:+ stock_name, "(Signal positif)")
    | SELL => ("RECOMMANDATION: VENDRE " +:+ stock_name, "(Signal negatif)")
    | HOLD => ("RECOMMANDATION: CONSERVER " +:+ stock_name, "(Signal neutre)")
    end in
  let lines :=
    [header;
     "Confiance: " +:+ fmt_pct confidence 0 +:+ " " +:+ color_hint;
     EmptyString;
     "ANALYSE DETAILLEE:";
     rule] in
  let lines :=
    match sig_forecast signals with
    | Some (ForecastOf Up magnitude _ _ _) =>
        lines
        ++ ["  Prevision: Hausse attendue de +" +:+ fmt_pct magnitude 1
            +:+ " sur 5 jours";
            "            Le modele de prediction indique une tendance haussiere"]
    | Some (ForecastOf Down magnitude _ _ _) =>
        lines
        ++ ["  Prevision: Baisse attendue de " +:+ fmt_pct magnitude 1
            +:+ " sur 5 jours";
            "            Le modele de prediction indique une tendance baissiere"]
    | Some (ForecastOf _ _ _ _ _) | Some (ForecastError _) =>
        lines
        ++ ["  Prevision: Tendance stable, pas de mouvement significatif attendu"]
    | None => lines
    end in
  let lines := lines ++ [EmptyString] in
  let lines :=
    match sig_sentiment signals with
    | Some sentiment =>
        let '(score, num_articles) :=
          match sentiment with
          | SentimentOf score num_articles _ _ => (score, num_articles)
          | SentimentError _ => (0, 0%Z)
          end in
        let '(sentiment_text, emoji) :=
          if decide (0.3 < score) then ("positif", "(+)")
          else if decide (score < -0.3) then ("negatif", "(-)")
          else ("neutre", "(=)") in
        lines
        ++ ["  Sentiment: " +:+ upper sentiment_text +:+ " " +:+ emoji;
            "            Score: " +:+ fmt_f score 2 +:+ "/1.0 base sur "
            +:+ str_int num_articles +:+ " articles recents"]
    | None => lines
    end in
  let lines := lines ++ [EmptyString] in
  let lines :=
    match sig_anomaly signals with
    | Some anomaly =>
        let '(detected, details) :=
          match anomaly with
          | AnomalyOf detected _ _ _ details _ => (detected, details)
          | AnomalyError _ => (false, EmptyString)
          end in
        if detected then
          lines
          ++ ["  Anomalies: DETECTEES (!)";
              "            " +:+ details;
              "            Prudence recommandee - activite inhabituelle"]
        else
          lines
          ++ ["  Anomalies: Aucune detectee";
              "            Trading normal, pas de comportement suspect"]
    | None => lines
    end in
  let lines := lines ++ [EmptyString] in
  let! lines :=
    match sig_technical signals with
    | Some (TechnicalOf (Some rsi) _ _ _) =>
        let rsi_text :=
          if decide (rsi < 30) then
            "SURVENTE (opportunite d'achat potentielle)"
          else if decide (70 < rsi) then "SURACHAT (risque de correction)"
          else "zone neutre" in
        Ok (lines
            ++ ["  RSI: " +:+ fmt_f rsi 1 +:+ " - " +:+ rsi_text;
                EmptyString])
    | Some (TechnicalOf None _ _ _) =>
        Raise "'<' not supported between instances of 'NoneType' and 'int'"
    | Some (TechnicalError _) | None => Ok lines
    end in
  let lines :=
    match sig_memory signals with
    | Some (MemoryFound news anomalies recommendations) =>
        let evidence_count :=
          (length news + length anomalies + length recommendations)%nat in
        lines
        ++ [rule; "EVIDENCE RETROUVEE (Market Memory):"; EmptyString]
        ++ evidence_lines "Actualite" news
        ++ evidence_lines "Anomalie" anomalies
        ++ evidence_lines "Recommandation" recommendations
        ++ (if decide (evidence_count = 0)%nat then
              ["  Aucune evidence semantique trouvee dans la memoire du marche"]
            else
              [EmptyString;
               "  Total: " +:+ str_int (Z.of_nat evidence_count)
               +:+ " elements pertinents trouves"])
        ++ [EmptyString]
    | Some MemoryEmpty | None =>
        lines
        ++ [rule; "(Mode offline: memoire semantique indisponible)";
            EmptyString]
    end in
  let risk_text :=
    match risk with
    | LOW => "FAIBLE - Volatilite reduite, investissement stable"
    | MEDIUM => "MOYEN - Volatilite moderee, surveiller les positions"
    | HIGH => "ELEVE - Forte volatilite, position speculative"
    end in
  let lines :=
    lines ++ [rule; "NIVEAU DE RISQUE: " +:+ risk_text; EmptyString] in
  let suggested := d_suggested_action data in
  let lines :=
    if decide (suggested = EmptyString) then lines
    else lines ++ [rule; "ACTION SUGGEREE: " +:+ suggested] in
  Ok (join_lines lines).

(** [generate_explanation] with its default language ['fr'], the only
    way the engine calls it. *)
Definition generate_explanation (data : Decision) : Result string :=
  _generate_french_explanation data.

(** [generate_short_explanation] *)
Definition generate_short_explanation (data : Decision) : string :=
  let stock_name := d_stock_name data in
  let confidence := d_confidence data in
  match d_recommendation data with
  | BUY =>
      "ACHETER " +:+ stock_name +:+ " (confiance: "
      +:+ fmt_pct confidence 0 +:+ ") - Signaux positifs detectes"
  | SELL =>
      "VENDRE " +:+ stock_name +:+ " (confiance: "
      +:+ fmt_pct confidence 0 +:+ ") - Signaux negatifs detectes"
  | HOLD => "CONSERVER " +:+ stock_name +:+ " - Pas de signal fort, attendre"
  end.

(** *** [make_recommendation] *)

Definition set_explanations (d : Decision) (explanation short : option string)
  : Decision :=
  {| d_stock_code := d_stock_code d;
     d_stock_name := d_stock_name d;
     d_current_price := d_current_price d;
     d_recommendation := d_recommendation d;
     d_confidence := d_confidence d;
     d_score := d_score d;
     d_raw_score := d_raw_score d;
     d_signals := d_signals d;
     d_risk_level := d_risk_level d;
     d_suggested_action := d_suggested_action d;
     d_user_profile := d_user_profile d;
     d_timestamp := d_timestamp d;
     d_explanation := explanation;
     d_short_explanation := short |}.

(** [make_recommendation]; [clk] is the reading of [datetime.now()]
    taken while the result is built. *)
Definition make_recommendation (ad : Adapters) (clk : Clock)
    (stock_code user_profile : string) : Result Decision :=
  let! stock_name := get_stock_name ad stock_code in
  let! current_price := get_current_price ad stock_code in
  let st := _calculate_decision_score ad stock_code in
  let profile_mult := get (PROFILE_MULTIPLIERS !! user_profile) 1 in
  let adjusted_score := score st * profile_mult in
  let '(recommendation, confidence) :=
    _score_to_recommendation adjusted_score user_profile in
  let risk_level := _assess_risk (signals st) (score st) in
  let suggested_action :=
    _generate_suggested_action recommendation stock_name current_price
      confidence user_profile in
  let result :=
    {| d_stock_code := stock_code;
       d_stock_name := stock_name;
       d_current_price := current_price;
       d_recommendation := recommendation;
       d_confidence := confidence;
       d_score := round adjusted_score 2;
       d_raw_score := round (score st) 2;
       d_signals := signals st;
       d_risk_level := risk_level;
       d_suggested_action := suggested_action;
       d_user_profile := user_profile;
       d_timestamp := clock_isoformat clk;
       d_explanation := None;
       d_short_explanation := None |} in
  let! explanation := generate_explanation result in
  let result := set_explanations result (Some explanation) None in
  Ok (set_explanations result (Some explanation)
        (Some (generate_short_explanation result))).

(** *** Batch analysis *)

#[global] Instance Recommendation_eq_dec : EqDecision Recommendation.
Proof. solve_decision. Defined.

(** The loop the three batch functions share: one call of
    [make_recommendation] per code, in order; [now i] is the reading of
    the wall clock during the call for the [i]-th code. *)
Definition recommend_each (ad : Adapters) (now : nat → Clock)
    (stock_codes : list string) (user_profile : string)
  : list (string * Result Decision) :=
  imap (λ i code, (code, make_recommendation ad (now i) code user_profile))
    stock_codes.

(** The results of the calls that returned; [except: continue] drops
    the others. *)
Definition recommend_all (ad : Adapters) (now : nat → Clock)
    (stock_codes : list string) (user_profile : string) : list Decision :=
  omap
    (λ call, match snd call with
             | Ok rec => Some rec
             | Raise _ => None
             end)
    (recommend_each ad now stock_codes user_profile).

(** [get_top_recommendations]; [stock_codes] is what
    [get_all_stock_codes()] returns. *)
Definition get_top_recommendations (ad : Adapters) (now : nat → Clock)
    (stock_codes : list string) (n : Z)
    (user_profile recommendation_type : string) : list Decision :=
  let all_recommendations := recommend_all ad now stock_codes user_profile in
  let all_recommendations :=
    if decide (recommendation_type = "buy") then
      filter (λ r, d_recommendation r = BUY) all_recommendations
    else if decide (recommendation_type = "sell") then
      filter (λ r, d_recommendation r = SELL) all_recommendations
    else all_recommendations in
  let all_recommendations :=
    sorted_by (λ a b, bool_decide (Qabs (d_score b) < Qabs (d_score a)))
      all_recommendations in
  slice_to all_recommendations n.

(** An item of the list of [analyze_portfolio_stocks]: a decision, or
    the dictionary filed when the call raised. *)
Inductive Analysis :=
| Analysed (rec : Decision)
| AnalysisFailed (stock_code error : string).

Definition analysis_stock_code (a : Analysis) : string :=
  match a with
  | Analysed rec => d_stock_code rec
  | AnalysisFailed stock_code _ => stock_code
  end.

Definition analysis_recommendation (a : Analysis) : Recommendation :=
  match a with
  | Analysed rec => d_recommendation rec
  | AnalysisFailed _ _ => HOLD
  end.

Definition analysis_confidence (a : Analysis) : Q :=
  match a with
  | Analysed rec => d_confidence rec
  | AnalysisFailed _ _ => 0
  end.

(** [analyze_portfolio_stocks] *)
Definition analyze_portfolio_stocks (ad : Adapters) (now : nat → Clock)
    (stock_codes : list string) (user_profile : string) : list Analysis :=
  (λ call, match snd call with
           | Ok rec => Analysed rec
           | Raise e => AnalysisFailed (fst call) e
           end)
    <$> recommend_each ad now stock_codes user_profile.

Inductive MarketMood := HAUSSIER | BAISSIER | NEUTRE.

(** The dictionary of [get_market_summary]. *)
Record MarketSummary := {
  ms_overall_sentiment : MarketMood;
  ms_buy_signals : nat;
  ms_sell_signals : nat;
  ms_hold_signals : nat;
  ms_total_analyzed : nat;
  ms_top_buys : list Decision;
  ms_top_sells : list Decision;
  ms_alerts : list string;
  ms_timestamp : string;
}.

(** [sum(1 for r in all_recs if r['recommendation'] == rec)] *)
Definition count_of (rec : Recommendation) (all_recs : list Decision) : nat :=
  length (filter (λ r, d_recommendation r = rec) all_recs).

Definition recommendation_name (rec : Recommendation) : string :=
  match rec with
  | BUY => "BUY"
  | SELL => "SELL"
  | HOLD => "HOLD"
  end.

(** [signals.get('anomaly', {}).get('detected', False)] *)
Definition anomaly_detected (signals : Signals) : bool :=
  match sig_anomaly signals with
  | Some (AnomalyOf detected _ _ _ _ _) => detected
  | Some (AnomalyError _) | None => false
  end.

(** The alerts one decision adds in the last loop of
    [get_market_summary]. *)
Definition alerts_of (rec : Decision) : list string :=
  (if anomaly_detected (d_signals rec)
   then ["Anomalie detectee sur " +:+ d_stock_name rec] else [])
  ++ (if decide (0.8 <= d_confidence rec)
      then ["Signal fort: " +:+ recommendation_name (d_recommendation rec)
            +:+ " " +:+ d_stock_name rec]
      else []).

(** [get_market_summary]; [clk] is the reading of the wall clock when
    the summary is built. *)
Definition get_market_summary (ad : Adapters) (now : nat → Clock) (clk : Clock)
    (stock_codes : list string) (user_profile : string) : MarketSummary :=
  let all_recs := recommend_all ad now stock_codes user_profile in
  let buy_count := count_of BUY all_recs in
  let sell_count := count_of SELL all_recs in
  let hold_count := count_of HOLD all_recs in
  let overall :=
    if decide (inject_Z (Z.of_nat sell_count) * 1.5
               < inject_Z (Z.of_nat buy_count))
    then HAUSSIER
    else if decide (inject_Z (Z.of_nat buy_count) * 1.5
                    < inject_Z (Z.of_nat sell_count))
    then BAISSIER
    else NEUTRE in
  let buys :=
    take 5
      (sorted_by (λ a b, bool_decide (d_score b < d_score a))
         (filter (λ r, d_recommendation r = BUY) all_recs)) in
  let sells :=
    take 5
      (sorted_by (λ a b, bool_decide (d_score a < d_score b))
         (filter (λ r, d_recommendation r = SELL) all_recs)) in
  let alerts := all_recs ≫= alerts_of in
  {| ms_overall_sentiment := overall;
     ms_buy_signals := buy_count;
     ms_sell_signals := sell_count;
     ms_hold_signals := hold_count;
     ms_total_analyzed := length all_recs;
     ms_top_buys := buys;
     ms_top_sells := sells;
     ms_alerts := take 10 alerts;
     ms_timestamp := clock_isoformat clk |}.

(** *** Statements about a decision *)

(** The decision with another timestamp. *)
Definition with_timestamp (d : Decision) (timestamp : string) : Decision :=
  {| d_stock_code := d_stock_code d;
     d_stock_name := d_stock_name d;
     d_current_price := d_current_price d;
     d_recommendation := d_recommendation d;
     d_confidence := d_confidence d;
     d_score := d_score d;
     d_raw_score := d_raw_score d;
     d_signals := d_signals d;
     d_risk_level := d_risk_level d;
     d_suggested_action := d_suggested_action d;
     d_user_profile := d_user_profile d;
     d_timestamp := timestamp;
     d_explanation := d_explanation d;
     d_short_explanation := d_short_explanation d |}.

(** The buy threshold of a profile. *)
Definition buy_threshold (user_profile : string) : Q :=
  fst (profile_thresholds user_profile).

(** The recommendation as the design document words it: BUY at or
    above the threshold, SELL at or below its negation, HOLD between. *)
Definition claimed_recommendation (score : Q) (user_profile : string)
  : Recommendation :=
  if decide (buy_threshold user_profile <= score) then BUY
  else if decide (score <= - buy_threshold user_profile) then SELL
  else HOLD.

(** The confidence as the design document words it. *)
Definition claimed_confidence (r : Recommendation) (score : Q)
    (user_profile : string) : Q :=
  match r with
  | BUY | SELL =>
      Qmin (0.5 + (Qabs score - buy_threshold user_profile) * 0.1) 0.95
  | HOLD => 0.5 + Qabs score * 0.05
  end.

(** The adapters with the forecast source failing. *)
Definition without_forecast (ad : Adapters) : Adapters :=
  {| get_stock_name := get_stock_name ad;
     get_current_price := get_current_price ad;
     get_forecast := λ _, Raise "forecast unavailable";
     get_sentiment := get_sentiment ad;
     get_anomalies := get_anomalies ad;
     get_technical := get_technical ad;
     memory_available := memory_available ad;
     memory_search := memory_search ad |}.

(** The locals of [_calculate_decision_score] before the first stage,
    and the four stages that follow the forecast. *)
Definition initial_scoring : Scoring :=
  {| score := 0; signals := no_signals; explanations := [] |}.

Definition later_stages (ad : Adapters) (stock_code : string) (st : Scoring)
  : Scoring :=
  memory_stage ad stock_code
    (technical_stage ad stock_code
       (anomaly_stage ad stock_code (sentiment_stage ad stock_code st))).

(** Two scoring states whose scores differ by [d]. *)
Definition shifted (d : Q) (st st' : Scoring) : Prop :=
  score st' == score st + d.

(** What the forecast adds to the raw score: the score with the
    forecast source as it is, minus the score with it unavailable. *)
Definition forecast_contribution (ad : Adapters) (stock_code : string) : Q :=
  score (_calculate_decision_score ad stock_code)
  - score (_calculate_decision_score (without_forecast ad) stock_code).

(** The [TypeError] of the comparison [rsi < 30] on [rsi = None]. *)
Definition explanation_error : string :=
  "'<' not supported between instances of 'NoneType' and 'int'".

(** The adapters with another market memory. *)
Definition with_memory (ad : Adapters) (available : Result bool)
    (search : string → string → string → Result (list MemoryItem)) : Adapters :=
  {| get_stock_name := get_stock_name ad;
     get_current_price := get_current_price ad;
     get_forecast := get_forecast ad;
     get_sentiment := get_sentiment ad;
     get_anomalies := get_anomalies ad;
     get_technical := get_technical ad;
     memory_available := available;
     memory_search := search |}.

(** What a decision tells the user to do and how sure it is: every key
    of the result but the signals, the explanations and the timestamp. *)
Definition verdict (d : Decision)
  : Recommendation * Q * Q * Q * RiskLevel * string :=
  (d_recommendation d, d_confidence d, d_score d, d_raw_score d,
   d_risk_level d, d_suggested_action d).

(** SELL below HOLD below BUY. *)
Definition recommendation_rank (rec : Recommendation) : Z :=
  match rec with
  | SELL => -1
  | HOLD => 0
  | BUY => 1
  end.

(** The forecast, sentiment and anomaly sources all raise for the
    instrument, as they do when the module is loaded with
    [USE_MOCKS = False]. *)
Definition sources_unavailable (ad : Adapters) (stock_code : string) : Prop :=
  (∃ e, get_forecast ad stock_code = Raise e)
  ∧ (∃ e, get_sentiment ad stock_code = Raise e)
  ∧ (∃ e, get_anomalies ad stock_code = Raise e).

(** The sentiment source, when it answers, gives a score between -1
    and 1. *)
Definition sentiment_in_range (ad : Adapters) (stock_code : string) : Prop :=
  ∀ s, get_sentiment ad stock_code = Ok s →
       -1 <= get (st_score s) 0 ∧ get (st_score s) 0 <= 1.

End Engine.

(** ** Concrete inputs *)

Module Samples.
Import PortfolioLedger Engine.

Definition clock0 : Clock :=
  {| clock_today := "2026-02-07"; clock_isoformat := "2026-02-07T10:00:00" |}.

Definition clock1 : Clock :=
  {| clock_today := "2026-02-07"; clock_isoformat := "2026-02-07T10:00:01" |}.

(** Thirty-one instruments, one share of each bought at 1. *)
Definition equal_weight_orders : list Order :=
  (λ n, let code := "S" +:+ str_int (Z.of_nat n) in
        Buy clock0 code code 1 1 None) <$> seq 1 31.

(** The two positions of the integration test. *)
Definition two_positions : Portfolio :=
  run (init clock0 10000 "P")
    [Buy clock0 "TN0001600154" "ATTIJARI BANK" 51.5 50 None;
     Buy clock0 "TN0001800457" "BIAT" 93.9 20 None].

Definition two_prices : gmap string Q :=
  {["TN0001600154" := 53; "TN0001800457" := 92.5]}.

(** A forecast of +5% held with confidence 0.85, every other source
    unavailable. *)
Definition forecast_only : Adapters :=
  {| get_stock_name := λ _, Ok "ATTIJARI BANK";
     get_current_price := λ _, Ok 51.5;
     get_forecast :=
       λ _, Ok {| fc_trend := Some 0.05; fc_confidence := Some 0.85;
                  fc_predictions := None |};
     get_sentiment := λ _, Raise "unavailable";
     get_anomalies := λ _, Raise "unavailable";
     get_technical := λ _, Raise "unavailable";
     memory_available := Ok false;
     memory_search := λ _ _ _, Raise "unavailable" |}.

(** A buy and a partial sell on the same day. *)
Definition day_trades : list Order :=
  [Buy clock0 "TN0001800457" "BIAT" 90 10 None;
   Sell clock0 "TN0001800457" 95 4 None].

(** One position of 20 shares and three daily valuations. *)
Definition held_lot : Holding :=
  {| stock_name := "BIAT"; quantity := 20; avg_price := 93.9;
     first_buy_date := "2026-02-05"; last_buy_date := Some "2026-02-05" |}.

Definition held_position : Portfolio :=
  {| name := "P";
     initial_capital := 10000;
     cash := 8122;
     holdings := {["TN0001800457" := held_lot]};
     transaction_history := [];
     daily_snapshots := [];
     daily_values :=
       [{| dv_date := "2026-02-05"; dv_value := 10000 |};
        {| dv_date := "2026-02-06"; dv_value := 10050 |};
        {| dv_date := "2026-02-07"; dv_value := 10050 |}];
     created_at := "2026-02-05T09:00:00" |}.

(** Every source answers: a forecast of +3%, a positive sentiment, a
    volume spike, a neutral RSI. *)
Definition volume_spike_report : Anomalies :=
  {| an_any_anomaly := Some true; an_anomaly_score := Some 0.4;
     an_volume_spike := Some true; an_price_spike := Some false;
     an_details := Some "volume" |}.

Definition full_signals : Adapters :=
  {| get_stock_name := λ _, Ok "BIAT";
     get_current_price := λ _, Ok 93.9;
     get_forecast :=
       λ _, Ok {| fc_trend := Some 0.03; fc_confidence := Some 0.8;
                  fc_predictions := None |};
     get_sentiment :=
       λ _, Ok {| st_score := Some 0.6; st_num_articles := Some 4%Z;
                  st_sample_headlines := None |};
     get_anomalies := λ _, Ok volume_spike_report;
     get_technical := λ _, Ok (Some 45, None);
     memory_available := Ok false;
     memory_search := λ _ _ _, Raise "unavailable" |}.

(** The forecast, sentiment and anomaly sources raise; the price
    history gives an oversold RSI and a bullish MACD. *)
Definition technical_only : Adapters :=
  {| get_stock_name := λ _, Ok "BIAT";
     get_current_price := λ _, Ok 93.9;
     get_forecast := λ _, Raise "name 'get_forecast' is not defined";
     get_sentiment := λ _, Raise "name 'get_sentiment' is not defined";
     get_anomalies := λ _, Raise "name 'get_anomalies' is not defined";
     get_technical :=
       λ _, Ok (Some 25,
                Some {| macd_value := 0.4; macd_signal := 0.1;
                        macd_histogram := 0.3; macd_trend := Bullish |});
     memory_available := Ok false;
     memory_search := λ _ _ _, Raise "unavailable" |}.

(** Every source at its most bearish: a forecast of -5%, a sentiment
    of -1, a volume and a price spike, an overbought RSI and a bearish
    MACD. *)
Definition all_bearish : Adapters :=
  {| get_stock_name := λ _, Ok "BIAT";
     get_current_price := λ _, Ok 93.9;
     get_forecast :=
       λ _, Ok {| fc_trend := Some (-0.05); fc_confidence := Some 0.8;
                  fc_predictions := None |};
     get_sentiment :=
       λ _, Ok {| st_score := Some (-1); st_num_articles := Some 4%Z;
                  st_sample_headlines := None |};
     get_anomalies :=
       λ _, Ok {| an_any_anomaly := Some true; an_anomaly_score := Some 0.9;
                  an_volume_spike := Some true; an_price_spike := Some true;
                  an_details := Some "volume, price" |};
     get_technical :=
       λ _, Ok (Some 75,
                Some {| macd_value := -0.4; macd_signal := -0.1;
                        macd_histogram := -0.3; macd_trend := Bearish |});
     memory_available := Ok false;
     memory_search := λ _ _ _, Raise "unavailable" |}.

End Samples.

(** ** Rounding *)

Module RoundingFacts.

Lemma round_half_even_error x :
  Qabs (inject_Z (round_half_even x) - x) <= 1 # 2.
Proof.
  unfold round_half_even.
  pose proof (Qfloor_le x) as Hlo. pose proof (Qlt_floor x) as Hhi.
  rewrite inject_Z_plus in Hhi.
  change (inject_Z 1) with 1 in Hhi.
  apply Qabs_Qle_condition.
  destruct (Qcompare_spec (x - inject_Z (Qfloor x)) (1 # 2)) as [He|Hl|Hg];
    [destruct (Z.even (Qfloor x))| |];
    rewrite ?inject_Z_plus; change (inject_Z 1) with 1; lra.
Qed.

Lemma pow10_pos n : 0 < inject_Z (pow10 n).
Proof.
  rewrite <- (Zlt_Qlt 0). unfold pow10. apply Z.pow_pos_nonneg; lia.
Qed.

(** [round(x, n)] is within half a unit of the [n]-th decimal of [x]. *)
Lemma round_error x n :
  Qabs (round x n - x) <= (1 # 2) / inject_Z (pow10 n).
Proof.
  unfold round. pose proof (pow10_pos n) as Hs.
  set (s := inject_Z (pow10 n)) in *.
  pose proof (round_half_even_error (x * s)) as H.
  apply Qabs_Qle_condition in H. apply Qabs_Qle_condition.
  set (r := inject_Z (round_half_even (x * s))) in *.
  assert (Hr : r / s - x == (r - x * s) / s) by (field; lra).
  rewrite Hr. split.
  - apply Qle_shift_div_l; [done|]. 
    assert (- ((1 # 2) / s) * s == - (1 # 2)) as -> by (field; lra). lra.
  - apply Qle_shift_div_r; [done|].
    assert ((1 # 2) / s * s == (1 # 2)) as -> by (field; lra). lra.
Qed.

Lemma round_error_cents x : Qabs (round x 2 - x) <= 1 # 200.
Proof. apply (round_error x 2). Qed.

(** A value that already has [n] decimals is left as it is. *)
Lemma round_half_even_integer z : round_half_even (inject_Z z) = z.
Proof.
  unfold round_half_even. rewrite Qfloor_Z.
  destruct (Qcompare_spec (inject_Z z - inject_Z z) (1 # 2)) as [He|Hl|Hg];
    [lra | done | lra].
Qed.

Lemma round_half_even_comp x y : x == y → round_half_even x = round_half_even y.
Proof.
  intros Hxy. unfold round_half_even. rewrite (Qfloor_comp _ _ Hxy).
  assert (Hc : Qcompare (x - inject_Z (Qfloor y)) (1 # 2)
               = Qcompare (y - inject_Z (Qfloor y)) (1 # 2))
    by (by rewrite Hxy).
  by rewrite Hc.
Qed.

Lemma round_half_even_mono x y :
  x <= y → (round_half_even x <= round_half_even y)%Z.
Proof.
  intros Hxy. unfold round_half_even.
  pose proof (Qfloor_resp_le _ _ Hxy) as Hf.
  pose proof (Qfloor_le x) as Hxl. pose proof (Qlt_floor x) as Hxh.
  pose proof (Qfloor_le y) as Hyl. pose proof (Qlt_floor y) as Hyh.
  rewrite inject_Z_plus in Hxh, Hyh. change (inject_Z 1) with 1 in Hxh, Hyh.
  destruct (Z.eq_dec (Qfloor x) (Qfloor y)) as [Heq|Hne].
  - rewrite Heq in *.
    destruct (Qcompare_spec (x - inject_Z (Qfloor y)) (1 # 2));
      destruct (Qcompare_spec (y - inject_Z (Qfloor y)) (1 # 2));
      destruct (Z.even (Qfloor y)); try lia; lra.
  - assert (Hlt : (Qfloor x + 1 <= Qfloor y)%Z) by lia.
    destruct (Qcompare_spec (x - inject_Z (Qfloor x)) (1 # 2));
      destruct (Qcompare_spec (y - inject_Z (Qfloor y)) (1 # 2));
      destruct (Z.even (Qfloor x)); destruct (Z.even (Qfloor y)); lia.
Qed.

#[global] Instance round_proper : Proper (Qeq ==> eq ==> Qeq) round.
Proof.
  intros x y Hxy n ? <-. unfold round.
  by rewrite (round_half_even_comp (x * inject_Z (pow10 n))
                (y * inject_Z (pow10 n))) by (by rewrite Hxy).
Qed.

Lemma round_mono x y n : x <= y → round x n <= round y n.
Proof.
  intros Hxy. unfold round. pose proof (pow10_pos n) as Hs.
  apply Qmult_le_compat_r; [|apply Qlt_le_weak, Qinv_lt_0_compat, Hs].
  rewrite <- Zle_Qle. apply round_half_even_mono.
  apply Qmult_le_compat_r; [done | lra].
Qed.

(** [round] fixes the multiples of [10^-n]. *)
Lemma round_fixed z n : round (inject_Z z / inject_Z (pow10 n)) n
                        == inject_Z z / inject_Z (pow10 n).
Proof.
  unfold round. pose proof (pow10_pos n) as Hs.
  rewrite (round_half_even_comp _ (inject_Z z)); [|field; lra].
  by rewrite round_half_even_integer.
Qed.

End RoundingFacts.

(** ** Properties of the portfolio ledger *)

Module LedgerFacts.
Import PortfolioLedger Samples.

(** [_record_daily_value] writes the valuation series and nothing else. *)
Section RecordDailyValue.
Context (self : Portfolio) (date : string) (overrides : option (gmap string Q)).

Lemma record_daily_value_cash :
  cash (_record_daily_value self date overrides) = cash self.
Proof. unfold _record_daily_value. by destruct (update_latest _ _ _). Qed.

Lemma record_daily_value_holdings :
  holdings (_record_daily_value self date overrides) = holdings self.
Proof. unfold _record_daily_value. by destruct (update_latest _ _ _). Qed.

Lemma record_daily_value_history :
  transaction_history (_record_daily_value self date overrides)
  = transaction_history self.
Proof. unfold _record_daily_value. by destruct (update_latest _ _ _). Qed.

Lemma record_daily_value_initial_capital :
  initial_capital (_record_daily_value self date overrides)
  = initial_capital self.
Proof. unfold _record_daily_value. by destruct (update_latest _ _ _). Qed.
End RecordDailyValue.

Create Rewrite HintDb ledger.
#[export] Hint Rewrite record_daily_value_cash record_daily_value_holdings
  record_daily_value_history record_daily_value_initial_capital : ledger.

(** Unfold one call of [buy] or [sell] and split on its guards. *)
Ltac ledger_step :=
  unfold buy, sell; simpl;
  repeat first
    [ case_decide
    | match goal with
      | |- context [match holdings ?p !! ?c with _ => _ end] =>
          destruct (holdings p !! c) eqn:?
      end ];
  simpl; autorewrite with ledger; simpl.

Lemma total_of_snoc t history tx :
  total_of t (history ++ [tx])
  = if decide (tx_type tx = t) then total_of t history + tx_total tx
    else total_of t history.
Proof. unfold total_of. by rewrite foldl_app. Qed.

Lemma total_realized_profit_snoc self tx :
  foldl
    (λ acc tx,
       match tx_type tx with
       | SELL => acc + get (tx_profit_loss tx) 0
       | BUY => acc
       end)
    0 (transaction_history self ++ [tx])
  = match tx_type tx with
    | SELL => total_realized_profit self + get (tx_profit_loss tx) 0
    | BUY => total_realized_profit self
    end.
Proof. unfold total_realized_profit. by rewrite foldl_app. Qed.

Lemma cash_reconciles_init clk capital nm : cash_reconciles (init clk capital nm).
Proof.
  unfold cash_reconciles, cash_spent_on_buys, proceeds_from_sells, total_of.
  simpl. lra.
Qed.

Lemma cash_reconciles_execute self o :
  cash_reconciles self → cash_reconciles (execute self o).
Proof.
  unfold cash_reconciles, cash_spent_on_buys, proceeds_from_sells.
  intros H. destruct o; simpl; ledger_step; try done;
    rewrite !total_of_snoc; simpl; lra.
Qed.

Lemma cash_reconciles_run orders : ∀ self,
  cash_reconciles self → cash_reconciles (run self orders).
Proof.
  induction orders as [|o rest IH]; intros self H; [done|].
  apply IH, cash_reconciles_execute, H.
Qed.


Lemma initial_capital_execute self o :
  initial_capital (execute self o) = initial_capital self.
Proof. destruct o; simpl; ledger_step; done. Qed.

Lemma initial_capital_run orders : ∀ self,
  initial_capital (run self orders) = initial_capital self.
Proof.
  induction orders as [|o rest IH]; intros self; [done|].
  simpl. unfold run in IH. by rewrite IH, initial_capital_execute.
Qed.

(** *** What an accepted or a rejected [buy] does to the holdings *)


Lemma buy_accepted_funds clk self code nm price qty date msg tx :
  snd (buy clk self code nm price qty date) = BuyOk msg tx →
  price * inject_Z qty <= cash self.
Proof. unfold buy. case_decide; simpl; [done|]. intros _. lra. Qed.

(** The first accepted buy of an instrument opens its holding at the
    traded price (when at least one share is bought). *)
Lemma buy_opens_holding clk self code nm price qty date msg tx :
  holdings self !! code = None →
  snd (buy clk self code nm price qty date) = BuyOk msg tx →
  ∃ h,
    holdings (fst (buy clk self code nm price qty date)) !! code = Some h
    ∧ quantity h = qty
    ∧ ((0 < qty)%Z → avg_price h == price).
Proof.
  intros Hnew. unfold buy. rewrite Hnew. case_decide; [done|]. intros _.
  simpl. rewrite record_daily_value_holdings. simpl.
  eexists. split; [apply lookup_insert_eq|]. simpl. split; [done|].
  intros Hqty. case_decide; [|done].
  assert (0 < inject_Z qty) by (by rewrite <- (Zlt_Qlt 0)).
  rewrite Z.add_0_l. field. lra.
Qed.

(** An accepted buy on a holding of [quantity h] shares at [avg_price h]
    re-averages the cost over the old and the new lot. *)
Lemma buy_extends_holding clk self code nm price qty date msg tx h :
  holdings self !! code = Some h →
  (0 < quantity h + qty)%Z →
  snd (buy clk self code nm price qty date) = BuyOk msg tx →
  ∃ h',
    holdings (fst (buy clk self code nm price qty date)) !! code = Some h'
    ∧ quantity h' = (quantity h + qty)%Z
    ∧ avg_price h'
      == (inject_Z (quantity h) * avg_price h + inject_Z qty * price)
         / inject_Z (quantity h + qty).
Proof.
  intros Hh Hqty. unfold buy. rewrite Hh. case_decide; [done|]. intros _.
  simpl. rewrite record_daily_value_holdings. simpl.
  eexists. split; [apply lookup_insert_eq|]. simpl. split; [done|].
  by case_decide.
Qed.

(** *** Holdings with a positive quantity *)

Lemma holdings_positive_buy clk self code nm price qty date :
  (0 < qty)%Z → holdings_positive self →
  holdings_positive (fst (buy clk self code nm price qty date)).
Proof.
  intros Hqty Hpos. unfold holdings_positive, buy. case_decide; [done|].
  simpl. rewrite record_daily_value_holdings. simpl.
  apply map_Forall_insert_2; [|done]. simpl.
  destruct (holdings self !! code) as [h|] eqn:Hh; simpl; [|lia].
  specialize (Hpos _ _ Hh). simpl in Hpos. lia.
Qed.

Lemma holdings_positive_sell clk self code price qty date :
  holdings_positive self →
  holdings_positive (fst (sell clk self code price qty date)).
Proof.
  intros Hpos. unfold holdings_positive, sell.
  destruct (holdings self !! code) as [h|] eqn:Hh; [|done].
  case_decide; [done|].
  simpl. rewrite record_daily_value_holdings. simpl.
  case_decide.
  - by apply map_Forall_delete.
  - apply map_Forall_insert_2; [|done]. simpl. lia.
Qed.

Lemma holdings_positive_run orders : ∀ self,
  buys_positive orders → holdings_positive self →
  holdings_positive (run self orders).
Proof.
  induction orders as [|o rest IH]; intros self Hq Hpos; [done|].
  inversion Hq as [|? ? Ho Hrest]; subst.
  apply IH; [done|]. destruct o; simpl.
  - by apply holdings_positive_buy.
  - by apply holdings_positive_sell.
Qed.

Lemma sell_everything clk self code price date h :
  holdings self !! code = Some h →
  holdings (fst (sell clk self code price (quantity h) date)) !! code = None.
Proof.
  intros Hh. unfold sell. rewrite Hh.
  case_decide; [lia|]. simpl. rewrite record_daily_value_holdings. simpl.
  case_decide; [|lia]. apply lookup_delete_eq.
Qed.


Lemma is_accepted_sound self o : is_accepted self o = true → accepted self o.
Proof.
  destruct o as [clk code nm price qty date | clk code price qty date]; simpl.
  - destruct (snd (buy clk self code nm price qty date)); [eauto | done].
  - destruct (snd (sell clk self code price qty date)); [eauto | done | done].
Qed.

Lemma are_accepted_sound orders : ∀ self,
  are_accepted self orders = true → all_accepted self orders.
Proof.
  induction orders as [|o rest IH]; intros self; simpl; [done|].
  intros [Ho Hrest]%andb_prop. split; [by apply is_accepted_sound | by apply IH].
Qed.

(** Settle [all_accepted] on concrete orders by running them. *)
Ltac accepted_by_running :=
  lazymatch goal with
  | |- all_accepted ?self ?orders =>
      apply (are_accepted_sound orders self); vm_compute; reflexivity
  end.

(** *** The claims about the ledger *)

(** C1, as stated, fails: a fresh portfolio of 10000 buys 10 shares at 5
    and sells them at 6. Both orders are accepted, 50 was spent, 60
    received and the cash is 10010, so the left side is 10000 while the
    right side is 10000 + 10. *)
Lemma realized_profit_breaks_identity :
  let start := init clock0 10000 "P" in
  let orders :=
    [Buy clock0 "X" "X" 5 10 None; Sell clock0 "X" 6 10 None] in
  all_accepted start orders
  ∧ ¬ identity_as_claimed (run start orders).
Proof.
  split.
  - accepted_by_running.
  - intros H. vm_compute in H. discriminate H.
Qed.

(** C1, amended: after any sequence of orders on a fresh portfolio, the
    cash spent on buys minus the proceeds of sells plus the cash balance
    equals the initial capital; the realized profit does not enter, and
    the right-hand side of the identity as claimed exceeds this amount by
    exactly the realized profit. *)
Theorem cash_moved_reconciles_with_capital clk capital nm orders :
  let self := run (init clk capital nm) orders in
  cash_spent_on_buys self - proceeds_from_sells self + cash self == capital
  ∧ initial_capital self + total_realized_profit self
    - (cash_spent_on_buys self - proceeds_from_sells self + cash self)
    == total_realized_profit self.
Proof.
  intros self.
  assert (Hrec : cash_reconciles self)
    by apply cash_reconciles_run, cash_reconciles_init.
  assert (Hcap : initial_capital self = capital)
    by (unfold self; by rewrite initial_capital_run).
  unfold cash_reconciles in Hrec. rewrite Hcap in *. split; [done | lra].
Qed.



(** C3: on an instrument not yet held, an accepted buy of [q1] shares at
    [p1] followed by an accepted buy of [q2] shares at [p2] leaves a
    holding of [q1 + q2] shares at the average cost
    [(q1*p1 + q2*p2) / (q1 + q2)]; 50 shares at 51.50 and then 20 at
    50.00 give 70 shares at 51.07 to the cent. *)
Theorem buy_twice_average_cost :
  (∀ clk1 clk2 self code nm1 nm2 p1 q1 p2 q2 d1 d2,
     holdings self !! code = None →
     (0 < q1)%Z → (0 < q2)%Z →
     all_accepted self
       [Buy clk1 code nm1 p1 q1 d1; Buy clk2 code nm2 p2 q2 d2] →
     ∃ h,
       holdings (run self [Buy clk1 code nm1 p1 q1 d1;
                           Buy clk2 code nm2 p2 q2 d2]) !! code = Some h
       ∧ quantity h = (q1 + q2)%Z
       ∧ avg_price h
         == (inject_Z q1 * p1 + inject_Z q2 * p2) / inject_Z (q1 + q2))
  ∧ (∃ h,
       holdings (run (init clock0 10000 "P")
                   [Buy clock0 "TN0001600154" "ATTIJARI BANK" 51.5 50 None;
                    Buy clock0 "TN0001600154" "ATTIJARI BANK" 50 20 None])
         !! "TN0001600154" = Some h
       ∧ quantity h = 70%Z
       ∧ round (avg_price h) 2 == 51.07).
Proof.
  split.
  - intros clk1 clk2 self code nm1 nm2 p1 q1 p2 q2 d1 d2 Hnew Hq1 Hq2
      ((msg1 & tx1 & Hok1) & (msg2 & tx2 & Hok2) & _).
    simpl in Hok2 |- *.
    destruct (buy_opens_holding _ _ _ _ _ _ _ _ _ Hnew Hok1)
      as (h1 & Hh1 & Hqty1 & Havg1).
    assert (Hsum : (0 < quantity h1 + q2)%Z) by lia.
    destruct (buy_extends_holding _ _ _ _ _ _ _ _ _ _ Hh1 Hsum Hok2)
      as (h2 & Hh2 & Hqty2 & Havg2).
    exists h2. split; [done|]. split; [lia|].
    rewrite Havg2, Havg1, Hqty1 by done. reflexivity.
  - eexists. split; [vm_compute; reflexivity|]. split; [reflexivity|].
    vm_compute. reflexivity.
Qed.


Lemma buy_twice_average_cost_witness :
  let self := init clock0 10000 "P" in
  let orders :=
    [Buy clock0 "TN0001600154" "ATTIJARI BANK" 51.5 50 None;
     Buy clock0 "TN0001600154" "ATTIJARI BANK" 50 20 None] in
  (holdings self !! "TN0001600154" = None
   ∧ (0 < 50)%Z ∧ (0 < 20)%Z ∧ all_accepted self orders)
  ∧ ∃ h,
      holdings (run self orders) !! "TN0001600154" = Some h
      ∧ quantity h = (50 + 20)%Z
      ∧ avg_price h
        == (inject_Z 50 * 51.5 + inject_Z 20 * 50) / inject_Z (50 + 20).
Proof.
  assert (Hnew : holdings (init clock0 10000 "P") !! "TN0001600154" = None)
    by reflexivity.
  assert (H50 : (0 < 50)%Z) by lia.
  assert (H20 : (0 < 20)%Z) by lia.
  assert (Hacc : all_accepted (init clock0 10000 "P")
            [Buy clock0 "TN0001600154" "ATTIJARI BANK" 51.5 50 None;
             Buy clock0 "TN0001600154" "ATTIJARI BANK" 50 20 None])
    by accepted_by_running.
  split; [done|].
  exact (proj1 buy_twice_average_cost clock0 clock0 (init clock0 10000 "P")
           "TN0001600154" "ATTIJARI BANK" "ATTIJARI BANK" 51.5 50%Z 50 20%Z
           None None Hnew H50 H20 Hacc).
Defined.

(** C4, as stated, fails: [buy] accepts an order for zero shares of an
    instrument not yet held and files a holding of quantity 0. *)
Lemma zero_quantity_buy_is_held :
  let start := init clock0 10000 "P" in
  let orders := [Buy clock0 "X" "X" 10 0 None] in
  all_accepted start orders
  ∧ ¬ holdings_positive (run start orders).
Proof.
  split.
  - accepted_by_running.
  - intros H.
    assert (Hx : ∃ h, holdings
                        (run (init clock0 10000 "P")
                           [Buy clock0 "X" "X" 10 0 None]) !! "X" = Some h
                      ∧ quantity h = 0%Z)
      by (eexists; split; [vm_compute; reflexivity | reflexivity]).
    destruct Hx as (h & Hh & Hq). specialize (H _ _ Hh). simpl in H. lia.
Qed.

(** C4, amended: on a portfolio reached from a fresh one by sells and
    by buys of at least one share each, every holding of the map has a
    strictly positive quantity; and selling the whole held quantity of
    an instrument removes its holding from the map. *)
Theorem holdings_quantity_positive clk capital nm orders :
  buys_positive orders →
  let self := run (init clk capital nm) orders in
  holdings_positive self
  ∧ ∀ clk' code price date h,
      holdings self !! code = Some h →
      holdings (fst (sell clk' self code price (quantity h) date)) !! code
      = None.
Proof.
  intros Hq self. split.
  - apply holdings_positive_run; [done|].
    unfold holdings_positive. simpl. apply map_Forall_empty.
  - intros clk' code price date h Hh. by apply sell_everything.
Qed.

Lemma holdings_quantity_positive_witness :
  let orders :=
    [Buy clock0 "TN0001600154" "ATTIJARI BANK" 51.5 50 None;
     Sell clock0 "TN0001600154" 53 25 None] in
  buys_positive orders
  ∧ let self := run (init clock0 10000 "P") orders in
    holdings_positive self
    ∧ ∀ clk' code price date h,
        holdings self !! code = Some h →
        holdings (fst (sell clk' self code price (quantity h) date)) !! code
        = None.
Proof.
  assert (Hq : buys_positive
            [Buy clock0 "TN0001600154" "ATTIJARI BANK" 51.5 50 None;
             Sell clock0 "TN0001600154" 53 25 None])
    by (repeat constructor).
  split; [exact Hq|].
  exact (holdings_quantity_positive clock0 10000 "P" _ Hq).
Defined.

(** C7, as stated, fails: a portfolio that has a snapshot but has not
    traded yet has an empty valuation series; after the round trip the
    series holds one entry made from the snapshot. *)
Lemma snapshot_breaks_round_trip :
  let self := take_snapshot clock0 (init clock0 10000 "P") ∅ None in
  from_dict clock0 (to_dict self) ≠ self.
Proof.
  intros self H. apply (f_equal daily_values) in H.
  vm_compute in H. discriminate H.
Qed.

(** C7, amended: [from_dict (to_dict p)] is [p], with name, capital,
    cash, holdings, transactions, valuation series, snapshots and
    creation time, whenever the valuation series of [p] is not empty or
    [p] has no snapshot; when the series is empty and there are
    snapshots, the result is [p] with a valuation series rebuilt from
    the snapshots. *)
Theorem from_dict_to_dict clk self :
  (daily_values self ≠ [] ∨ daily_snapshots self = [] →
   from_dict clk (to_dict self) = self)
  ∧ (daily_values self = [] → daily_snapshots self ≠ [] →
     from_dict clk (to_dict self)
     = set_daily_values self (values_of_snapshots (daily_snapshots self))).
Proof.
  destruct self as [nm cap csh hs txs snaps vals created].
  unfold from_dict, to_dict, set_daily_values. simpl. split.
  - intros [Hv | ->]; [destruct vals; destruct snaps; done | by destruct vals].
  - intros -> Hs. destruct snaps; done.
Qed.

Lemma from_dict_to_dict_witness :
  let self :=
    run (init clock0 10000 "P")
      [Buy clock0 "TN0001600154" "ATTIJARI BANK" 51.5 50 None] in
  (daily_values self ≠ [] ∨ daily_snapshots self = [])
  ∧ from_dict clock0 (to_dict self) = self.
Proof.
  assert (H : daily_values
                (run (init clock0 10000 "P")
                   [Buy clock0 "TN0001600154" "ATTIJARI BANK" 51.5 50 None])
              ≠ []
              ∨ daily_snapshots
                  (run (init clock0 10000 "P")
                     [Buy clock0 "TN0001600154" "ATTIJARI BANK" 51.5 50 None])
                = [])
    by (right; reflexivity).
  split; [exact H|].
  exact (proj1 (from_dict_to_dict clock0 _) H).
Defined.

End LedgerFacts.

(** ** Allocation percentages *)

Module AllocationFacts.
Import PortfolioLedger Samples RoundingFacts LedgerFacts.

Lemma sum_values_empty : sum_values ∅ = 0.
Proof. unfold sum_values. by rewrite map_fold_empty. Qed.

Lemma sum_values_insert (d : gmap string Q) k v :
  d !! k = None → sum_values (<[k:=v]> d) == sum_values d + v.
Proof.
  intros Hk. unfold sum_values.
  apply (map_fold_insert Qeq (λ _ v acc, acc + v)); [| |done].
  - intros j z a b Hab. by rewrite Hab.
  - intros. ring.
Qed.

Lemma value_of_holdings_empty prices : value_of_holdings ∅ prices = 0.
Proof. unfold value_of_holdings. by rewrite map_fold_empty. Qed.

Lemma value_of_holdings_insert hs k h prices :
  hs !! k = None →
  value_of_holdings (<[k:=h]> hs) prices
  == value_of_holdings hs prices
     + inject_Z (quantity h) * get (prices !! k) (avg_price h).
Proof.
  intros Hk. unfold value_of_holdings.
  apply (map_fold_insert Qeq
           (λ code holding acc,
              acc + inject_Z (quantity holding)
                    * get (prices !! code) (avg_price holding)));
    [| |done].
  - intros j z a b Hab. by rewrite Hab.
  - intros. ring.
Qed.

(** The loop of [get_allocation]: one rounded percentage per holding,
    written over the dictionary that holds the CASH entry. *)
Lemma allocation_loop prices total (start : gmap string Q)
    (hs : gmap string Holding) :
  map_fold
    (λ stock_code holding allocation,
       let current_price :=
         get (prices !! stock_code) (avg_price holding) in
       let value := inject_Z (quantity holding) * current_price in
       <[stock_code := round (value / total * 100) 2]> allocation)
    start hs
  = map_imap (λ code h, Some (allocation_of prices total code h)) hs ∪ start.
Proof.
  induction hs as [|k h hs Hk Hfirst IH] using map_first_key_ind.
  - rewrite map_fold_empty, map_imap_empty. by rewrite (left_id_L ∅ (∪)).
  - rewrite map_fold_insert_first_key by done. rewrite IH.
    rewrite (map_imap_insert_Some _ _ _ _ (allocation_of prices total k h))
      by done.
    by rewrite insert_union_l.
Qed.

Lemma get_allocation_entries self prices :
  0 < get_current_value self prices →
  get_allocation self prices
  = map_imap
      (λ code h,
         Some (allocation_of prices (get_current_value self prices) code h))
      (holdings self)
    ∪ {["CASH" := round (cash self / get_current_value self prices * 100) 2]}.
Proof.
  intros Hpos. unfold get_allocation. case_decide; [lra|].
  apply allocation_loop.
Qed.

Lemma get_allocation_degenerate self prices :
  get_current_value self prices <= 0 →
  get_allocation self prices = {["CASH" := 100]}.
Proof. intros Hle. unfold get_allocation. by case_decide. Qed.

(** The rounded percentages of a map of holdings add up to the exact
    percentage of their value, up to half a cent per holding. *)
Lemma allocation_sum_error prices total (hs : gmap string Holding) :
  Qabs
    (sum_values (map_imap (λ code h, Some (allocation_of prices total code h)) hs)
     - value_of_holdings hs prices / total * 100)
  <= inject_Z (Z.of_nat (size hs)) * (1 # 200).
Proof.
  induction hs as [|k h hs Hk IH] using map_ind.
  - rewrite map_imap_empty, sum_values_empty, value_of_holdings_empty,
      map_size_empty. change (inject_Z (Z.of_nat 0)) with 0.
    apply Qabs_Qle_condition. unfold Qdiv. split; lra.
  - rewrite (map_imap_insert_Some _ _ _ _ (allocation_of prices total k h))
      by done.
    rewrite sum_values_insert by (by rewrite map_lookup_imap, Hk).
    rewrite value_of_holdings_insert by done.
    rewrite map_size_insert_None by done.
    rewrite Nat2Z.inj_succ, <- Z.add_1_r, inject_Z_plus.
    change (inject_Z 1) with 1.
    pose proof (round_error_cents
                  (inject_Z (quantity h) * get (prices !! k) (avg_price h)
                   / total * 100)) as Hr.
    fold (allocation_of prices total k h) in Hr.
    apply Qabs_Qle_condition in IH, Hr. apply Qabs_Qle_condition.
    unfold Qdiv in *. split; lra.
Qed.


Lemma sum_values_get_allocation self prices :
  0 < get_current_value self prices →
  holdings self !! "CASH" = None →
  sum_values (get_allocation self prices)
  == sum_values
       (map_imap
          (λ code h,
             Some (allocation_of prices (get_current_value self prices) code h))
          (holdings self))
     + round (cash self / get_current_value self prices * 100) 2.
Proof.
  intros Hpos Hcash. rewrite get_allocation_entries by done.
  rewrite <- insert_union_singleton_r by (by rewrite map_lookup_imap, Hcash).
  apply sum_values_insert. by rewrite map_lookup_imap, Hcash.
Qed.

(** C9, as stated, fails: with the capital of 31 spread evenly over 31
    instruments each entry is [round (100/31, 2) = 3.23] and CASH is 0,
    so the percentages add up to 100.13. *)
Lemma equal_weights_miss_100 :
  let start := init clock0 31 "P" in
  let self := run start equal_weight_orders in
  all_accepted start equal_weight_orders
  ∧ 0 < get_current_value self ∅
  ∧ sum_values (get_allocation self ∅) == 100.13
  ∧ ¬ Qabs (sum_values (get_allocation self ∅) - 100) <= 0.1.
Proof.
  split; [|split; [|split]].
  - accepted_by_running.
  - vm_compute. reflexivity.
  - vm_compute. reflexivity.
  - intros H. vm_compute in H. exact (H eq_refl).
Qed.

(** C9, amended: when the total value is positive and no instrument is
    held under the code CASH, the percentages add up to 100 within half
    a hundredth per entry (the holdings and CASH), hence within 0.1 for
    up to 19 holdings; when the total value is zero or negative the
    result is exactly [{CASH: 100.0}]. *)
Theorem get_allocation_sum self prices :
  (0 < get_current_value self prices →
   holdings self !! "CASH" = None →
   Qabs (sum_values (get_allocation self prices) - 100)
   <= inject_Z (Z.of_nat (size (holdings self) + 1)) * 0.005
   ∧ ((size (holdings self) ≤ 19)%nat →
      Qabs (sum_values (get_allocation self prices) - 100) <= 0.1))
  ∧ (get_current_value self prices <= 0 →
     get_allocation self prices = {["CASH" := 100]}).
Proof.
  split; [|apply get_allocation_degenerate].
  intros Hpos Hcash.
  assert (Hbound :
    Qabs (sum_values (get_allocation self prices) - 100)
    <= inject_Z (Z.of_nat (size (holdings self) + 1)) * 0.005).
  { rewrite sum_values_get_allocation by done.
    pose proof (allocation_sum_error prices (get_current_value self prices)
                  (holdings self)) as Hs.
    pose proof (round_error_cents
                  (cash self / get_current_value self prices * 100)) as Hc.
    assert (Hexact :
      value_of_holdings (holdings self) prices
        / get_current_value self prices * 100
      + cash self / get_current_value self prices * 100 == 100).
    { change (value_of_holdings (holdings self) prices)
        with (get_holdings_value self prices).
      unfold get_current_value in *. field. lra. }
    rewrite Nat2Z.inj_add, inject_Z_plus. change (inject_Z (Z.of_nat 1)) with 1.
    apply Qabs_Qle_condition in Hs, Hc. apply Qabs_Qle_condition.
    split; lra. }
  split; [done|]. intros Hsize.
  eapply Qle_trans; [exact Hbound|].
  assert (Hn : inject_Z (Z.of_nat (size (holdings self) + 1)) <= 20).
  { change 20 with (inject_Z 20). rewrite <- Zle_Qle. lia. }
  lra.
Qed.

Lemma get_allocation_sum_witness :
  (0 < get_current_value two_positions two_prices
   ∧ holdings two_positions !! "CASH" = None
   ∧ (size (holdings two_positions) ≤ 19)%nat)
  ∧ Qabs (sum_values (get_allocation two_positions two_prices) - 100) <= 0.1.
Proof.
  assert (Hpos : 0 < get_current_value two_positions two_prices)
    by (vm_compute; reflexivity).
  assert (Hcash : holdings two_positions !! "CASH" = None)
    by (vm_compute; reflexivity).
  assert (Hsize : (size (holdings two_positions) ≤ 19)%nat)
    by (vm_compute; lia).
  split; [exact (conj Hpos (conj Hcash Hsize))|].
  exact (proj2 (proj1 (get_allocation_sum two_positions two_prices) Hpos Hcash)
           Hsize).
Defined.

(** A holding filed under the code CASH takes the place of the cash
    entry: with half of the capital in it, the only entry is 50. *)
Lemma cash_code_replaces_cash_entry :
  let self :=
    run (init clock0 10000 "P") [Buy clock0 "CASH" "CASH" 50 100 None] in
  0 < get_current_value self ∅
  ∧ size (get_allocation self ∅) = 1%nat
  ∧ sum_values (get_allocation self ∅) == 50.
Proof. repeat split; vm_compute; reflexivity. Qed.

End AllocationFacts.

(** ** The realized profit and the cost basis *)

Module CostBasisFacts.
Import PortfolioLedger Samples LedgerFacts AllocationFacts.

Lemma value_of_holdings_delete hs k h prices :
  hs !! k = Some h →
  value_of_holdings hs prices
  == value_of_holdings (delete k hs) prices
     + inject_Z (quantity h) * get (prices !! k) (avg_price h).
Proof.
  intros Hk. rewrite <- (insert_delete_id hs k h) at 1 by done.
  apply value_of_holdings_insert, lookup_delete_eq.
Qed.

Lemma value_of_holdings_replace hs k h prices :
  value_of_holdings (<[k:=h]> hs) prices
  == value_of_holdings (delete k hs) prices
     + inject_Z (quantity h) * get (prices !! k) (avg_price h).
Proof.
  rewrite <- insert_delete_eq.
  apply value_of_holdings_insert, lookup_delete_eq.
Qed.

Lemma total_realized_profit_buy self tx :
  tx_type tx = BUY →
  foldl
    (λ acc tx,
       match tx_type tx with
       | SELL => acc + get (tx_profit_loss tx) 0
       | BUY => acc
       end)
    0 (transaction_history self ++ [tx])
  = total_realized_profit self.
Proof. intros H. by rewrite total_realized_profit_snoc, H. Qed.

Lemma profit_reconciles_buy clk self code nm price qty date :
  (0 < qty)%Z → holdings_positive self → profit_reconciles self →
  profit_reconciles (fst (buy clk self code nm price qty date)).
Proof.
  intros Hqty Hpos Hrec. unfold profit_reconciles, cost_basis in *.
  unfold buy. case_decide; [done|]. simpl.
  unfold get_holdings_value in *. unfold total_realized_profit.
  rewrite record_daily_value_cash, record_daily_value_holdings,
    record_daily_value_initial_capital, record_daily_value_history.
  simpl. rewrite total_realized_profit_snoc. simpl.
  fold (value_of_holdings (holdings self) ∅) in Hrec.
  match goal with
  | |- context [map_fold ?f 0 (<[code:=?h]> (holdings self))] =>
      change (map_fold f 0 (<[code:=h]> (holdings self)))
        with (value_of_holdings (<[code:=h]> (holdings self)) ∅)
  end.
  rewrite value_of_holdings_replace. rewrite lookup_empty. simpl.
  destruct (holdings self !! code) as [h|] eqn:Hh; simpl.
  - rewrite (value_of_holdings_delete _ _ _ _ Hh), lookup_empty in Hrec.
    simpl in Hrec. specialize (Hpos _ _ Hh). simpl in Hpos.
    case_decide; [|lia].
    assert (Hne : ¬ inject_Z (quantity h + qty) == 0).
    { change 0 with (inject_Z 0). rewrite inject_Z_injective. lia. }
    assert (Hfield :
      inject_Z (quantity h + qty)
      * ((inject_Z (quantity h) * avg_price h + inject_Z qty * price)
         / inject_Z (quantity h + qty))
      == inject_Z (quantity h) * avg_price h + inject_Z qty * price)
      by (field; exact Hne).
    rewrite Hfield. lra.
  - rewrite delete_id by done. case_decide; [|lia].
    assert (Hne : ¬ inject_Z (0 + qty) == 0).
    { change 0 with (inject_Z 0). rewrite inject_Z_injective. lia. }
    assert (Hfield :
      inject_Z (0 + qty)
      * ((inject_Z 0 * 0 + inject_Z qty * price) / inject_Z (0 + qty))
      == inject_Z qty * price) by (field; exact Hne).
    rewrite Hfield. lra.
Qed.

Lemma profit_reconciles_sell clk self code price qty date :
  profit_reconciles self →
  profit_reconciles (fst (sell clk self code price qty date)).
Proof.
  intros Hrec. unfold profit_reconciles, cost_basis in *.
  unfold sell. destruct (holdings self !! code) as [h|] eqn:Hh; [|done].
  case_decide; [done|]. simpl.
  unfold get_holdings_value in *. unfold total_realized_profit.
  rewrite record_daily_value_cash, record_daily_value_holdings,
    record_daily_value_initial_capital, record_daily_value_history.
  simpl. rewrite total_realized_profit_snoc. simpl.
  fold (value_of_holdings (holdings self) ∅) in Hrec.
  rewrite (value_of_holdings_delete _ _ _ _ Hh), lookup_empty in Hrec.
  simpl in Hrec.
  case_decide as Hzero.
  - fold (value_of_holdings (delete code (holdings self)) ∅).
    assert (Hq : inject_Z (quantity h) == inject_Z qty)
      by (rewrite inject_Z_injective; lia).
    rewrite Hq in Hrec. lra.
  - match goal with
    | |- context [map_fold ?f 0 (<[code:=?h']> (holdings self))] =>
        change (map_fold f 0 (<[code:=h']> (holdings self)))
          with (value_of_holdings (<[code:=h']> (holdings self)) ∅)
    end.
    rewrite value_of_holdings_replace, lookup_empty. simpl.
    unfold Zminus. rewrite inject_Z_plus, inject_Z_opp. lra.
Qed.

Lemma profit_reconciles_run orders : ∀ self,
  buys_positive orders → holdings_positive self → profit_reconciles self →
  profit_reconciles (run self orders).
Proof.
  induction orders as [|o rest IH]; intros self Hq Hpos Hrec; [done|].
  inversion Hq as [|? ? Ho Hrest]; subst.
  apply IH; [done| |]; destruct o; simpl.
  - by apply holdings_positive_buy.
  - by apply holdings_positive_sell.
  - by apply profit_reconciles_buy.
  - by apply profit_reconciles_sell.
Qed.

(** X5: the identity the realized profit does satisfy: on a portfolio
    reached by sells and by buys of at least one share, the cash plus
    the cost basis of the open positions is the initial capital plus
    the realized profit of the SELL transactions. *)
Lemma cash_and_cost_basis clk capital nm orders :
  buys_positive orders →
  let self := run (init clk capital nm) orders in
  cash self + cost_basis self == capital + total_realized_profit self.
Proof.
  intros Hq self.
  assert (Hrec : profit_reconciles self).
  { apply profit_reconciles_run; [done| |].
    - unfold holdings_positive. simpl. apply map_Forall_empty.
    - unfold profit_reconciles, cost_basis, get_holdings_value,
        total_realized_profit. simpl. rewrite map_fold_empty. lra. }
  unfold profit_reconciles in Hrec.
  assert (Hcap : initial_capital self = capital)
    by (unfold self; by rewrite initial_capital_run).
  by rewrite Hcap in Hrec.
Qed.

Lemma cash_and_cost_basis_witness :
  buys_positive day_trades
  ∧ (let self := run (init clock0 10000 "P") day_trades in
     cash self + cost_basis self == 10000 + total_realized_profit self).
Proof.
  assert (Hq : buys_positive day_trades) by (repeat constructor).
  split; [exact Hq|].
  exact (cash_and_cost_basis clock0 10000 "P" day_trades Hq).
Defined.

End CostBasisFacts.

(** ** Properties of the decision engine *)

Module EngineFacts.
Import Engine Samples RoundingFacts.

(** *** Thresholds *)

Lemma profile_thresholds_cases user_profile :
  (user_profile = "conservative" ∧ profile_thresholds user_profile = (4, -4))
  ∨ (user_profile = "aggressive" ∧ profile_thresholds user_profile = (2, -2))
  ∨ (user_profile ≠ "conservative" ∧ user_profile ≠ "aggressive"
     ∧ profile_thresholds user_profile = (3, -3)).
Proof.
  unfold profile_thresholds. repeat case_decide; subst; auto.
Qed.

Lemma profile_thresholds_moderate user_profile :
  user_profile ≠ "conservative" → user_profile ≠ "aggressive" →
  profile_thresholds user_profile = profile_thresholds "moderate".
Proof.
  intros Hc Ha. unfold profile_thresholds. by repeat case_decide.
Qed.

Lemma profile_multiplier_default user_profile :
  user_profile ≠ "conservative" → user_profile ≠ "aggressive" →
  get (PROFILE_MULTIPLIERS !! user_profile) 1 = 1.
Proof.
  intros Hc Ha. unfold PROFILE_MULTIPLIERS.
  destruct (decide (user_profile = "moderate")) as [->|Hm]; [done|].
  by simplify_map_eq.
Qed.

(** Split a statement about a profile into its three threshold cases. *)
Ltac by_profile p :=
  unfold _score_to_recommendation, raw_confidence, claimed_recommendation,
    claimed_confidence, buy_threshold;
  destruct (profile_thresholds_cases p) as [[? ->] | [[? ->] | (? & ? & ->)]];
  simpl.

Lemma recommendation_as_claimed score user_profile :
  fst (_score_to_recommendation score user_profile)
  = claimed_recommendation score user_profile.
Proof.
  by_profile user_profile; repeat case_decide; try done; lra.
Qed.

Lemma confidence_rounds_claimed score user_profile :
  snd (_score_to_recommendation score user_profile)
  == round
       (claimed_confidence (fst (_score_to_recommendation score user_profile))
          score user_profile) 2.
Proof.
  by_profile user_profile; repeat case_decide; simpl; try reflexivity.
  all: apply round_proper; [|done].
  all: rewrite ?(Qabs_pos score) by lra; try reflexivity.
Qed.


(** C5, as stated, fails on the confidence: at score 0.25 the moderate
    profile holds, the formula gives [0.5 + 0.25 * 0.05 = 0.5125], and
    the function returns [round(0.5125, 2) = 0.51]. *)
Lemma confidence_is_rounded :
  _score_to_recommendation 0.25 "moderate" = (HOLD, round 0.5125 2)
  ∧ snd (_score_to_recommendation 0.25 "moderate") == 0.51
  ∧ claimed_confidence HOLD 0.25 "moderate" == 0.5125
  ∧ ¬ snd (_score_to_recommendation 0.25 "moderate")
      == claimed_confidence HOLD 0.25 "moderate".
Proof.
  split; [vm_compute; reflexivity|].
  split; [vm_compute; reflexivity|].
  split; [vm_compute; reflexivity|].
  intros H. vm_compute in H. discriminate H.
Qed.

(** C5, amended: the recommendation is BUY at or above the profile's
    threshold (4 conservative, 2 aggressive, 3 otherwise), SELL at or
    below its negation and HOLD between; the confidence returned is the
    value of the stated formula to the nearest hundredth: a whole
    number of hundredths within 0.005 of it; a profile that is neither
    conservative nor aggressive gets the thresholds of moderate and the
    multiplier 1. *)
Theorem score_to_recommendation_spec score user_profile :
  let result := _score_to_recommendation score user_profile in
  fst result = claimed_recommendation score user_profile
  ∧ Qabs (snd result - claimed_confidence (fst result) score user_profile)
    <= 0.005
  ∧ (∃ hundredths : Z, snd result == inject_Z hundredths / 100)
  ∧ (user_profile = "conservative" → buy_threshold user_profile = 4)
  ∧ (user_profile = "aggressive" → buy_threshold user_profile = 2)
  ∧ (user_profile ≠ "conservative" → user_profile ≠ "aggressive" →
     buy_threshold user_profile = 3
     ∧ _score_to_recommendation score user_profile
       = _score_to_recommendation score "moderate"
     ∧ get (PROFILE_MULTIPLIERS !! user_profile) 1 = 1).
Proof.
  intros result.
  split; [apply recommendation_as_claimed|].
  pose proof (confidence_rounds_claimed score user_profile) as Hconf.
  fold result in Hconf.
  split.
  { rewrite Hconf. eapply Qle_trans; [apply round_error_cents|].
    vm_compute. discriminate. }
  split.
  { exists (round_half_even
              (claimed_confidence (fst result) score user_profile
               * inject_Z (pow10 2))).
    rewrite Hconf. reflexivity. }
  split; [by intros ->|]. split; [by intros ->|].
  intros Hc Ha. split; [|split].
  - unfold buy_threshold. by rewrite profile_thresholds_moderate.
  - unfold _score_to_recommendation, raw_confidence.
    by rewrite profile_thresholds_moderate.
  - by apply profile_multiplier_default.
Qed.

Lemma score_to_recommendation_spec_witness :
  ("risky" ≠ "conservative" ∧ "risky" ≠ "aggressive")
  ∧ buy_threshold "risky" = 3
  ∧ _score_to_recommendation 3.26 "risky"
    = _score_to_recommendation 3.26 "moderate"
  ∧ get (PROFILE_MULTIPLIERS !! "risky") 1 = 1.
Proof.
  assert (Hc : "risky" ≠ "conservative") by discriminate.
  assert (Ha : "risky" ≠ "aggressive") by discriminate.
  split; [exact (conj Hc Ha)|].
  exact (proj2 (proj2 (proj2 (proj2 (proj2
           (score_to_recommendation_spec 3.26 "risky"))))) Hc Ha).
Defined.

(** *** Bounds on the confidence *)

Lemma round_cents_ge (z : Z) a x :
  a == inject_Z z / 100 → a <= x → a <= round x 2.
Proof.
  intros Ha H. rewrite Ha in *. rewrite <- (round_fixed z 2).
  by apply round_mono.
Qed.

Lemma round_cents_le (z : Z) a x :
  a == inject_Z z / 100 → x <= a → round x 2 <= a.
Proof.
  intros Ha H. rewrite Ha in *. rewrite <- (round_fixed z 2).
  by apply round_mono.
Qed.

Lemma raw_confidence_bounds score user_profile :
  let r := fst (raw_confidence score user_profile) in
  let c := snd (raw_confidence score user_profile) in
  0.5 <= c ∧ c <= 0.95
  ∧ (r = HOLD → c <= 0.5 + 0.05 * buy_threshold user_profile).
Proof.
  unfold raw_confidence, buy_threshold.
  destruct (profile_thresholds_cases user_profile)
    as [[? ->] | [[? ->] | (? & ? & ->)]]; simpl.
  all: repeat case_decide; simpl.
  all: split; [|split; [|intros Hr; try discriminate Hr]].
  all: try (apply Q.min_glb; lra).
  all: try apply Q.le_min_r.
  all: try (apply Qabs_case; intros; lra).
  all: apply Q.min_glb; [|lra]; rewrite (Qabs_neg score) by lra.
  all: change (Z.abs (-4)) with 4%Z; change (Z.abs (-2)) with 2%Z;
    change (Z.abs (-3)) with 3%Z; lra.
Qed.

(** C10: the confidence returned lies in [0.5, 0.95]; on HOLD it is at
    most 0.5 plus 0.05 times the profile's threshold, which is at most
    0.70 and so below 0.95. *)
Theorem confidence_bounds score user_profile :
  let r := fst (_score_to_recommendation score user_profile) in
  let c := snd (_score_to_recommendation score user_profile) in
  0.5 <= c ∧ c <= 0.95
  ∧ (r = HOLD →
     c <= 0.5 + 0.05 * buy_threshold user_profile ∧ c < 0.95).
Proof.
  pose proof (raw_confidence_bounds score user_profile) as (Hlo & Hhi & Hhold).
  unfold _score_to_recommendation.
  destruct (raw_confidence score user_profile) as [r c]. simpl in *.
  split; [by apply (round_cents_ge 50)|].
  split; [by apply (round_cents_le 95)|].
  intros Hr. specialize (Hhold Hr).
  assert (Hcases : ∃ z : Z,
    0.5 + 0.05 * buy_threshold user_profile == inject_Z z / 100
    ∧ 0.5 + 0.05 * buy_threshold user_profile <= 0.7).
  { unfold buy_threshold.
    destruct (profile_thresholds_cases user_profile)
      as [[? ->] | [[? ->] | (? & ? & ->)]]; simpl;
      [exists 70%Z | exists 60%Z | exists 65%Z]; split;
      (reflexivity || (intros Hgt; discriminate Hgt)). }
  destruct Hcases as (z & Hz & Hcap).
  assert (Hround : round c 2 <= 0.5 + 0.05 * buy_threshold user_profile)
    by (by apply (round_cents_le z)).
  split; [done | lra].
Qed.


Lemma confidence_bounds_witness :
  fst (_score_to_recommendation 0.25 "moderate") = HOLD
  ∧ snd (_score_to_recommendation 0.25 "moderate")
    <= 0.5 + 0.05 * buy_threshold "moderate"
  ∧ snd (_score_to_recommendation 0.25 "moderate") < 0.95.
Proof.
  assert (Hr : fst (_score_to_recommendation 0.25 "moderate") = HOLD)
    by reflexivity.
  split; [exact Hr|].
  exact (proj2 (proj2 (confidence_bounds 0.25 "moderate")) Hr).
Defined.

(** *** The forecast in the raw score *)

Lemma sentiment_stage_shifted ad code d st st' :
  shifted d st st' →
  shifted d (sentiment_stage ad code st) (sentiment_stage ad code st').
Proof.
  unfold shifted, sentiment_stage. intros Hs.
  destruct (get_sentiment ad code); simpl; repeat case_decide; simpl; lra.
Qed.

Lemma anomaly_stage_shifted ad code d st st' :
  shifted d st st' →
  shifted d (anomaly_stage ad code st) (anomaly_stage ad code st').
Proof.
  unfold shifted, anomaly_stage. intros Hs.
  destruct (get_anomalies ad code) as [a|]; simpl; [|lra].
  destruct (get (an_volume_spike a) false),
    (get (an_price_spike a) false), (get (an_any_anomaly a) false); simpl;
    lra.
Qed.

Lemma technical_stage_shifted ad code d st st' :
  shifted d st st' →
  shifted d (technical_stage ad code st) (technical_stage ad code st').
Proof.
  unfold shifted, technical_stage. intros Hs.
  destruct (get_technical ad code) as [[[r|] [m|]]|]; simpl;
    repeat case_decide; simpl; try destruct (macd_trend m); simpl; lra.
Qed.

Lemma memory_stage_shifted ad code d st st' :
  shifted d st st' →
  shifted d (memory_stage ad code st) (memory_stage ad code st').
Proof.
  unfold shifted, memory_stage. intros Hs.
  destruct (memory_available ad) as [[|]|]; simpl; [|done|done].
  destruct (collect_memory ad code) as [[[? ?] ?]|]; simpl; done.
Qed.

Lemma later_stages_shifted ad code d st st' :
  shifted d st st' →
  shifted d (later_stages ad code st) (later_stages ad code st').
Proof.
  intros H. unfold later_stages.
  by apply memory_stage_shifted, technical_stage_shifted,
    anomaly_stage_shifted, sentiment_stage_shifted.
Qed.

Lemma later_stages_without_forecast ad code st :
  later_stages (without_forecast ad) code st = later_stages ad code st.
Proof. reflexivity. Qed.

Lemma decision_score_stages ad code :
  _calculate_decision_score ad code
  = later_stages ad code (forecast_stage ad code initial_scoring).
Proof. reflexivity. Qed.

Lemma sentiment_stage_forecast ad code st :
  sig_forecast (signals (sentiment_stage ad code st))
  = sig_forecast (signals st).
Proof.
  unfold sentiment_stage.
  destruct (get_sentiment ad code); simpl; repeat case_decide; done.
Qed.

Lemma anomaly_stage_forecast ad code st :
  sig_forecast (signals (anomaly_stage ad code st))
  = sig_forecast (signals st).
Proof.
  unfold anomaly_stage.
  destruct (get_anomalies ad code) as [a|]; simpl; [|done].
  by destruct (get (an_volume_spike a) false),
    (get (an_price_spike a) false), (get (an_any_anomaly a) false).
Qed.

Lemma technical_stage_forecast ad code st :
  sig_forecast (signals (technical_stage ad code st))
  = sig_forecast (signals st).
Proof.
  unfold technical_stage.
  destruct (get_technical ad code) as [[[r|] [m|]]|]; simpl;
    repeat case_decide; simpl; try destruct (macd_trend m); done.
Qed.

Lemma memory_stage_forecast ad code st :
  sig_forecast (signals (memory_stage ad code st))
  = sig_forecast (signals st).
Proof.
  unfold memory_stage.
  destruct (memory_available ad) as [[|]|]; simpl; [|done|done].
  by destruct (collect_memory ad code) as [[[? ?] ?]|].
Qed.

Lemma later_stages_forecast_signal ad code st :
  sig_forecast (signals (later_stages ad code st))
  = sig_forecast (signals st).
Proof.
  unfold later_stages.
  by rewrite memory_stage_forecast, technical_stage_forecast,
    anomaly_stage_forecast, sentiment_stage_forecast.
Qed.

Lemma capped_decline x : Qmax x (-4) == - Qmin (- x) 4.
Proof.
  destruct (Q.max_spec x (-4)) as [[? ->] | [? ->]];
    destruct (Q.min_spec (- x) 4) as [[? ->] | [? ->]]; lra.
Qed.

Lemma forecast_signal_final ad code :
  sig_forecast (signals (_calculate_decision_score ad code))
  = sig_forecast (signals (forecast_stage ad code initial_scoring)).
Proof.
  by rewrite decision_score_stages, later_stages_forecast_signal.
Qed.

Lemma forecast_contribution_stage ad code :
  forecast_contribution ad code
  == score (forecast_stage ad code initial_scoring).
Proof.
  unfold forecast_contribution. rewrite !decision_score_stages.
  rewrite later_stages_without_forecast.
  pose proof (later_stages_shifted ad code
                (score (forecast_stage ad code initial_scoring) - 0)
                (forecast_stage (without_forecast ad) code initial_scoring)
                (forecast_stage ad code initial_scoring)) as H.
  unfold shifted in H. rewrite H; [ring | simpl; ring].
Qed.

(** C6: the forecast source gives a trend; the signal filed has the
    magnitude [abs(trend)] and the direction up exactly when the trend
    is above 0.02, down exactly when it is below -0.02. A trend above
    0.02 adds [min(trend * 100, 4)] to the raw score, one below -0.02
    adds [max(trend * 100, -4)], the same amount capped at 4 and
    subtracted, any other trend and a source that raises add nothing.
    Read on the signal: an up signal has a magnitude above 0.02 and adds
    [min(magnitude * 100, 4)], a down signal has a magnitude above 0.02
    and subtracts that amount, any other entry adds nothing. A forecast
    of +5% adds exactly 4. *)
Theorem forecast_contribution_spec ad code :
  match get_forecast ad code with
  | Ok forecast =>
      let trend := get (fc_trend forecast) 0 in
      (∃ direction magnitude confidence weight predictions,
         sig_forecast (signals (_calculate_decision_score ad code))
         = Some (ForecastOf direction magnitude confidence weight predictions)
         ∧ magnitude == Qabs trend
         ∧ (direction = Up ↔ 0.02 < trend)
         ∧ (direction = Down ↔ trend < -0.02))
      ∧ (0.02 < trend →
         forecast_contribution ad code == Qmin (trend * 100) 4)
      ∧ (trend < -0.02 →
         forecast_contribution ad code == Qmax (trend * 100) (-4)
         ∧ forecast_contribution ad code == - Qmin (Qabs trend * 100) 4)
      ∧ (-0.02 <= trend → trend <= 0.02 → forecast_contribution ad code == 0)
      ∧ (trend == 0.05 → forecast_contribution ad code == 4)
  | Raise e =>
      sig_forecast (signals (_calculate_decision_score ad code))
      = Some (ForecastError e)
      ∧ forecast_contribution ad code == 0
  end
  ∧ match sig_forecast (signals (_calculate_decision_score ad code)) with
    | Some (ForecastOf Up magnitude _ _ _) =>
        0.02 < magnitude
        ∧ forecast_contribution ad code == Qmin (magnitude * 100) 4
    | Some (ForecastOf Down magnitude _ _ _) =>
        0.02 < magnitude
        ∧ forecast_contribution ad code == - Qmin (magnitude * 100) 4
    | _ => forecast_contribution ad code == 0
    end.
Proof.
  rewrite forecast_signal_final.
  pose proof (forecast_contribution_stage ad code) as Hc.
  revert Hc. generalize (forecast_contribution ad code) as c. intros c.
  unfold forecast_stage.
  destruct (get_forecast ad code) as [f|e]; simpl; [|by intros ->].
  set (trend := get (fc_trend f) 0).
  destruct (decide (0.02 < trend)) as [Hup|Hnup];
    [|destruct (decide (trend < -0.02)) as [Hdown|Hndown]]; simpl; intros Hc.
  - assert (Hval : c == Qmin (trend * 100) 4) by (rewrite Hc; ring).
    split.
    + split.
      { eexists _, _, _, _, _. split; [reflexivity|].
        split; [reflexivity|].
        split; split; try done; intros; exfalso; lra. }
      split; [intros _; exact Hval|].
      split; [intros; lra|].
      split; [intros; lra|].
      intros H5. rewrite Hval, H5. reflexivity.
    + split; [by rewrite Qabs_pos by lra|].
      by rewrite (Qabs_pos trend) by lra.
  - assert (Hval : c == Qmax (trend * 100) (-4)) by (rewrite Hc; ring).
    assert (Hcap : c == - Qmin (Qabs trend * 100) 4).
    { rewrite Hval, (Qabs_neg trend) by lra. rewrite capped_decline.
      assert (- (trend * 100) == - trend * 100) as -> by ring. reflexivity. }
    split.
    + split.
      { eexists _, _, _, _, _. split; [reflexivity|].
        split; [reflexivity|].
        split; split; try done; intros; exfalso; lra. }
      split; [intros; lra|].
      split; [intros _; by split|].
      split; [intros; lra|].
      intros H5. lra.
    + split; [rewrite Qabs_neg by lra; lra | exact Hcap].
  - split; [|exact Hc].
    split.
    { eexists _, _, _, _, _. split; [reflexivity|].
      split; [reflexivity|].
      split; split; try done; intros; exfalso; lra. }
    split; [intros; lra|].
    split; [intros; lra|].
    split; [intros; exact Hc|].
    intros H5. lra.
Qed.

Lemma forecast_contribution_spec_witness :
  let forecast :=
    {| fc_trend := Some 0.05; fc_confidence := Some 0.85;
       fc_predictions := None |} in
  (get_forecast forecast_only "TN0001600154" = Ok forecast
   ∧ get (fc_trend forecast) 0 == 0.05)
  ∧ forecast_contribution forecast_only "TN0001600154" == 4.
Proof.
  assert (Hf : get_forecast forecast_only "TN0001600154"
               = Ok {| fc_trend := Some 0.05; fc_confidence := Some 0.85;
                       fc_predictions := None |}) by reflexivity.
  assert (Ht : get (fc_trend {| fc_trend := Some 0.05;
                                fc_confidence := Some 0.85;
                                fc_predictions := None |}) 0 == 0.05)
    by reflexivity.
  split; [exact (conj Hf Ht)|].
  exact (proj2 (proj2 (proj2 (proj2
           (proj1 (forecast_contribution_spec forecast_only "TN0001600154")))))
           Ht).
Defined.


(** *** Repeated calls *)

Lemma generate_explanation_timestamp d timestamp :
  generate_explanation (with_timestamp d timestamp) = generate_explanation d.
Proof. reflexivity. Qed.

Lemma generate_short_explanation_timestamp d timestamp :
  generate_short_explanation (with_timestamp d timestamp)
  = generate_short_explanation d.
Proof. reflexivity. Qed.

(** C8, as stated, fails: with the same adapter outputs, price and
    profile, a call at 10:00:00 and a call at 10:00:01 return decisions
    with different timestamps. *)
Lemma timestamps_differ :
  ∃ d0 d1,
    make_recommendation forecast_only clock0 "TN0001600154" "moderate" = Ok d0
    ∧ make_recommendation forecast_only clock1 "TN0001600154" "moderate"
      = Ok d1
    ∧ d_timestamp d0 ≠ d_timestamp d1
    ∧ d0 ≠ d1.
Proof.
  eexists _, _. split; [vm_compute; reflexivity|].
  split; [vm_compute; reflexivity|].
  split; [discriminate|].
  intros H. apply (f_equal d_timestamp) in H. discriminate H.
Qed.

(** C8, amended: two calls with the same adapter outputs, price and
    profile either both raise the same exception or both return; the
    decisions returned agree on every field but the timestamp, which in
    each is the reading of the clock at that call. *)
Theorem make_recommendation_up_to_timestamp ad clk1 clk2 code user_profile :
  match make_recommendation ad clk1 code user_profile,
        make_recommendation ad clk2 code user_profile with
  | Ok d1, Ok d2 =>
      d_timestamp d1 = clock_isoformat clk1
      ∧ d_timestamp d2 = clock_isoformat clk2
      ∧ d1 = with_timestamp d2 (clock_isoformat clk1)
  | Raise e1, Raise e2 => e1 = e2
  | _, _ => False
  end.
Proof.
  unfold make_recommendation.
  destruct (get_stock_name ad code) as [nm|]; simpl; [|done].
  destruct (get_current_price ad code) as [price|]; simpl; [|done].
  destruct (_score_to_recommendation _ _) as [r c].
  match goal with
  | |- context [generate_explanation ?d] =>
      lazymatch d with
      | context [clock_isoformat clk2] =>
          change (generate_explanation d)
            with (generate_explanation
                    (with_timestamp d (clock_isoformat clk1)))
      end
  end.
  simpl with_timestamp.
  destruct (generate_explanation _) as [text|]; simpl; done.
Qed.

End EngineFacts.

(** ** Sorting and slicing *)

Module SequenceFacts.

Lemma insert_by_Permutation {A} (before : A → A → bool) x l :
  insert_by before x l ≡ₚ x :: l.
Proof.
  induction l as [|y l IH]; simpl; [done|].
  destruct (before y x); [|done]. rewrite IH. apply Permutation_swap.
Qed.

Lemma sorted_by_Permutation {A} (before : A → A → bool) l :
  sorted_by before l ≡ₚ l.
Proof.
  induction l as [|x l IH]; simpl; [done|].
  unfold sorted_by in *. simpl. by rewrite insert_by_Permutation, IH.
Qed.

Lemma sorted_by_length {A} (before : A → A → bool) l :
  length (sorted_by before l) = length l.
Proof. by rewrite sorted_by_Permutation. Qed.

Lemma elem_of_sorted_by {A} (before : A → A → bool) l x :
  x ∈ sorted_by before l ↔ x ∈ l.
Proof. by rewrite sorted_by_Permutation. Qed.

Lemma insert_by_Sorted {A} (before : A → A → bool) x l :
  (∀ a b, before a b = true → before b a = false) →
  Sorted (λ a b, before b a = false) l →
  Sorted (λ a b, before b a = false) (insert_by before x l).
Proof.
  intros Hasym. induction 1 as [|y l Hl IH Hhd]; simpl.
  - by repeat constructor.
  - destruct (before y x) eqn:Hyx.
    + constructor; [done|]. destruct Hhd as [|z l Hz]; simpl.
      * constructor. by apply Hasym.
      * destruct (before z x); constructor; [done | by apply Hasym].
    + by repeat constructor.
Qed.

Lemma sorted_by_Sorted {A} (before : A → A → bool) l :
  (∀ a b, before a b = true → before b a = false) →
  Sorted (λ a b, before b a = false) (sorted_by before l).
Proof.
  intros Hasym. induction l as [|x l IH]; [constructor|].
  by apply insert_by_Sorted.
Qed.

(** A list already in order is left as it is: items with equal keys
    are never swapped. *)
Lemma sorted_by_fixed {A} (before : A → A → bool) l :
  Sorted (λ a b, before b a = false) l → sorted_by before l = l.
Proof.
  induction 1 as [|x l Hl IH Hhd]; [done|].
  unfold sorted_by in *. simpl. rewrite IH.
  destruct Hhd as [|y l Hy]; simpl; [done|]. by rewrite Hy.
Qed.

Lemma slice_to_prefix {A} (l : list A) n : slice_to l n `prefix_of` l.
Proof. unfold slice_to. case_decide; apply prefix_take. Qed.

Lemma slice_to_length {A} (l : list A) n :
  (0 ≤ n)%Z → length (slice_to l n) = (Z.to_nat n `min` length l)%nat.
Proof. intros Hn. unfold slice_to. case_decide; [lia|]. apply length_take. Qed.

Lemma Sorted_prefix {A} (R : A → A → Prop) l k :
  l `prefix_of` k → Sorted R k → Sorted R l.
Proof.
  intros [tl ->]. induction l as [|x l IH]; simpl; [constructor|].
  intros Hs. apply Sorted_inv in Hs as [Hs Hhd]. constructor; [by apply IH|].
  destruct l; simpl in *; [constructor|].
  apply HdRel_inv in Hhd. by constructor.
Qed.

Lemma string_ltb_asym s1 s2 :
  String.ltb s1 s2 = true → String.ltb s2 s1 = false.
Proof.
  unfold String.ltb. rewrite (String.compare_antisym s2 s1).
  by destruct (String.compare s1 s2).
Qed.

Lemma string_compare_refl s : String.compare s s = Eq.
Proof.
  induction s as [|c s IH]; simpl; [done|].
  unfold Ascii.compare. by rewrite N.compare_refl.
Qed.

Lemma string_compare_lt_trans s1 : ∀ s2 s3,
  String.compare s1 s2 = Lt → String.compare s2 s3 = Lt →
  String.compare s1 s3 = Lt.
Proof.
  induction s1 as [|c1 s1 IH]; intros [|c2 s2] [|c3 s3]; simpl; try done.
  destruct (Ascii.compare c1 c2) eqn:H12; try done;
    destruct (Ascii.compare c2 c3) eqn:H23; try done.
  - apply Ascii.compare_eq_iff in H12, H23. subst.
    unfold Ascii.compare. rewrite N.compare_refl. apply IH.
  - apply Ascii.compare_eq_iff in H12. subst. by rewrite H23.
  - apply Ascii.compare_eq_iff in H23. subst. by rewrite H12.
  - intros _ _. unfold Ascii.compare in *.
    apply N.compare_lt_iff in H12, H23.
    pose proof (N.lt_trans _ _ _ H12 H23) as H13.
    apply N.compare_lt_iff in H13. by rewrite H13.
Qed.

(** "Not before" is transitive on strings. *)
Lemma string_ltb_false_trans s1 s2 s3 :
  String.ltb s1 s2 = false → String.ltb s2 s3 = false →
  String.ltb s1 s3 = false.
Proof.
  unfold String.ltb.
  destruct (String.compare s1 s2) eqn:H12; [|done|];
    destruct (String.compare s2 s3) eqn:H23; try done; intros _ _.
  - apply String.compare_eq_iff in H12, H23. subst.
    by rewrite string_compare_refl.
  - apply String.compare_eq_iff in H12. subst. by rewrite H23.
  - apply String.compare_eq_iff in H23. subst. by rewrite H12.
  - rewrite String.compare_antisym.
    rewrite (string_compare_lt_trans s3 s2 s1); [done| |].
    + rewrite String.compare_antisym, H23. done.
    + rewrite String.compare_antisym, H12. done.
Qed.

(** In a sorted list every item of a front part is in order with every
    item of the rest. *)
Lemma StronglySorted_across {A} (R : A → A → Prop) l k :
  StronglySorted R (l ++ k) → ∀ a b, a ∈ l → b ∈ k → R a b.
Proof.
  induction l as [|x l IH]; simpl; intros Hs a b Ha Hb.
  - by apply elem_of_nil in Ha.
  - apply StronglySorted_inv in Hs as [Hs Hx].
    apply elem_of_cons in Ha as [->|Ha]; [|by apply IH].
    rewrite Forall_forall in Hx. apply Hx. apply elem_of_app. by right.
Qed.

End SequenceFacts.

(** ** More about the ledger *)

Module LedgerInvariants.
Import PortfolioLedger Samples RoundingFacts LedgerFacts AllocationFacts CostBasisFacts.

(** X1: a [sell] has three outcomes. It is refused with the portfolio
    returned as it was when the instrument is not held, or when fewer
    shares are held than asked for (the answer then carries the quantity
    held); otherwise the proceeds [price * quantity] are added to the
    cash and the profit recorded is the proceeds minus the quantity at
    the average cost. *)
Theorem sell_outcomes clk self code price qty date :
  match sell clk self code price qty date with
  | (self', SellOk _ tx pl) =>
      ∃ h, holdings self !! code = Some h
           ∧ (qty ≤ quantity h)%Z
           ∧ cash self' = cash self + price * inject_Z qty
           ∧ pl = price * inject_Z qty - avg_price h * inject_Z qty
           ∧ tx_profit_loss tx = Some pl
  | (self', NoPosition _ c) =>
      self' = self ∧ c = code ∧ holdings self !! code = None
  | (self', InsufficientQuantity _ available) =>
      self' = self
      ∧ ∃ h, holdings self !! code = Some h
             ∧ available = quantity h ∧ (quantity h < qty)%Z
  end.
Proof.
  unfold sell. destruct (holdings self !! code) as [h|] eqn:Hh; [|done].
  case_decide.
  - split; [done|]. by exists h.
  - exists h. rewrite record_daily_value_cash. simpl.
    repeat split; try done. lia.
Qed.

Lemma execute_rejected self o : is_accepted self o = false → execute self o = self.
Proof.
  destruct o as [clk code nm price qty date | clk code price qty date]; simpl.
  - unfold buy. by case_decide.
  - unfold sell. destruct (holdings self !! code); [|done]. by case_decide.
Qed.

Lemma cash_nonnegative_execute self o :
  match o with
  | Buy _ _ _ _ _ _ => True
  | Sell _ _ price qty _ => 0 <= price ∧ (0 ≤ qty)%Z
  end →
  0 <= cash self → 0 <= cash (execute self o).
Proof.
  destruct o as [clk code nm price qty date | clk code price qty date]; simpl.
  - intros _ Hc. unfold buy. case_decide; [done|]. simpl.
    rewrite record_daily_value_cash. simpl. lra.
  - intros [Hp Hq] Hc. unfold sell.
    destruct (holdings self !! code); [|done]. case_decide; [done|]. simpl.
    rewrite record_daily_value_cash. simpl.
    assert (0 <= inject_Z qty) by (by rewrite <- (Zle_Qle 0)).
    assert (0 <= price * inject_Z qty) by (by apply Qmult_le_0_compat).
    lra.
Qed.

(** X2: on a portfolio opened with a capital that is not negative, no
    sequence of buys and of sells at non-negative prices and quantities
    makes the cash negative. *)
Theorem cash_never_negative clk capital nm orders :
  0 <= capital → sells_nonnegative orders →
  0 <= cash (run (init clk capital nm) orders).
Proof.
  intros Hcap. generalize (init clk capital nm), (Hcap : 0 <= cash (init clk capital nm)).
  clear Hcap. induction orders as [|o rest IH]; intros self Hc Hs; [done|].
  inversion Hs as [|? ? Ho Hrest]; subst. simpl.
  apply IH; [|done]. by apply cash_nonnegative_execute.
Qed.

Lemma cash_never_negative_witness :
  (0 <= 10000 ∧ sells_nonnegative day_trades)
  ∧ 0 <= cash (run (init clock0 10000 "P") day_trades).
Proof.
  assert (Hcap : 0 <= 10000) by lra.
  assert (Hs : sells_nonnegative day_trades).
  { repeat constructor; [lra | lia]. }
  split; [exact (conj Hcap Hs)|].
  exact (cash_never_negative clock0 10000 "P" day_trades Hcap Hs).
Defined.

Lemma history_execute self o :
  ∃ new,
    transaction_history (execute self o) = transaction_history self ++ new
    ∧ length new = (if is_accepted self o then 1 else 0)%nat
    ∧ (∀ tx, last new = Some tx → tx_cash_after tx = cash (execute self o))
    ∧ (new = [] → execute self o = self).
Proof.
  destruct o as [clk code nm price qty date | clk code price qty date]; simpl.
  - unfold buy. case_decide; simpl.
    + exists []. by rewrite app_nil_r.
    + eexists [_]. rewrite record_daily_value_history, record_daily_value_cash.
      simpl. repeat split; [|done]. by intros tx [= <-].
  - unfold sell. destruct (holdings self !! code); simpl.
    2:{ exists []. by rewrite app_nil_r. }
    case_decide; simpl.
    + exists []. by rewrite app_nil_r.
    + eexists [_]. rewrite record_daily_value_history, record_daily_value_cash.
      simpl. repeat split; [|done]. by intros tx [= <-].
Qed.

(** X3: the transaction log only grows at its end. After any sequence
    of orders the log before is a prefix of the log after, and the log
    has gained exactly one entry per accepted order. *)
Theorem history_append_only self orders :
  transaction_history self `prefix_of` transaction_history (run self orders)
  ∧ length (transaction_history (run self orders))
    = (length (transaction_history self) + accepted_count self orders)%nat.
Proof.
  revert self. induction orders as [|o rest IH]; intros self; simpl.
  - split; [done | lia].
  - destruct (IH (execute self o)) as [Hpre Hlen]. unfold run in *.
    rewrite Hlen.
    destruct (history_execute self o) as (new & Hh & Hn & _).
    rewrite Hh in Hpre |- *. split.
    + etrans; [|exact Hpre]. by apply prefix_app_r.
    + rewrite length_app, Hn. lia.
Qed.

(** X7: on a portfolio run from a fresh one, the cash recorded in the
    latest transaction ([cash_after]) is the cash balance; with no
    transaction in the log the cash is the capital and nothing is
    held. *)
Theorem latest_transaction_cash clk capital nm orders :
  let self := run (init clk capital nm) orders in
  match last (transaction_history self) with
  | Some tx => tx_cash_after tx = cash self
  | None => cash self = capital ∧ holdings self = ∅
  end.
Proof.
  intros self. unfold self. clear self.
  induction orders as [|o rest IH] using rev_ind; [done|].
  unfold run in *. rewrite foldl_app. simpl.
  set (self := foldl execute (init clk capital nm) rest) in *.
  destruct (history_execute self o) as (new & Hh & Hn & Hc & Hsame).
  rewrite Hh. destruct new as [|tx [|]].
  - rewrite app_nil_r, Hsame by done. exact IH.
  - rewrite last_snoc. by apply Hc.
  - simpl in Hn. destruct (is_accepted self o); lia.
Qed.

(** X4: selling part of a position leaves a holding with the quantity
    reduced by the quantity sold and with the same average cost, name
    and buy dates; the other holdings are untouched and the cash grows
    by [price * quantity]. *)
Theorem sell_part_keeps_average_cost clk self code price qty date h :
  holdings self !! code = Some h →
  (qty < quantity h)%Z →
  let self' := fst (sell clk self code price qty date) in
  (∃ h',
     holdings self' !! code = Some h'
     ∧ quantity h' = (quantity h - qty)%Z
     ∧ avg_price h' = avg_price h
     ∧ stock_name h' = stock_name h
     ∧ first_buy_date h' = first_buy_date h
     ∧ last_buy_date h' = last_buy_date h)
  ∧ (∀ other, other ≠ code → holdings self' !! other = holdings self !! other)
  ∧ cash self' = cash self + price * inject_Z qty.
Proof.
  intros Hh Hqty. unfold sell. rewrite Hh. case_decide; [lia|]. simpl.
  rewrite record_daily_value_holdings, record_daily_value_cash. simpl.
  case_decide; [lia|]. split; [|split; [|done]].
  - eexists. split; [apply lookup_insert_eq|]. done.
  - intros other Hne. by rewrite lookup_insert_ne.
Qed.

Lemma sell_part_keeps_average_cost_witness :
  (holdings held_position !! "TN0001800457" = Some held_lot
   ∧ (5 < quantity held_lot)%Z)
  ∧ cash (fst (sell clock0 held_position "TN0001800457" 95 5 None))
    = cash held_position + 95 * inject_Z 5.
Proof.
  assert (Hh : holdings held_position !! "TN0001800457" = Some held_lot)
    by (vm_compute; reflexivity).
  assert (Hq : (5 < quantity held_lot)%Z) by (vm_compute; reflexivity).
  split; [exact (conj Hh Hq)|].
  exact (proj2 (proj2 (sell_part_keeps_average_cost clock0 held_position
                         "TN0001800457" 95 5 None held_lot Hh Hq))).
Defined.

(** X10: saving and loading settles after one round: a portfolio that
    has been through [to_dict] and [from_dict] once comes back from a
    second round exactly as it went in, whatever the clock reads. *)
Theorem save_load_settles clk clk' self :
  let loaded := from_dict clk (to_dict self) in
  from_dict clk' (to_dict loaded) = loaded.
Proof.
  intros loaded. unfold loaded, from_dict, to_dict. simpl.
  by destruct (daily_values self), (daily_snapshots self).
Qed.

End LedgerInvariants.

(** ** The valuation series and the allocation *)

Module ValuationFacts.
Import PortfolioLedger Samples RoundingFacts LedgerFacts AllocationFacts CostBasisFacts.

Lemma update_latest_dates date value entries entries' :
  update_latest date value entries = Some entries' →
  dv_date <$> entries' = dv_date <$> entries.
Proof.
  revert entries'. induction entries as [|e rest IH]; intros entries'; simpl; [done|].
  destruct (update_latest date value rest) as [rest'|].
  - intros [= <-]. rewrite !fmap_cons. by rewrite (IH rest').
  - case_decide; [|done]. by intros [= <-].
Qed.

Lemma update_latest_absent date value entries :
  update_latest date value entries = None → date ∉ dv_date <$> entries.
Proof.
  induction entries as [|e rest IH]; simpl; [intros _; apply not_elem_of_nil|].
  destruct (update_latest date value rest) as [rest'|]; [done|].
  case_decide; [done|]. intros _. rewrite not_elem_of_cons. split; [done|].
  by apply IH.
Qed.

Lemma update_latest_present date value entries entries' :
  update_latest date value entries = Some entries' →
  date ∈ dv_date <$> entries.
Proof.
  revert entries'. induction entries as [|e rest IH]; intros entries'; simpl; [done|].
  destruct (update_latest date value rest) as [rest'|].
  - intros _. apply elem_of_cons. right. by apply (IH rest').
  - case_decide; [|done]. intros _. apply elem_of_cons. by left.
Qed.

Lemma record_daily_value_dates self date overrides :
  NoDup (valuation_dates self) →
  NoDup (valuation_dates (_record_daily_value self date overrides))
  ∧ ∀ d, d ∈ valuation_dates (_record_daily_value self date overrides)
         ↔ d = date ∨ d ∈ valuation_dates self.
Proof.
  intros Hnd. unfold valuation_dates, _record_daily_value.
  destruct (update_latest _ _ _) as [entries|] eqn:Hu; simpl.
  - rewrite (update_latest_dates _ _ _ _ Hu). split; [done|].
    intros d. split; [by right|]. intros [->|]; [|done].
    by apply (update_latest_present _ _ _ _ Hu).
  - rewrite fmap_app. simpl. split.
    + apply NoDup_app. split; [done|]. split; [|apply NoDup_singleton].
      intros d Hd ->%list_elem_of_singleton.
      by apply (update_latest_absent _ _ _ Hu).
    + intros d. rewrite elem_of_app, list_elem_of_singleton. tauto.
Qed.

Lemma valuation_tracks_log_execute self o :
  valuation_tracks_log self → valuation_tracks_log (execute self o).
Proof.
  intros [Hnd Hdates]. unfold valuation_tracks_log.
  destruct o as [clk code nm price qty date | clk code price qty date]; simpl.
  - unfold buy. case_decide; [done|]. simpl.
    rewrite record_daily_value_history. simpl.
    match goal with
    | |- context [_record_daily_value ?p ?d ?ov] =>
        destruct (record_daily_value_dates p d ov Hnd) as [Hnd' Hd']
    end.
    split; [done|]. intros d. rewrite Hd', fmap_app, elem_of_app. simpl.
    rewrite list_elem_of_singleton.
    change (valuation_dates _) with (valuation_dates self) at 1.
    rewrite Hdates. tauto.
  - unfold sell. destruct (holdings self !! code); [|done].
    case_decide; [done|]. simpl.
    rewrite record_daily_value_history. simpl.
    match goal with
    | |- context [_record_daily_value ?p ?d ?ov] =>
        destruct (record_daily_value_dates p d ov Hnd) as [Hnd' Hd']
    end.
    split; [done|]. intros d. rewrite Hd', fmap_app, elem_of_app. simpl.
    rewrite list_elem_of_singleton.
    change (valuation_dates _) with (valuation_dates self) at 1.
    rewrite Hdates. tauto.
Qed.

(** X6: on a portfolio run from a fresh one, the valuation series has
    at most one entry per date, and its dates are exactly the dates of
    the transactions of the log. *)
Theorem one_valuation_per_trading_date clk capital nm orders :
  let self := run (init clk capital nm) orders in
  NoDup (valuation_dates self)
  ∧ ∀ d, d ∈ valuation_dates self ↔ d ∈ tx_date <$> transaction_history self.
Proof.
  intros self. change (valuation_tracks_log self). unfold self. clear self.
  assert (H0 : valuation_tracks_log (init clk capital nm)).
  { split; [apply NoDup_nil_2 | done]. }
  revert H0. generalize (init clk capital nm).
  induction orders as [|o rest IH]; intros self H; [done|].
  simpl. by apply IH, valuation_tracks_log_execute.
Qed.

(** *** Allocation *)

(** X8: when the portfolio is worth more than zero, the keys of the
    allocation are CASH and the codes held; the entry of a held code is
    the share of its position in percent, to the nearest hundredth
    (within 0.005), also when that code is CASH (the share of the cash
    is then not reported), and the CASH entry is the share of the cash
    to the nearest hundredth when no such code is held. *)
Theorem get_allocation_keys self prices :
  0 < get_current_value self prices →
  (∀ code, is_Some (get_allocation self prices !! code)
           ↔ code = "CASH" ∨ is_Some (holdings self !! code))
  ∧ (∀ code h, holdings self !! code = Some h →
       ∃ v,
         get_allocation self prices !! code = Some v
         ∧ Qabs (v - inject_Z (quantity h)
                     * get (prices !! code) (avg_price h)
                     / get_current_value self prices * 100) <= 0.005)
  ∧ (holdings self !! "CASH" = None →
       ∃ v,
         get_allocation self prices !! "CASH" = Some v
         ∧ Qabs (v - cash self / get_current_value self prices * 100)
           <= 0.005).
Proof.
  intros Hpos. rewrite get_allocation_entries by done.
  split; [|split].
  - intros code. rewrite lookup_union_is_Some, map_lookup_imap.
    rewrite lookup_singleton_is_Some.
    destruct (holdings self !! code) as [h|]; simpl.
    + split; [intros _; right; eauto | intros _; left; eauto].
    + split.
      * intros [[? [=]] | ->]. by left.
      * intros [-> | [? [=]]]. by right.
  - intros code h Hh. eexists. split.
    + apply lookup_union_Some_l. by rewrite map_lookup_imap, Hh.
    + unfold allocation_of. eapply Qle_trans; [apply round_error_cents|].
      vm_compute. discriminate.
  - intros Hh. eexists. split.
    + rewrite lookup_union_r by (by rewrite map_lookup_imap, Hh).
      apply lookup_singleton_eq.
    + eapply Qle_trans; [apply round_error_cents|]. vm_compute. discriminate.
Qed.

Lemma get_allocation_keys_witness :
  (0 < get_current_value two_positions two_prices
   ∧ holdings two_positions !! "CASH" = None)
  ∧ ∃ v,
      get_allocation two_positions two_prices !! "CASH" = Some v
      ∧ Qabs (v - cash two_positions
                  / get_current_value two_positions two_prices * 100)
        <= 0.005.
Proof.
  assert (Hpos : 0 < get_current_value two_positions two_prices)
    by (vm_compute; reflexivity).
  assert (Hcash : holdings two_positions !! "CASH" = None)
    by (vm_compute; reflexivity).
  split; [exact (conj Hpos Hcash)|].
  exact (proj2 (proj2 (get_allocation_keys two_positions two_prices Hpos))
           Hcash).
Defined.

Lemma value_of_holdings_nonnegative (hs : gmap string Holding) prices :
  map_Forall
    (λ code h, (0 ≤ quantity h)%Z ∧ 0 <= get (prices !! code) (avg_price h)) hs →
  0 <= value_of_holdings hs prices.
Proof.
  induction hs as [|k h hs Hk IH] using map_ind; intros Hall.
  - rewrite value_of_holdings_empty. lra.
  - rewrite value_of_holdings_insert by done.
    apply map_Forall_insert in Hall as [[Hq Hp] Hrest]; [|done].
    specialize (IH Hrest).
    assert (0 <= inject_Z (quantity h)) by (by rewrite <- (Zle_Qle 0)).
    assert (0 <= inject_Z (quantity h) * get (prices !! k) (avg_price h))
      by (by apply Qmult_le_0_compat).
    lra.
Qed.

Lemma percentage_bounds part total :
  0 < total → 0 <= part → part <= total →
  0 <= round (part / total * 100) 2 ∧ round (part / total * 100) 2 <= 100.
Proof.
  intros Ht Hp Hle.
  assert (H0 : 0 <= part / total) by (apply Qle_shift_div_l; lra).
  assert (H1 : part / total <= 1) by (apply Qle_shift_div_r; lra).
  split.
  - apply (EngineFacts.round_cents_ge 0); [reflexivity | lra].
  - apply (EngineFacts.round_cents_le 10000); [reflexivity | lra].
Qed.

(** X9: when the cash, the quantities and the prices used are not
    negative, every percentage of the allocation is between 0 and
    100. *)
Theorem allocation_entries_bounded self prices code v :
  0 <= cash self → holdings_nonnegative self prices →
  get_allocation self prices !! code = Some v →
  0 <= v ∧ v <= 100.
Proof.
  intros Hcash Hall. unfold holdings_nonnegative in Hall.
  pose proof (value_of_holdings_nonnegative _ _ Hall) as Hval.
  destruct (Qlt_le_dec 0 (get_current_value self prices)) as [Hpos|Hle].
  - rewrite get_allocation_entries by done.
    intros [Hv | [_ Hv]]%lookup_union_Some_raw.
    + rewrite map_lookup_imap in Hv.
      destruct (holdings self !! code) as [h|] eqn:Hh; [|done].
      simpl in Hv. injection Hv as <-. unfold allocation_of.
      destruct (Hall _ _ Hh) as [Hq Hp]. simpl in Hq, Hp.
      pose proof (value_of_holdings_delete _ _ _ prices Hh) as Hsplit.
      pose proof (value_of_holdings_nonnegative (delete code (holdings self))
                    prices (map_Forall_delete _ _ _ Hall)) as Hrest.
      assert (0 <= inject_Z (quantity h)) by (by rewrite <- (Zle_Qle 0)).
      apply percentage_bounds; [done | by apply Qmult_le_0_compat |].
      unfold get_current_value.
      change (get_holdings_value self prices)
        with (value_of_holdings (holdings self) prices). lra.
    + apply lookup_singleton_Some in Hv as [_ <-].
      apply percentage_bounds; [done | done |].
      unfold get_current_value.
      change (get_holdings_value self prices)
        with (value_of_holdings (holdings self) prices). lra.
  - rewrite get_allocation_degenerate by done.
    intros [_ <-]%lookup_singleton_Some. split; lra.
Qed.

Lemma allocation_entries_bounded_witness :
  (0 <= cash held_position ∧ holdings_nonnegative held_position ∅)
  ∧ match get_allocation held_position ∅ !! "CASH" with
    | Some v => 0 <= v ∧ v <= 100
    | None => False
    end.
Proof.
  assert (Hcash : 0 <= cash held_position) by (vm_compute; discriminate).
  assert (Hall : holdings_nonnegative held_position ∅).
  { apply map_Forall_singleton. split; [vm_compute; discriminate|].
    vm_compute; discriminate. }
  split; [exact (conj Hcash Hall)|].
  destruct (get_allocation held_position ∅ !! "CASH") as [v|] eqn:Hv.
  - exact (allocation_entries_bounded held_position ∅ "CASH" v Hcash Hall Hv).
  - vm_compute in Hv. discriminate Hv.
Defined.

End ValuationFacts.

(** ** Reading the log and the valuation series *)

Module LogFacts.
Import PortfolioLedger Samples RoundingFacts LedgerFacts SequenceFacts.

(** X11: the list [get_transaction_history] returns is ordered by
    timestamp, newest first; every entry comes from the log and, when a
    code is given, is a transaction on that code; a positive limit
    bounds its length; and without a limit no transaction of the log
    (on that code) is left out. *)
Theorem get_transaction_history_spec self limit stock_code :
  let shown := get_transaction_history self limit stock_code in
  Sorted (λ a b, String.ltb (tx_timestamp a) (tx_timestamp b) = false) shown
  ∧ (∀ tx, tx ∈ shown →
       tx ∈ transaction_history self
       ∧ ∀ code, stock_code = Some code → code ≠ EmptyString →
                 tx_stock_code tx = code)
  ∧ (∀ n, limit = Some n → (0 < n)%Z → (length shown ≤ Z.to_nat n)%nat)
  ∧ (limit = None →
     ∀ tx, tx ∈ transaction_history self →
           (∀ code, stock_code = Some code → code ≠ EmptyString →
                    tx_stock_code tx = code) →
           tx ∈ shown).
Proof.
  intros shown. unfold shown, get_transaction_history.
  set (before := λ a b : Transaction,
                   String.ltb (tx_timestamp b) (tx_timestamp a)).
  set (picked :=
         match stock_code with
         | Some code =>
             if truthy_str code
             then filter (λ t, tx_stock_code t = code) (transaction_history self)
             else transaction_history self
         | None => transaction_history self
         end).
  assert (Hsorted :
    Sorted (λ a b, String.ltb (tx_timestamp a) (tx_timestamp b) = false)
      (sorted_by before picked)).
  { apply (sorted_by_Sorted before). intros a b. apply string_ltb_asym. }
  assert (Hpicked : ∀ tx,
    tx ∈ picked
    ↔ tx ∈ transaction_history self
      ∧ ∀ code, stock_code = Some code → code ≠ EmptyString →
                tx_stock_code tx = code).
  { intros tx. unfold picked. destruct stock_code as [[|c code]|]; simpl.
    - split; [|tauto]. intros H. split; [done|]. by intros ? [= <-].
    - rewrite list_elem_of_filter. split.
      + intros [Hc Hin]. split; [done|]. by intros ? [= <-].
      + intros [Hin Hc]. split; [|done]. by apply Hc.
    - split; [|tauto]. intros H. by split. }
  assert (Hprefix :
    match limit with
    | Some n =>
        if truthy_int n then slice_to (sorted_by before picked) n
        else sorted_by before picked
    | None => sorted_by before picked
    end `prefix_of` sorted_by before picked).
  { destruct limit as [n|]; [|done].
    destruct (truthy_int n); [apply slice_to_prefix | done]. }
  split; [by eapply Sorted_prefix|]. split; [|split].
  - intros tx Hin. apply Hpicked, (elem_of_sorted_by before).
    destruct Hprefix as [tl ->]. apply elem_of_app. by left.
  - intros n -> Hn. unfold truthy_int.
    destruct (Z.eqb_spec n 0); [lia|]. simpl.
    rewrite slice_to_length by lia. lia.
  - intros -> tx Hin Hcode. apply (elem_of_sorted_by before), Hpicked. by split.
Qed.

(** X12: the defaults of [get_transaction_history] are tested for
    truth, not for [None]: a limit of 0 returns the whole list, as no
    limit does, and an empty code filters nothing. A negative limit
    [-k] does not bound the length: it returns the list without its
    last [k] entries, which are the [k] oldest (none of them is newer
    than an entry that is kept). *)
Theorem get_transaction_history_edges self limit stock_code :
  get_transaction_history self (Some 0%Z) stock_code
  = get_transaction_history self None stock_code
  ∧ get_transaction_history self limit (Some EmptyString)
    = get_transaction_history self limit None
  ∧ ∀ n, (n < 0)%Z →
      ∃ dropped,
        get_transaction_history self None stock_code
        = get_transaction_history self (Some n) stock_code ++ dropped
        ∧ length dropped
          = (Z.to_nat (- n)
             `min` length (get_transaction_history self None stock_code))%nat
        ∧ ∀ kept old,
            kept ∈ get_transaction_history self (Some n) stock_code →
            old ∈ dropped →
            String.ltb (tx_timestamp kept) (tx_timestamp old) = false.
Proof.
  split; [done|]. split; [done|]. intros n Hn.
  unfold get_transaction_history, truthy_int.
  destruct (Z.eqb_spec n 0); [lia|]. simpl.
  set (before := λ a b : Transaction,
                   String.ltb (tx_timestamp b) (tx_timestamp a)).
  match goal with
  | |- context [sorted_by before ?picked] => set (full := sorted_by before picked)
  end.
  unfold slice_to. case_decide; [|lia].
  set (keep := (length full - Z.to_nat (- n))%nat).
  exists (drop keep full). split; [by rewrite take_drop|].
  split; [rewrite length_drop; unfold keep; lia|].
  assert (Hs : StronglySorted
                 (λ a b, String.ltb (tx_timestamp a) (tx_timestamp b) = false)
                 (take keep full ++ drop keep full)).
  { rewrite take_drop. apply Sorted_StronglySorted.
    - intros x y z. apply string_ltb_false_trans.
    - apply (sorted_by_Sorted before). intros a b. apply string_ltb_asym. }
  intros kept old. by apply (StronglySorted_across _ _ _ Hs).
Qed.

Lemma get_transaction_history_spec_witness :
  (0 < 1)%Z
  ∧ (length (get_transaction_history two_positions (Some 1%Z) None)
     ≤ Z.to_nat 1)%nat.
Proof.
  assert (Hn : (0 < 1)%Z) by lia.
  split; [exact Hn|].
  exact (proj1 (proj2 (proj2 (get_transaction_history_spec two_positions
                                (Some 1%Z) None)))
           1%Z eq_refl Hn).
Defined.

Lemma get_transaction_history_edges_witness :
  (-1 < 0)%Z
  ∧ ∃ dropped,
      get_transaction_history two_positions None None
      = get_transaction_history two_positions (Some (-1)%Z) None ++ dropped
      ∧ length dropped
        = (Z.to_nat (- -1)
           `min` length (get_transaction_history two_positions None None))%nat
      ∧ ∀ kept old,
          kept ∈ get_transaction_history two_positions (Some (-1)%Z) None →
          old ∈ dropped →
          String.ltb (tx_timestamp kept) (tx_timestamp old) = false.
Proof.
  assert (Hn : (-1 < 0)%Z) by lia.
  split; [exact Hn|].
  exact (proj2 (proj2 (get_transaction_history_edges two_positions None None))
           (-1)%Z Hn).
Defined.

(** *** Drawdown *)

Lemma drawdown_step_nonnegative peak max_drawdown value :
  0 <= max_drawdown → 0 <= snd (drawdown_step (peak, max_drawdown) value).
Proof. intros Hmd. unfold drawdown_step. repeat case_decide; simpl; lra. Qed.

Lemma drawdown_step_at_most_one peak max_drawdown value :
  0 <= value → max_drawdown <= 1 →
  snd (drawdown_step (peak, max_drawdown) value) <= 1.
Proof.
  intros Hv Hmd. unfold drawdown_step. repeat case_decide; simpl; try done.
  all: apply Qle_shift_div_r; [done | lra].
Qed.

Lemma drawdown_nonnegative values : ∀ acc,
  0 <= snd acc → 0 <= snd (foldl drawdown_step acc values).
Proof.
  induction values as [|v values IH]; intros [peak md] Hmd; [done|].
  cbn [foldl]. apply IH. by apply drawdown_step_nonnegative.
Qed.

Lemma drawdown_at_most_one values :
  Forall (λ v, 0 <= v) values →
  ∀ acc, snd acc <= 1 → snd (foldl drawdown_step acc values) <= 1.
Proof.
  induction 1 as [|v values Hv Hvalues IH]; intros [peak md] Hmd; [done|].
  cbn [foldl]. apply IH. by apply drawdown_step_at_most_one.
Qed.

Lemma values_by_date_nonnegative self :
  valuations_nonnegative self → Forall (λ v, 0 <= v) (values_by_date self).
Proof.
  unfold valuations_nonnegative, values_by_date. rewrite !Forall_forall.
  intros Hall v [entry [-> Hin]]%list_elem_of_fmap.
  apply Hall. by apply elem_of_sorted_by in Hin.
Qed.

Lemma max_drawdown_nonnegative self : 0 <= _calculate_max_drawdown self.
Proof.
  unfold _calculate_max_drawdown. case_decide; [lra|].
  pose proof (drawdown_nonnegative (values_by_date self)
                (match values_by_date self with v :: _ => v | [] => 0 end, 0))
    as H0. simpl in H0. lra.
Qed.

(** X13: the maximum drawdown is never negative, and it is at most
    100 (percent) when no valuation of the series is negative. *)
Theorem max_drawdown_bounds self :
  0 <= _calculate_max_drawdown self
  ∧ (valuations_nonnegative self → _calculate_max_drawdown self <= 100).
Proof.
  split; [apply max_drawdown_nonnegative|].
  unfold _calculate_max_drawdown. case_decide; [intros; lra|].
  - intros Hnn.
    pose proof (drawdown_at_most_one (values_by_date self)
                  (values_by_date_nonnegative self Hnn)
                  (match values_by_date self with v :: _ => v | [] => 0 end, 0))
      as H1. simpl in H1. lra.
Qed.

Lemma max_drawdown_bounds_witness :
  valuations_nonnegative held_position
  ∧ _calculate_max_drawdown held_position <= 100.
Proof.
  assert (Hnn : valuations_nonnegative held_position).
  { repeat constructor; vm_compute; discriminate. }
  split; [exact Hnn|].
  exact (proj2 (max_drawdown_bounds held_position) Hnn).
Defined.

Lemma no_drawdown_step peak value :
  peak <= value →
  ∃ peak', drawdown_step (peak, 0) value = (peak', 0) ∧ peak' == value.
Proof.
  intros Hle. unfold drawdown_step.
  destruct (decide (peak < value)) as [Hlt|Hge].
  - exists value. split; [|reflexivity].
    assert (Hd : (value - value) / value == 0) by (unfold Qdiv; ring).
    destruct (decide (0 < value)); [|done].
    destruct (decide (0 < (value - value) / value)) as [H|]; [|done].
    rewrite Hd in H. clear Hd. lra.
  - exists peak. assert (Heq : peak == value) by lra. split; [|done].
    assert (Hd : (peak - value) / peak == 0).
    { rewrite Heq. unfold Qdiv. ring. }
    destruct (decide (0 < peak)); [|done].
    destruct (decide (0 < (peak - value) / peak)) as [H|]; [|done].
    rewrite Hd in H. clear Hd. lra.
Qed.

Lemma no_drawdown_fold values : ∀ peak,
  StronglySorted Qle values → Forall (Qle peak) values →
  snd (foldl drawdown_step (peak, 0) values) = 0.
Proof.
  induction values as [|v values IH]; intros peak Hs Hpeak; [done|].
  apply StronglySorted_inv in Hs as [Hs Hv].
  apply Forall_cons in Hpeak as [Hpv Hpeak].
  cbn [foldl]. destruct (no_drawdown_step peak v Hpv) as (peak' & -> & Heq).
  apply IH; [done|].
  eapply Forall_impl; [exact Hv|]. intros w Hw. simpl in Hw. lra.
Qed.

(** X14: a valuation series that, taken in the order of its dates,
    never falls has a maximum drawdown of zero. *)
Theorem no_drawdown_when_rising self :
  Sorted Qle (values_by_date self) → _calculate_max_drawdown self == 0.
Proof.
  intros Hs. unfold _calculate_max_drawdown. case_decide; [reflexivity|].
  assert (Hss : StronglySorted Qle (values_by_date self)).
  { apply Sorted_StronglySorted; [|done]. intros x y z. apply Qle_trans. }
  rewrite no_drawdown_fold; [reflexivity | done |].
  destruct (values_by_date self) as [|v values]; [done|].
  apply StronglySorted_inv in Hss as [_ Hv].
  apply Forall_cons. split; [lra | done].
Qed.

Lemma no_drawdown_when_rising_witness :
  Sorted Qle (values_by_date held_position)
  ∧ _calculate_max_drawdown held_position == 0.
Proof.
  assert (Hs : Sorted Qle (values_by_date held_position)).
  { change (values_by_date held_position) with [10000; 10050; 10050].
    repeat constructor; vm_compute; discriminate. }
  split; [exact Hs|].
  exact (no_drawdown_when_rising held_position Hs).
Defined.

(** *** Sharpe ratio *)

Lemma returns_of_length values :
  (length (returns_of values) ≤ pred (length values))%nat.
Proof.
  induction values as [|prev rest IH]; simpl; [done|].
  destruct rest as [|value rest]; [done|].
  case_decide; simpl in *; lia.
Qed.

Lemma values_by_date_length self :
  length (values_by_date self) = length (daily_values self).
Proof. unfold values_by_date. by rewrite length_fmap, sorted_by_length. Qed.

(** X15: with fewer than three daily valuations the Sharpe ratio is
    0: two valuations give a single return, and the ratio asks for
    two. It is returned before any power is taken, so nothing is
    raised. *)
Theorem sharpe_needs_three_valuations sqrt square self :
  (length (daily_values self) < 3)%nat →
  _calculate_sharpe_ratio sqrt square self = Ok 0.
Proof.
  intros Hlen. unfold _calculate_sharpe_ratio. case_decide; [done|].
  pose proof (returns_of_length (values_by_date self)) as Hr.
  rewrite values_by_date_length in Hr. case_decide; [done | lia].
Qed.

Lemma sharpe_needs_three_valuations_witness :
  (length (daily_values two_positions) < 3)%nat
  ∧ _calculate_sharpe_ratio (λ x, x) (λ x, Ok (x ^ 2)) two_positions = Ok 0.
Proof.
  assert (Hlen : (length (daily_values two_positions) < 3)%nat)
    by (vm_compute; lia).
  split; [exact Hlen|].
  exact (sharpe_needs_three_valuations (λ x, x) (λ x, Ok (x ^ 2))
           two_positions Hlen).
Defined.

End LogFacts.

(** ** Performance metrics *)

Module MetricsFacts.
Import PortfolioLedger Samples RoundingFacts LedgerFacts AllocationFacts CostBasisFacts SequenceFacts ValuationFacts LogFacts.

Lemma record_daily_value_single_day self day overrides :
  valuation_dates self = [] ∨ valuation_dates self = [day] →
  valuation_dates (_record_daily_value self day overrides) = [day].
Proof.
  intros Hdates. unfold valuation_dates, _record_daily_value in *.
  destruct (update_latest _ _ _) as [entries|] eqn:Hu; simpl.
  - rewrite (update_latest_dates _ _ _ _ Hu).
    destruct Hdates as [Hnil|Hday]; [|done].
    apply update_latest_present in Hu. rewrite Hnil in Hu.
    by apply elem_of_nil in Hu.
  - rewrite fmap_app. apply update_latest_absent in Hu.
    destruct Hdates as [->|Hday]; [done|].
    rewrite Hday in Hu. destruct Hu. apply list_elem_of_singleton. done.
Qed.

Lemma single_day_execute self o day :
  order_date o = day →
  valuation_dates self = [] ∨ valuation_dates self = [day] →
  valuation_dates (execute self o) = []
  ∨ valuation_dates (execute self o) = [day].
Proof.
  intros Hday Hdates.
  destruct o as [clk code nm price qty date | clk code price qty date];
    simpl in *.
  - unfold buy. case_decide; [done|]. simpl. right. rewrite Hday.
    by apply record_daily_value_single_day.
  - unfold sell. destruct (holdings self !! code); [|done].
    case_decide; [done|]. simpl. right. rewrite Hday.
    by apply record_daily_value_single_day.
Qed.

(** X16: when every order is booked on the same date, the valuation
    series has at most one entry, and both risk measures are 0 whatever
    was traded: the maximum drawdown and the Sharpe ratio. *)
Theorem single_day_has_no_risk_metrics sqrt square clk capital nm orders day :
  Forall (λ o, order_date o = day) orders →
  let self := run (init clk capital nm) orders in
  (length (daily_values self) ≤ 1)%nat
  ∧ _calculate_max_drawdown self = 0
  ∧ _calculate_sharpe_ratio sqrt square self = Ok 0.
Proof.
  intros Hall self.
  assert (Hdates : valuation_dates self = [] ∨ valuation_dates self = [day]).
  { unfold self. clear self.
    assert (H0 : valuation_dates (init clk capital nm) = []
                 ∨ valuation_dates (init clk capital nm) = [day]) by (by left).
    revert H0. generalize (init clk capital nm).
    induction Hall as [|o rest Ho Hrest IH]; intros p Hp; [done|].
    simpl. by apply IH, single_day_execute. }
  assert (Hlen : (length (daily_values self) ≤ 1)%nat).
  { unfold valuation_dates in Hdates.
    rewrite <- (length_fmap dv_date). destruct Hdates as [-> | ->]; simpl; lia. }
  split; [done|]. split.
  - unfold _calculate_max_drawdown. case_decide; [done | lia].
  - unfold _calculate_sharpe_ratio. case_decide; [done | lia].
Qed.

Lemma single_day_has_no_risk_metrics_witness :
  Forall (λ o, order_date o = "2026-02-07") day_trades
  ∧ (let self := run (init clock0 10000 "P") day_trades in
     (length (daily_values self) ≤ 1)%nat
     ∧ _calculate_max_drawdown self = 0
     ∧ _calculate_sharpe_ratio (λ x, x) (λ x, Ok (x ^ 2)) self = Ok 0).
Proof.
  assert (Hday : Forall (λ o, order_date o = "2026-02-07") day_trades)
    by (repeat constructor).
  split; [exact Hday|].
  exact (single_day_has_no_risk_metrics (λ x, x) (λ x, Ok (x ^ 2)) clock0
           10000 "P" day_trades "2026-02-07" Hday).
Defined.

(** *** The figures of [get_performance_metrics] *)

Lemma tally_realized_profit history : ∀ acc total,
  realized_profit acc = total →
  realized_profit (foldl tally_step acc history)
  = foldl
      (λ acc tx,
         match tx_type tx with
         | SELL => acc + get (tx_profit_loss tx) 0
         | BUY => acc
         end)
      total history.
Proof.
  induction history as [|tx history IH]; intros acc total Hacc; [done|].
  simpl. apply IH. unfold tally_step. destruct (tx_type tx); simpl; congruence.
Qed.

Lemma tally_counts history : ∀ acc n,
  (profitable_trades acc ≤ total_closed_trades acc)%nat →
  (total_closed_trades acc ≤ n)%nat →
  (profitable_trades (foldl tally_step acc history)
   ≤ total_closed_trades (foldl tally_step acc history))%nat
  ∧ (total_closed_trades (foldl tally_step acc history)
     ≤ n + length history)%nat.
Proof.
  induction history as [|tx history IH]; intros acc n Hp Hc; simpl.
  - split; [done | lia].
  - destruct (IH (tally_step acc tx) (S n)) as [H1 H2].
    + unfold tally_step. destruct (tx_type tx); simpl; [done|].
      case_decide; lia.
    + unfold tally_step. destruct (tx_type tx); simpl; lia.
    + split; [done | lia].
Qed.

Lemma unrealized_pl_fold (hs : gmap string Holding) prices :
  map_fold
    (λ stock_code holding acc,
       let current_price := get (prices !! stock_code) (avg_price holding) in
       let cost_basis := inject_Z (quantity holding) * avg_price holding in
       let market_value := inject_Z (quantity holding) * current_price in
       acc + (market_value - cost_basis))
    0 hs
  == value_of_holdings hs prices - value_of_holdings hs ∅.
Proof.
  induction hs as [|k h hs Hk IH] using map_ind.
  - rewrite map_fold_empty, !value_of_holdings_empty. lra.
  - rewrite !value_of_holdings_insert by done. rewrite lookup_empty.
    etrans.
    { apply (map_fold_insert Qeq
               (λ stock_code holding acc,
                  acc + (inject_Z (quantity holding)
                         * get (prices !! stock_code) (avg_price holding)
                         - inject_Z (quantity holding) * avg_price holding)));
        [| |done].
      - intros j z a b Hab. by rewrite Hab.
      - intros. ring. }
    cbv beta. rewrite IH. simpl. ring.
Qed.

Lemma unrealized_pl_value self prices :
  unrealized_pl self prices
  == get_holdings_value self prices - get_holdings_value self ∅.
Proof. apply (unrealized_pl_fold (holdings self) prices). Qed.

Lemma round_ge (z : Z) n a x :
  a == inject_Z z / inject_Z (pow10 n) → a <= x → a <= round x n.
Proof.
  intros Ha H. rewrite Ha in *. rewrite <- (round_fixed z n).
  by apply round_mono.
Qed.

Lemma round_le (z : Z) n a x :
  a == inject_Z z / inject_Z (pow10 n) → x <= a → round x n <= a.
Proof.
  intros Ha H. rewrite Ha in *. rewrite <- (round_fixed z n).
  by apply round_mono.
Qed.

Lemma get_performance_metrics_Ok sqrt square self prices m :
  get_performance_metrics sqrt square self prices = Ok m →
  ¬ initial_capital self == 0
  ∧ m_total_gain_loss m
    = round (get_current_value self prices - initial_capital self) 2
  ∧ m_realized_profit m
    = round (realized_profit (tally (transaction_history self))) 2
  ∧ m_unrealized_profit m = round (unrealized_pl self prices) 2
  ∧ m_max_drawdown m = round (_calculate_max_drawdown self) 2
  ∧ m_num_transactions m = length (transaction_history self)
  ∧ m_num_closed_trades m
    = total_closed_trades (tally (transaction_history self))
  ∧ m_win_rate m
    = round
        (if decide (0 < total_closed_trades (tally (transaction_history self)))%nat
         then inject_Z (Z.of_nat (profitable_trades (tally (transaction_history self))))
              / inject_Z (Z.of_nat (total_closed_trades (tally (transaction_history self))))
              * 100
         else 0) 1.
Proof.
  unfold get_performance_metrics. case_decide; [done|]. cbn [bind].
  destruct (_calculate_sharpe_ratio sqrt square self) as [sharpe|]; [|done].
  cbn [bind]. intros [= <-]. done.
Qed.

(** X17: on a portfolio run from a fresh one,
    [get_performance_metrics] raises [ZeroDivisionError] (the division
    by the initial capital) when the portfolio was opened with a
    capital of zero. With any other capital the only exception it can
    raise is the one the Sharpe ratio raises, the [OverflowError] of a
    float square, and it returns whenever there are fewer than three
    daily valuations. *)
Theorem metrics_raise_without_capital sqrt square clk capital nm orders prices :
  let self := run (init clk capital nm) orders in
  (capital == 0 →
   get_performance_metrics sqrt square self prices = Raise "ZeroDivisionError")
  ∧ (¬ capital == 0 →
     (∀ e, get_performance_metrics sqrt square self prices = Raise e
           ↔ _calculate_sharpe_ratio sqrt square self = Raise e)
     ∧ ((length (daily_values self) < 3)%nat →
        ∃ m, get_performance_metrics sqrt square self prices = Ok m)).
Proof.
  intros self. unfold get_performance_metrics.
  assert (Hcap : initial_capital self = capital)
    by (unfold self; by rewrite initial_capital_run).
  rewrite Hcap. split.
  - intros Hzero. by case_decide.
  - intros Hpos. case_decide; [done|]. cbn [bind]. split.
    + intros e.
      destruct (_calculate_sharpe_ratio sqrt square self) as [sharpe|e'];
        cbn [bind]; [split; intros [=] | split; intros [= ->]; done].
    + intros Hlen.
      pose proof (returns_of_length (values_by_date self)) as Hr.
      rewrite values_by_date_length in Hr.
      unfold _calculate_sharpe_ratio.
      case_decide; [cbn [bind]; eauto|].
      case_decide; [cbn [bind]; eauto | lia].
Qed.

Lemma metrics_raise_without_capital_witness :
  0 == 0
  ∧ get_performance_metrics (λ x, x) (λ x, Ok (x ^ 2))
      (run (init clock0 0 "P") day_trades) two_prices
    = Raise "ZeroDivisionError".
Proof.
  assert (Hzero : 0 == 0) by reflexivity.
  split; [exact Hzero|].
  exact (proj1 (metrics_raise_without_capital (λ x, x) (λ x, Ok (x ^ 2))
                  clock0 0 "P" day_trades two_prices) Hzero).
Defined.

(** X18: on a portfolio reached by sells and by buys of at least one
    share, the total gain the metrics report is the realized plus the
    unrealized profit they report, up to the rounding of the three
    figures (0.015). *)
Theorem gain_is_realized_plus_unrealized sqrt square clk capital nm orders
    prices m :
  buys_positive orders →
  get_performance_metrics sqrt square (run (init clk capital nm) orders) prices
  = Ok m →
  Qabs (m_total_gain_loss m - (m_realized_profit m + m_unrealized_profit m))
  <= 0.015.
Proof.
  intros Hq Hm.
  destruct (get_performance_metrics_Ok _ _ _ _ _ Hm)
    as (_ & -> & -> & -> & _).
  set (self := run (init clk capital nm) orders) in *.
  assert (Hrec : profit_reconciles self).
  { apply profit_reconciles_run; [done| |].
    - unfold holdings_positive. simpl. apply map_Forall_empty.
    - unfold profit_reconciles, cost_basis, get_holdings_value,
        total_realized_profit. simpl. rewrite map_fold_empty. lra. }
  unfold profit_reconciles, cost_basis in Hrec.
  assert (Hreal : realized_profit (tally (transaction_history self))
                  = total_realized_profit self).
  { unfold tally, total_realized_profit. by apply tally_realized_profit. }
  rewrite Hreal.
  pose proof (unrealized_pl_value self prices) as Hun.
  pose proof (round_error_cents
                (get_current_value self prices - initial_capital self)) as H1.
  pose proof (round_error_cents (total_realized_profit self)) as H2.
  pose proof (round_error_cents (unrealized_pl self prices)) as H3.
  unfold get_current_value in *.
  apply Qabs_Qle_condition in H1, H2, H3. apply Qabs_Qle_condition.
  split; lra.
Qed.

(** X19: the metrics returned are sound figures: the win rate is
    between 0 and 100, the closed trades are no more than the
    transactions, and the maximum drawdown is not negative. *)
Theorem metrics_are_sane sqrt square self prices m :
  get_performance_metrics sqrt square self prices = Ok m →
  0 <= m_win_rate m ∧ m_win_rate m <= 100
  ∧ (m_num_closed_trades m ≤ m_num_transactions m)%nat
  ∧ 0 <= m_max_drawdown m.
Proof.
  intros Hm.
  destruct (get_performance_metrics_Ok _ _ _ _ _ Hm)
    as (_ & _ & _ & _ & -> & -> & -> & ->).
  destruct (tally_counts (transaction_history self)
              {| profitable_trades := 0; total_closed_trades := 0;
                 realized_profit := 0 |} 0) as [Hp Hc]; [done | done |].
  fold (tally (transaction_history self)) in Hp, Hc.
  set (t := tally (transaction_history self)) in *.
  assert (Hrate :
    0 <= (if decide (0 < total_closed_trades t)%nat
          then inject_Z (Z.of_nat (profitable_trades t))
               / inject_Z (Z.of_nat (total_closed_trades t)) * 100
          else 0)
    ∧ (if decide (0 < total_closed_trades t)%nat
       then inject_Z (Z.of_nat (profitable_trades t))
            / inject_Z (Z.of_nat (total_closed_trades t)) * 100
       else 0) <= 100).
  { case_decide as Hpos; [|split; lra].
    assert (0 < inject_Z (Z.of_nat (total_closed_trades t)))
      by (rewrite <- (Zlt_Qlt 0); lia).
    assert (0 <= inject_Z (Z.of_nat (profitable_trades t)))
      by (rewrite <- (Zle_Qle 0); lia).
    assert (inject_Z (Z.of_nat (profitable_trades t))
            <= inject_Z (Z.of_nat (total_closed_trades t)))
      by (rewrite <- Zle_Qle; lia).
    assert (0 <= inject_Z (Z.of_nat (profitable_trades t))
                 / inject_Z (Z.of_nat (total_closed_trades t)))
      by (apply Qle_shift_div_l; lra).
    assert (inject_Z (Z.of_nat (profitable_trades t))
            / inject_Z (Z.of_nat (total_closed_trades t)) <= 1)
      by (apply Qle_shift_div_r; lra).
    split; lra. }
  destruct Hrate as [Hlo Hhi].
  split; [by apply (round_ge 0 1); [reflexivity|]|].
  split; [by apply (round_le 1000 1); [reflexivity|]|].
  split; [lia|].
  apply (round_ge 0 2); [reflexivity|]. apply max_drawdown_nonnegative.
Qed.

Lemma gain_is_realized_plus_unrealized_witness :
  buys_positive day_trades
  ∧ match get_performance_metrics (λ x, x) (λ x, Ok (x ^ 2))
            (run (init clock0 10000 "P") day_trades) two_prices with
    | Ok m =>
        Qabs (m_total_gain_loss m
              - (m_realized_profit m + m_unrealized_profit m)) <= 0.015
    | Raise _ => False
    end.
Proof.
  assert (Hq : buys_positive day_trades) by (repeat constructor).
  split; [exact Hq|].
  destruct (get_performance_metrics (λ x, x) (λ x, Ok (x ^ 2))
              (run (init clock0 10000 "P") day_trades) two_prices)
    as [m|e] eqn:Hm.
  - exact (gain_is_realized_plus_unrealized (λ x, x) (λ x, Ok (x ^ 2)) clock0
             10000 "P" day_trades two_prices m Hq Hm).
  - vm_compute in Hm. discriminate Hm.
Defined.

Lemma metrics_are_sane_witness :
  match get_performance_metrics (λ x, x) (λ x, Ok (x ^ 2))
          (run (init clock0 10000 "P") day_trades) two_prices with
  | Ok m =>
      0 <= m_win_rate m ∧ m_win_rate m <= 100
      ∧ (m_num_closed_trades m ≤ m_num_transactions m)%nat
      ∧ 0 <= m_max_drawdown m
  | Raise _ => False
  end.
Proof.
  destruct (get_performance_metrics (λ x, x) (λ x, Ok (x ^ 2))
              (run (init clock0 10000 "P") day_trades) two_prices)
    as [m|e] eqn:Hm.
  - exact (metrics_are_sane (λ x, x) (λ x, Ok (x ^ 2))
             (run (init clock0 10000 "P") day_trades) two_prices m Hm).
  - vm_compute in Hm. discriminate Hm.
Defined.

End MetricsFacts.

(** ** More about the decision engine *)

Module DecisionFacts.
Import Engine Samples RoundingFacts EngineFacts.

(** *** What each stage can add to the score *)

Lemma forecast_stage_bounds ad code st :
  score st - 4 <= score (forecast_stage ad code st)
  ∧ score (forecast_stage ad code st) <= score st + 4.
Proof.
  unfold forecast_stage. destruct (get_forecast ad code) as [f|e]; simpl.
  - set (t := get (fc_trend f) 0).
    repeat case_decide; simpl.
    + destruct (Q.min_spec (t * 100) 4) as [[? ->] | [? ->]]; split; lra.
    + destruct (Q.max_spec (t * 100) (-4)) as [[? ->] | [? ->]]; split; lra.
    + split; lra.
  - split; lra.
Qed.

Lemma sentiment_stage_bounds ad code st :
  sentiment_in_range ad code →
  score st - 3 <= score (sentiment_stage ad code st)
  ∧ score (sentiment_stage ad code st) <= score st + 3.
Proof.
  intros Hrange. unfold sentiment_stage.
  destruct (get_sentiment ad code) as [s|e] eqn:Hs; simpl; [|split; lra].
  destruct (Hrange s Hs) as [Hlo Hhi].
  repeat case_decide; simpl; split; lra.
Qed.

Lemma anomaly_stage_bounds ad code st :
  score st - 3 <= score (anomaly_stage ad code st)
  ∧ score (anomaly_stage ad code st) <= score st + 1.
Proof.
  unfold anomaly_stage. destruct (get_anomalies ad code) as [a|e]; simpl;
    [|split; lra].
  destruct (get (an_volume_spike a) false), (get (an_price_spike a) false),
    (get (an_any_anomaly a) false); simpl; split; lra.
Qed.

Lemma technical_stage_bounds ad code st :
  score st - 2 <= score (technical_stage ad code st)
  ∧ score (technical_stage ad code st) <= score st + 2.
Proof.
  unfold technical_stage.
  destruct (get_technical ad code) as [[[r|] [m|]]|e]; simpl;
    repeat case_decide; try destruct (macd_trend m); simpl; split; lra.
Qed.

Lemma memory_stage_score ad code st :
  score (memory_stage ad code st) = score st.
Proof.
  unfold memory_stage. destruct (memory_available ad) as [[|]|]; try done.
  by destruct (collect_memory ad code) as [[[? ?] ?]|].
Qed.

(** X20: when the sentiment source gives scores between -1 and 1, the
    raw score lies between -12 and 10: the forecast adds at most 4
    either way, the sentiment 3, the technical indicators 2, and the
    anomalies between -3 and +1. The lower bound is reached, by sources
    that are all bearish. *)
Theorem raw_score_bounds ad code :
  sentiment_in_range ad code →
  (-12 <= score (_calculate_decision_score ad code)
   ∧ score (_calculate_decision_score ad code) <= 10)
  ∧ (sentiment_in_range all_bearish code
     ∧ score (_calculate_decision_score all_bearish code) == -12).
Proof.
  intros Hrange. split.
  - unfold _calculate_decision_score. rewrite memory_stage_score.
    set (st0 := {| score := 0; signals := no_signals; explanations := [] |}).
    pose proof (forecast_stage_bounds ad code st0) as H1.
    pose proof (sentiment_stage_bounds ad code (forecast_stage ad code st0)
                  Hrange) as H2.
    pose proof (anomaly_stage_bounds ad code
                  (sentiment_stage ad code (forecast_stage ad code st0))) as H3.
    pose proof (technical_stage_bounds ad code
                  (anomaly_stage ad code
                     (sentiment_stage ad code (forecast_stage ad code st0))))
      as H4.
    change (score st0) with 0 in H1. split; lra.
  - split.
    + intros s [= <-]. simpl. split; lra.
    + vm_compute. reflexivity.
Qed.

Lemma raw_score_bounds_witness :
  sentiment_in_range full_signals "TN0001800457"
  ∧ -12 <= score (_calculate_decision_score full_signals "TN0001800457")
  ∧ score (_calculate_decision_score full_signals "TN0001800457") <= 10.
Proof.
  assert (Hrange : sentiment_in_range full_signals "TN0001800457").
  { intros s [= <-]. simpl. split; lra. }
  split; [exact Hrange|].
  exact (proj1 (raw_score_bounds full_signals "TN0001800457" Hrange)).
Defined.

(** *** The signals of the final state *)

Lemma memory_stage_signals ad code st :
  sig_forecast (signals (memory_stage ad code st)) = sig_forecast (signals st)
  ∧ sig_sentiment (signals (memory_stage ad code st)) = sig_sentiment (signals st)
  ∧ sig_anomaly (signals (memory_stage ad code st)) = sig_anomaly (signals st)
  ∧ sig_technical (signals (memory_stage ad code st)) = sig_technical (signals st).
Proof.
  unfold memory_stage. destruct (memory_available ad) as [[|]|]; try done.
  by destruct (collect_memory ad code) as [[[? ?] ?]|].
Qed.

Lemma technical_stage_signals ad code st :
  sig_forecast (signals (technical_stage ad code st)) = sig_forecast (signals st)
  ∧ sig_sentiment (signals (technical_stage ad code st))
    = sig_sentiment (signals st)
  ∧ sig_anomaly (signals (technical_stage ad code st)) = sig_anomaly (signals st).
Proof.
  unfold technical_stage.
  destruct (get_technical ad code) as [[[r|] [m|]]|e]; simpl;
    repeat case_decide; try destruct (macd_trend m); done.
Qed.

Lemma final_anomaly_signal ad code :
  sig_anomaly (signals (_calculate_decision_score ad code))
  = Some match get_anomalies ad code with
         | Ok a =>
             AnomalyOf (get (an_any_anomaly a) false)
               (get (an_volume_spike a) false) (get (an_price_spike a) false)
               (get (an_anomaly_score a) 0) (get (an_details a) EmptyString)
               (w_anomaly WEIGHTS)
         | Raise e => AnomalyError e
         end.
Proof.
  unfold _calculate_decision_score.
  rewrite (proj1 (proj2 (proj2 (memory_stage_signals _ _ _)))).
  rewrite (proj2 (proj2 (technical_stage_signals _ _ _))).
  unfold anomaly_stage. destruct (get_anomalies ad code) as [a|e]; [|done].
  by destruct (get (an_volume_spike a) false), (get (an_price_spike a) false),
    (get (an_any_anomaly a) false).
Qed.

Lemma earlier_stages_technical ad code :
  sig_technical
    (signals
       (anomaly_stage ad code
          (sentiment_stage ad code
             (forecast_stage ad code
                {| score := 0; signals := no_signals; explanations := [] |}))))
  = None.
Proof.
  unfold anomaly_stage, sentiment_stage, forecast_stage.
  destruct (get_anomalies ad code) as [a|]; [|
    destruct (get_sentiment ad code) as [s|];
    destruct (get_forecast ad code) as [f|]; simpl;
    repeat case_decide; done].
  destruct (get (an_volume_spike a) false), (get (an_price_spike a) false),
    (get (an_any_anomaly a) false); simpl;
    destruct (get_sentiment ad code) as [s|];
    destruct (get_forecast ad code) as [f|]; simpl; repeat case_decide; done.
Qed.

Lemma final_technical_signal ad code :
  match get_technical ad code with
  | Ok (None, None) =>
      sig_technical (signals (_calculate_decision_score ad code)) = None
  | Ok (rsi, macd) =>
      ∃ s w,
        sig_technical (signals (_calculate_decision_score ad code))
        = Some (TechnicalOf rsi macd s w)
  | Raise e =>
      sig_technical (signals (_calculate_decision_score ad code))
      = Some (TechnicalError e)
  end.
Proof.
  unfold _calculate_decision_score.
  rewrite (proj2 (proj2 (proj2 (memory_stage_signals _ _ _)))).
  pose proof (earlier_stages_technical ad code) as Hnone.
  unfold technical_stage.
  destruct (get_technical ad code) as [[[r|] [m|]]|e]; simpl;
    repeat case_decide; try destruct (macd_trend m); simpl; eauto.
Qed.

Lemma final_forecast_confidence ad code :
  sources_unavailable ad code →
  ∃ e, sig_forecast (signals (_calculate_decision_score ad code))
       = Some (ForecastError e).
Proof.
  intros ([e He] & _). exists e.
  rewrite forecast_signal_final. unfold forecast_stage. by rewrite He.
Qed.

Lemma final_sentiment_signal ad code :
  sig_sentiment (signals (_calculate_decision_score ad code))
  = Some match get_sentiment ad code with
         | Ok s =>
             SentimentOf (get (st_score s) 0) (get (st_num_articles s) 0%Z)
               (get (st_sample_headlines s) []) (w_sentiment WEIGHTS)
         | Raise e => SentimentError e
         end.
Proof.
  unfold _calculate_decision_score.
  rewrite (proj1 (proj2 (memory_stage_signals _ _ _))).
  rewrite (proj1 (proj2 (technical_stage_signals _ _ _))).
  unfold anomaly_stage, sentiment_stage.
  destruct (get_sentiment ad code) as [s|]; destruct (get_anomalies ad code) as [a|];
    simpl; repeat case_decide; simpl; try done.
  all: by destruct (get (an_volume_spike a) false),
    (get (an_price_spike a) false), (get (an_any_anomaly a) false).
Qed.

(** *** The result of [make_recommendation] *)

Lemma french_explanation_outcome data :
  match sig_technical (d_signals data) with
  | Some (TechnicalOf None _ _ _) =>
      _generate_french_explanation data = Raise explanation_error
  | _ => ∃ text, _generate_french_explanation data = Ok text
  end.
Proof.
  unfold _generate_french_explanation.
  destruct (d_recommendation data); simpl;
    destruct (sig_technical (d_signals data)) as [[[r|] ? ? ?|?]|]; simpl;
    eauto.
Qed.

Lemma make_recommendation_Ok ad clk code profile d :
  make_recommendation ad clk code profile = Ok d →
  let st := _calculate_decision_score ad code in
  let adjusted := score st * get (PROFILE_MULTIPLIERS !! profile) 1 in
  ∃ nm price,
    get_stock_name ad code = Ok nm
    ∧ get_current_price ad code = Ok price
    ∧ d_stock_code d = code
    ∧ d_stock_name d = nm
    ∧ d_recommendation d = fst (_score_to_recommendation adjusted profile)
    ∧ d_confidence d = snd (_score_to_recommendation adjusted profile)
    ∧ d_risk_level d = _assess_risk (signals st) (score st)
    ∧ d_signals d = signals st
    ∧ d_score d = round adjusted 2
    ∧ d_raw_score d = round (score st) 2
    ∧ d_suggested_action d
      = _generate_suggested_action (d_recommendation d) nm price
          (d_confidence d) profile.
Proof.
  intros H st adjusted. revert H. unfold make_recommendation.
  destruct (get_stock_name ad code) as [nm|]; [|done].
  destruct (get_current_price ad code) as [price|]; [|done]. cbn [bind].
  fold st. fold adjusted.
  destruct (_score_to_recommendation adjusted profile) as [rec conf].
  destruct (generate_explanation _) as [text|]; [|done]. cbn [bind].
  intros [= <-]. by exists nm, price.
Qed.

Lemma make_recommendation_outcome ad clk code profile :
  match get_stock_name ad code with
  | Raise e => make_recommendation ad clk code profile = Raise e
  | Ok _ =>
      match get_current_price ad code with
      | Raise e => make_recommendation ad clk code profile = Raise e
      | Ok _ =>
          match get_technical ad code with
          | Ok (None, Some _) =>
              make_recommendation ad clk code profile = Raise explanation_error
          | _ => ∃ d, make_recommendation ad clk code profile = Ok d
          end
      end
  end.
Proof.
  unfold make_recommendation.
  destruct (get_stock_name ad code) as [nm|e1]; cbn [bind]; [|done].
  destruct (get_current_price ad code) as [price|e2]; cbn [bind]; [|done].
  destruct (_score_to_recommendation _ profile) as [rec conf].
  match goal with
  | |- context [generate_explanation ?r] =>
      pose proof (french_explanation_outcome r) as Hexp; cbn [d_signals] in Hexp
  end.
  pose proof (final_technical_signal ad code) as Htech.
  unfold generate_explanation.
  destruct (get_technical ad code) as [[[r|] [m|]]|e3].
  - destruct Htech as (s & w & Htech). rewrite Htech in Hexp.
    destruct Hexp as [text ->]. cbn [bind]. eauto.
  - destruct Htech as (s & w & Htech). rewrite Htech in Hexp.
    destruct Hexp as [text ->]. cbn [bind]. eauto.
  - destruct Htech as (s & w & Htech). rewrite Htech in Hexp.
    by rewrite Hexp.
  - rewrite Htech in Hexp. destruct Hexp as [text ->]. cbn [bind]. eauto.
  - rewrite Htech in Hexp. destruct Hexp as [text ->]. cbn [bind]. eauto.
Qed.

(** X23: the recommendation never moves against the score: for a
    given profile a higher score gives the same recommendation or one
    further towards BUY (SELL, then HOLD, then BUY). *)
Theorem recommendation_monotone score score' user_profile :
  score <= score' →
  (recommendation_rank (fst (_score_to_recommendation score user_profile))
   ≤ recommendation_rank (fst (_score_to_recommendation score' user_profile)))%Z.
Proof.
  intros Hle. by_profile user_profile; repeat case_decide; simpl; try lia; lra.
Qed.

Lemma recommendation_monotone_witness :
  1 <= 3.5
  ∧ (recommendation_rank (fst (_score_to_recommendation 1 "moderate"))
     ≤ recommendation_rank (fst (_score_to_recommendation 3.5 "moderate")))%Z.
Proof.
  assert (Hle : 1 <= 3.5) by lra.
  split; [exact Hle|].
  exact (recommendation_monotone 1 3.5 "moderate" Hle).
Defined.

Lemma assess_risk_detected signals score v p a details w :
  sig_anomaly signals = Some (AnomalyOf true v p a details w) →
  _assess_risk signals score ≠ LOW.
Proof.
  intros Ha. unfold _assess_risk. rewrite Ha.
  destruct (match sig_technical signals with
            | Some (TechnicalOf rsi _ _ _) => rsi
            | _ => Some 50
            end) as [r|];
    repeat case_decide; try done; lia.
Qed.

(** X24: when the anomaly source reports an anomaly, the decision is
    never rated low risk: its risk level is MEDIUM or HIGH. *)
Theorem anomaly_raises_risk ad clk code user_profile a d :
  get_anomalies ad code = Ok a →
  an_any_anomaly a = Some true →
  make_recommendation ad clk code user_profile = Ok d →
  d_risk_level d = MEDIUM ∨ d_risk_level d = HIGH.
Proof.
  intros Ha Hany Hd.
  destruct (make_recommendation_Ok _ _ _ _ _ Hd)
    as (nm & price & _ & _ & _ & _ & _ & _ & Hrisk & _).
  pose proof (final_anomaly_signal ad code) as Hsig.
  rewrite Ha, Hany in Hsig. simpl in Hsig.
  pose proof (assess_risk_detected _ (score (_calculate_decision_score ad code))
                _ _ _ _ _ Hsig) as Hne.
  rewrite <- Hrisk in Hne. destruct (d_risk_level d); auto. done.
Qed.

Lemma anomaly_raises_risk_witness :
  (get_anomalies full_signals "TN0001800457" = Ok volume_spike_report
   ∧ an_any_anomaly volume_spike_report = Some true)
  ∧ match make_recommendation full_signals clock0 "TN0001800457" "moderate" with
    | Ok d => d_risk_level d = MEDIUM ∨ d_risk_level d = HIGH
    | Raise _ => False
    end.
Proof.
  assert (Ha : get_anomalies full_signals "TN0001800457" = Ok volume_spike_report)
    by reflexivity.
  assert (Hany : an_any_anomaly volume_spike_report = Some true) by reflexivity.
  split; [exact (conj Ha Hany)|].
  destruct (make_recommendation full_signals clock0 "TN0001800457" "moderate")
    as [d|e] eqn:Hd.
  - exact (anomaly_raises_risk full_signals clock0 "TN0001800457" "moderate"
             volume_spike_report d Ha Hany Hd).
  - vm_compute in Hd. discriminate Hd.
Defined.

Lemma unavailable_score ad code :
  sources_unavailable ad code →
  -2 <= score (_calculate_decision_score ad code)
  ∧ score (_calculate_decision_score ad code) <= 2.
Proof.
  intros ([e1 H1] & [e2 H2] & [e3 H3]). unfold _calculate_decision_score.
  rewrite memory_stage_score.
  match goal with
  | |- context [technical_stage ad code ?st] =>
      pose proof (technical_stage_bounds ad code st) as Ht;
      assert (Hs : score st = 0)
  end.
  { unfold anomaly_stage, sentiment_stage, forecast_stage.
    by rewrite H1, H2, H3. }
  rewrite Hs in Ht. split; lra.
Qed.

(** X25: when the forecast, sentiment and anomaly sources all raise
    (as they do with [USE_MOCKS = False], which leaves the three names
    unbound), only the technical indicators score, and every decision
    for a profile other than aggressive is HOLD at LOW risk. *)
Theorem unavailable_sources_hold ad clk code user_profile d :
  sources_unavailable ad code →
  user_profile ≠ "aggressive" →
  make_recommendation ad clk code user_profile = Ok d →
  d_recommendation d = HOLD ∧ d_risk_level d = LOW.
Proof.
  intros Hun Hprofile Hd.
  destruct (make_recommendation_Ok _ _ _ _ _ Hd)
    as (nm & price & _ & _ & _ & _ & Hrec & _ & Hrisk & _).
  pose proof (unavailable_score ad code Hun) as [Hlo Hhi].
  set (raw := score (_calculate_decision_score ad code)) in *.
  split.
  - rewrite Hrec. unfold _score_to_recommendation, raw_confidence.
    destruct (profile_thresholds_cases user_profile)
      as [[-> ->] | [[? ->] | (Hc & Ha & ->)]]; [| done |].
    + change (get (PROFILE_MULTIPLIERS !! "conservative") 1) with 0.5.
      simpl. repeat case_decide; try done; lra.
    + rewrite profile_multiplier_default by done.
      simpl. repeat case_decide; try done; lra.
  - rewrite Hrisk. unfold _assess_risk.
    pose proof (final_anomaly_signal ad code) as Han.
    pose proof (final_sentiment_signal ad code) as Hse.
    destruct (final_forecast_confidence ad code Hun) as [e1 Hfo].
    destruct Hun as (_ & [e2 H2] & [e3 H3]).
    rewrite H3 in Han. rewrite H2 in Hse. rewrite Han, Hse, Hfo.
    assert (Habs : Qabs raw <= 2) by (apply Qabs_Qle_condition; split; lra).
    fold raw.
    assert (H08 : ¬ 0.8 < Qabs 0) by (intros H; vm_compute in H; discriminate H).
    destruct (match sig_technical (signals (_calculate_decision_score ad code)) with
              | Some (TechnicalOf rsi _ _ _) => rsi
              | _ => Some 50
              end) as [r|];
      repeat case_decide; try done; try lia; lra.
Qed.

Lemma unavailable_sources_hold_witness :
  (sources_unavailable technical_only "TN0001800457"
   ∧ "moderate" ≠ "aggressive")
  ∧ match make_recommendation technical_only clock0 "TN0001800457" "moderate" with
    | Ok d => d_recommendation d = HOLD ∧ d_risk_level d = LOW
    | Raise _ => False
    end.
Proof.
  assert (Hun : sources_unavailable technical_only "TN0001800457").
  { split; [|split]; eexists; reflexivity. }
  assert (Hp : "moderate" ≠ "aggressive") by discriminate.
  split; [exact (conj Hun Hp)|].
  destruct (make_recommendation technical_only clock0 "TN0001800457" "moderate")
    as [d|e] eqn:Hd.
  - exact (unavailable_sources_hold technical_only clock0 "TN0001800457"
             "moderate" d Hun Hp Hd).
  - vm_compute in Hd. discriminate Hd.
Defined.

(** X26: read on the raw score, the profiles decide at these levels:
    conservative buys from 8 and sells from -8 (the score is halved and
    the threshold is 4), aggressive from 5/3 (the score is scaled by
    1.2 and the threshold is 2), and every other profile from 3. *)
Theorem effective_buy_thresholds ad clk code user_profile d :
  make_recommendation ad clk code user_profile = Ok d →
  let raw := score (_calculate_decision_score ad code) in
  (user_profile = "conservative" →
   (d_recommendation d = BUY ↔ 8 <= raw)
   ∧ (d_recommendation d = SELL ↔ raw <= -8))
  ∧ (user_profile = "aggressive" →
     (d_recommendation d = BUY ↔ (5 # 3) <= raw)
     ∧ (d_recommendation d = SELL ↔ raw <= - (5 # 3)))
  ∧ (user_profile ≠ "conservative" → user_profile ≠ "aggressive" →
     (d_recommendation d = BUY ↔ 3 <= raw)
     ∧ (d_recommendation d = SELL ↔ raw <= -3)).
Proof.
  intros Hd raw.
  destruct (make_recommendation_Ok _ _ _ _ _ Hd)
    as (nm & price & _ & _ & _ & _ & Hrec & _).
  fold raw in Hrec. rewrite Hrec. clear Hrec Hd.
  unfold _score_to_recommendation, raw_confidence.
  split; [|split].
  - intros ->. change (get (PROFILE_MULTIPLIERS !! "conservative") 1) with 0.5.
    simpl. repeat case_decide; simpl; split; split; try done; intros; first [lra | exfalso; lra].
  - intros ->. change (get (PROFILE_MULTIPLIERS !! "aggressive") 1) with 1.2.
    simpl. repeat case_decide; simpl; split; split; try done; intros; first [lra | exfalso; lra].
  - intros Hc Ha. rewrite profile_multiplier_default by done.
    rewrite (profile_thresholds_moderate _ Hc Ha).
    simpl. repeat case_decide; simpl; split; split; try done; intros; first [lra | exfalso; lra].
Qed.

(** X22: [make_recommendation] raises in three cases and no other:
    the name lookup raises, the price lookup raises (the same exception
    is passed on), or the price history gives a MACD without an RSI, on
    which the explanation fails with a [TypeError]. A failing forecast,
    sentiment, anomaly or memory source never makes it raise. *)
Theorem make_recommendation_raises ad clk code user_profile e :
  make_recommendation ad clk code user_profile = Raise e
  ↔ get_stock_name ad code = Raise e
    ∨ (∃ nm, get_stock_name ad code = Ok nm
             ∧ get_current_price ad code = Raise e)
    ∨ (∃ nm price m,
         get_stock_name ad code = Ok nm
         ∧ get_current_price ad code = Ok price
         ∧ get_technical ad code = Ok (None, Some m)
         ∧ e = explanation_error).
Proof.
  pose proof (make_recommendation_outcome ad clk code user_profile) as Hout.
  destruct (get_stock_name ad code) as [nm|e1].
  2:{ rewrite Hout. split.
      - intros [= ->]. by left.
      - intros [[= ->] | [(? & [=] & _) | (? & ? & ? & [=] & _)]]. done. }
  destruct (get_current_price ad code) as [price|e2].
  2:{ rewrite Hout. split.
      - intros [= ->]. right. left. eauto.
      - intros [[=] | [(? & _ & [= ->]) | (? & ? & ? & _ & [=] & _)]]. done. }
  destruct (get_technical ad code) as [[[r|] [m|]]|e3].
  3:{ rewrite Hout. split.
      - intros [= <-]. right. right. by exists nm, price, m.
      - intros [[=] | [(? & _ & [=]) | (? & ? & ? & _ & _ & _ & ->)]]. done. }
  all: destruct Hout as [d ->]; split; [done|].
  all: intros [[=] | [(? & _ & [=]) | (? & ? & ? & _ & _ & [=] & _)]].
Qed.

Lemma effective_buy_thresholds_witness :
  ("moderate" ≠ "conservative" ∧ "moderate" ≠ "aggressive")
  ∧ match make_recommendation full_signals clock0 "TN0001800457" "moderate" with
    | Ok d =>
        (d_recommendation d = BUY
         ↔ 3 <= score (_calculate_decision_score full_signals "TN0001800457"))
        ∧ (d_recommendation d = SELL
           ↔ score (_calculate_decision_score full_signals "TN0001800457")
             <= -3)
    | Raise _ => False
    end.
Proof.
  assert (Hc : "moderate" ≠ "conservative") by discriminate.
  assert (Ha : "moderate" ≠ "aggressive") by discriminate.
  split; [exact (conj Hc Ha)|].
  destruct (make_recommendation full_signals clock0 "TN0001800457" "moderate")
    as [d|e] eqn:Hd.
  - exact (proj2 (proj2 (effective_buy_thresholds full_signals clock0
                           "TN0001800457" "moderate" d Hd)) Hc Ha).
  - vm_compute in Hd. discriminate Hd.
Defined.

Lemma assess_risk_ext s s' score :
  sig_forecast s' = sig_forecast s →
  sig_sentiment s' = sig_sentiment s →
  sig_anomaly s' = sig_anomaly s →
  sig_technical s' = sig_technical s →
  _assess_risk s' score = _assess_risk s score.
Proof. intros Hf Hs Ha Ht. unfold _assess_risk. by rewrite Hf, Hs, Ha, Ht. Qed.

Lemma with_memory_scoring ad available search code :
  let st := _calculate_decision_score ad code in
  let st' := _calculate_decision_score (with_memory ad available search) code in
  score st' = score st
  ∧ sig_forecast (signals st') = sig_forecast (signals st)
  ∧ sig_sentiment (signals st') = sig_sentiment (signals st)
  ∧ sig_anomaly (signals st') = sig_anomaly (signals st)
  ∧ sig_technical (signals st') = sig_technical (signals st).
Proof.
  intros st st'. unfold st, st', _calculate_decision_score.
  match goal with
  | |- context [memory_stage ad code ?x] => set (before := x)
  end.
  change (technical_stage (with_memory ad available search) code _) with before.
  rewrite !memory_stage_score.
  destruct (memory_stage_signals ad code before) as (-> & -> & -> & ->).
  destruct (memory_stage_signals (with_memory ad available search) code before)
    as (-> & -> & -> & ->).
  done.
Qed.

(** X21: the market memory is evidence only. Whatever the memory
    store answers, [make_recommendation] raises the same exception or
    returns a decision with the same recommendation, confidence,
    scores, risk level and suggested action. *)
Theorem memory_is_evidence_only ad available search clk code user_profile :
  match make_recommendation ad clk code user_profile,
        make_recommendation (with_memory ad available search) clk code
          user_profile with
  | Ok d, Ok d' => verdict d = verdict d'
  | Raise e, Raise e' => e = e'
  | _, _ => False
  end.
Proof.
  set (ad' := with_memory ad available search).
  assert (Hfail : ∀ e,
    make_recommendation ad clk code user_profile = Raise e
    ↔ make_recommendation ad' clk code user_profile = Raise e).
  { intros e.
    pose proof (make_recommendation_outcome ad clk code user_profile) as H.
    pose proof (make_recommendation_outcome ad' clk code user_profile) as H'.
    change (get_stock_name ad' code) with (get_stock_name ad code) in H'.
    change (get_current_price ad' code) with (get_current_price ad code) in H'.
    change (get_technical ad' code) with (get_technical ad code) in H'.
    destruct (get_stock_name ad code) as [nm|e1]; [|by rewrite H, H'].
    destruct (get_current_price ad code) as [price|e2]; [|by rewrite H, H'].
    destruct (get_technical ad code) as [[[r|] [m|]]|e3];
      try (by rewrite H, H');
      destruct H as [d ->], H' as [d' ->]; done. }
  destruct (make_recommendation ad clk code user_profile) as [d|e] eqn:H1;
    destruct (make_recommendation ad' clk code user_profile) as [d'|e'] eqn:H2.
  - destruct (make_recommendation_Ok _ _ _ _ _ H1)
      as (nm & price & Hn & Hp & _ & _ & Hr & Hc & Hk & _ & Hs & Hw & Ha).
    destruct (make_recommendation_Ok _ _ _ _ _ H2)
      as (nm' & price' & Hn' & Hp' & _ & _ & Hr' & Hc' & Hk' & _ & Hs' & Hw' & Ha').
    change (get_stock_name ad' code) with (get_stock_name ad code) in Hn'.
    change (get_current_price ad' code) with (get_current_price ad code) in Hp'.
    rewrite Hn in Hn'. rewrite Hp in Hp'.
    injection Hn' as <-. injection Hp' as <-.
    destruct (with_memory_scoring ad available search code)
      as (Hscore & Hf & Hse & Han & Hte).
    fold ad' in Hscore, Hf, Hse, Han, Hte.
    rewrite Hscore in *.
    rewrite (assess_risk_ext _ _ _ Hf Hse Han Hte) in Hk'.
    unfold verdict. by rewrite Hr, Hr', Hc, Hc', Hk, Hk', Hs, Hs', Hw, Hw', Ha, Ha',
      Hr, Hr', Hc, Hc'.
  - discriminate (proj2 (Hfail e') eq_refl).
  - discriminate (proj1 (Hfail e) eq_refl).
  - by injection (proj1 (Hfail e) eq_refl).
Qed.

End DecisionFacts.

(** ** Batch analysis *)

Module BatchFacts.
Import Engine Samples RoundingFacts EngineFacts SequenceFacts DecisionFacts.

Lemma Sorted_weaken {A} (R R' : A → A → Prop) l :
  (∀ a b, R a b → R' a b) → Sorted R l → Sorted R' l.
Proof.
  intros Himpl. induction 1 as [|x l Hl IH Hhd]; constructor; [done|].
  destruct Hhd; constructor. by apply Himpl.
Qed.

Lemma omap_length_le {A B} (f : A → option B) l :
  (length (omap f l) ≤ length l)%nat.
Proof.
  induction l as [|x l IH]; [done|].
  change (omap f (x :: l))
    with (match f x with Some y => y :: omap f l | None => omap f l end).
  destruct (f x); simpl; lia.
Qed.

Lemma imap_fixed {A} (l : list A) : ∀ f : nat → A → A,
  (∀ i x, f i x = x) → imap f l = l.
Proof.
  induction l as [|x l IH]; intros f Hf; [done|].
  simpl. rewrite Hf. f_equal. apply IH. intros i y. apply Hf.
Qed.

Lemma elem_of_recommend_all ad now stock_codes user_profile d :
  d ∈ recommend_all ad now stock_codes user_profile
  ↔ ∃ i code,
      stock_codes !! i = Some code
      ∧ make_recommendation ad (now i) code user_profile = Ok d.
Proof.
  unfold recommend_all, recommend_each. rewrite list_elem_of_omap. split.
  - intros ([code r] & (i & c & [= -> ->] & Hc)%elem_of_lookup_imap & Hr).
    simpl in Hr. exists i, c. split; [done|].
    destruct (make_recommendation _ _ _ _); by inversion Hr.
  - intros (i & code & Hc & Hd).
    exists (code, make_recommendation ad (now i) code user_profile).
    split; [|simpl; by rewrite Hd].
    apply (elem_of_lookup_imap_2
             (λ i code, (code, make_recommendation ad (now i) code user_profile))).
    done.
Qed.

Lemma recommend_all_length ad now stock_codes user_profile :
  (length (recommend_all ad now stock_codes user_profile)
   ≤ length stock_codes)%nat.
Proof.
  unfold recommend_all. etrans; [apply omap_length_le|].
  unfold recommend_each. by rewrite length_imap.
Qed.

Lemma decision_confidence_floor ad clk code user_profile d :
  make_recommendation ad clk code user_profile = Ok d → 0.5 <= d_confidence d.
Proof.
  intros Hd.
  destruct (make_recommendation_Ok _ _ _ _ _ Hd)
    as (nm & price & _ & _ & _ & _ & _ & -> & _).
  unfold _score_to_recommendation.
  match goal with
  | |- context [raw_confidence ?s ?p] =>
      pose proof (raw_confidence_bounds s p) as (Hlo & _);
      destruct (raw_confidence s p) as [rec conf]
  end.
  simpl in *. by apply (round_cents_ge 50); [reflexivity|].
Qed.

(** X27: [analyze_portfolio_stocks] returns one entry per code asked
    for, in the same order and each under its code; the entry of a call
    that raised is a HOLD with confidence 0, while a decision never has
    a confidence below 0.5. *)
Theorem analyze_portfolio_stocks_entries ad now stock_codes user_profile :
  let results := analyze_portfolio_stocks ad now stock_codes user_profile in
  analysis_stock_code <$> results = stock_codes
  ∧ Forall
      (λ a, match a with
            | Analysed _ => 0.5 <= analysis_confidence a
            | AnalysisFailed _ _ =>
                analysis_recommendation a = HOLD ∧ analysis_confidence a = 0
            end)
      results.
Proof.
  intros results. unfold results, analyze_portfolio_stocks, recommend_each.
  clear results. split.
  - rewrite <- list_fmap_compose, fmap_imap.
    apply imap_fixed. intros i code. simpl.
    destruct (make_recommendation ad (now i) code user_profile) as [d|e] eqn:Hd;
      simpl; [|done].
    by destruct (make_recommendation_Ok _ _ _ _ _ Hd)
      as (nm & price & _ & _ & -> & _).
  - apply Forall_forall. intros a [[code r] [-> Hin]]%list_elem_of_fmap.
    apply elem_of_lookup_imap in Hin as (i & c & [= -> ->] & Hc). simpl.
    destruct (make_recommendation ad (now i) c user_profile) as [d|e] eqn:Hd;
      simpl; [|done].
    by eapply decision_confidence_floor.
Qed.

(** X28: every decision [get_top_recommendations] returns is the
    result of a call of [make_recommendation] on one of the codes that
    did not raise, and is a BUY (a SELL) when that type is asked for;
    the list is ordered by the absolute value of the score, strongest
    first, and has at most [n] entries when [n] is not negative. *)
Theorem get_top_recommendations_spec ad now stock_codes n user_profile
    recommendation_type :
  let top :=
    get_top_recommendations ad now stock_codes n user_profile
      recommendation_type in
  (∀ d, d ∈ top →
     (∃ i code,
        stock_codes !! i = Some code
        ∧ make_recommendation ad (now i) code user_profile = Ok d)
     ∧ (recommendation_type = "buy" → d_recommendation d = BUY)
     ∧ (recommendation_type = "sell" → d_recommendation d = SELL))
  ∧ StronglySorted (λ a b, Qabs (d_score b) <= Qabs (d_score a)) top
  ∧ ((0 ≤ n)%Z → (length top ≤ Z.to_nat n)%nat).
Proof.
  intros top. unfold top, get_top_recommendations. clear top.
  set (all := recommend_all ad now stock_codes user_profile).
  set (picked :=
         if decide (recommendation_type = "buy")
         then filter (λ r, d_recommendation r = BUY) all
         else if decide (recommendation_type = "sell")
              then filter (λ r, d_recommendation r = SELL) all
              else all).
  set (before := λ a b : Decision,
                   bool_decide (Qabs (d_score b) < Qabs (d_score a))).
  assert (Hpicked : ∀ d, d ∈ picked →
    d ∈ all
    ∧ (recommendation_type = "buy" → d_recommendation d = BUY)
    ∧ (recommendation_type = "sell" → d_recommendation d = SELL)).
  { intros d. unfold picked. repeat case_decide; subst.
    - intros [Hr Hin]%list_elem_of_filter. by repeat split.
    - intros [Hr Hin]%list_elem_of_filter. by repeat split.
    - intros Hin. by repeat split. }
  assert (Hsorted :
    Sorted (λ a b, Qabs (d_score b) <= Qabs (d_score a))
      (sorted_by before picked)).
  { eapply Sorted_weaken; [|apply (sorted_by_Sorted before)].
    - intros a b Hab. unfold before in Hab.
      apply bool_decide_eq_false in Hab. lra.
    - intros a b Hab. unfold before in *.
      apply bool_decide_eq_true in Hab. apply bool_decide_eq_false. lra. }
  pose proof (slice_to_prefix (sorted_by before picked) n) as Hprefix.
  split; [|split].
  - intros d Hd.
    assert (Hin : d ∈ picked).
    { apply (elem_of_sorted_by before). destruct Hprefix as [tl ->].
      apply elem_of_app. by left. }
    destruct (Hpicked d Hin) as (Hall & Hb & Hs).
    split; [by apply elem_of_recommend_all | done].
  - apply Sorted_StronglySorted.
    + intros x y z Hxy Hyz. lra.
    + by eapply Sorted_prefix.
  - intros Hn. rewrite slice_to_length by done. lia.
Qed.

Lemma get_top_recommendations_spec_witness :
  (0 ≤ 1)%Z
  ∧ (length (get_top_recommendations full_signals (λ _, clock0)
               ["TN0001800457"; "TN0001600154"] 1 "moderate" "all")
     ≤ Z.to_nat 1)%nat.
Proof.
  assert (Hn : (0 ≤ 1)%Z) by lia.
  split; [exact Hn|].
  exact (proj2 (proj2 (get_top_recommendations_spec full_signals (λ _, clock0)
                         ["TN0001800457"; "TN0001600154"] 1 "moderate" "all"))
           Hn).
Defined.

Lemma count_of_partition all_recs :
  (count_of BUY all_recs + count_of SELL all_recs + count_of HOLD all_recs
   = length all_recs)%nat.
Proof.
  unfold count_of. induction all_recs as [|d l IH]; [done|].
  rewrite !filter_cons. destruct (d_recommendation d);
    repeat case_decide; try done; simpl; lia.
Qed.

(** X29: in the market summary the BUY, SELL and HOLD counts add up
    to the number of instruments analysed, which is at most the number
    of codes; the top lists hold five entries or the whole count; at
    most ten alerts are kept; and the market is called HAUSSIER
    (BAISSIER) only when the BUY (SELL) signals outnumber the
    others'. *)
Theorem market_summary_counts ad now clk stock_codes user_profile :
  let summary := get_market_summary ad now clk stock_codes user_profile in
  (ms_buy_signals summary + ms_sell_signals summary + ms_hold_signals summary
   = ms_total_analyzed summary)%nat
  ∧ (ms_total_analyzed summary ≤ length stock_codes)%nat
  ∧ length (ms_top_buys summary) = (5 `min` ms_buy_signals summary)%nat
  ∧ length (ms_top_sells summary) = (5 `min` ms_sell_signals summary)%nat
  ∧ (length (ms_alerts summary) ≤ 10)%nat
  ∧ match ms_overall_sentiment summary with
    | HAUSSIER => (ms_sell_signals summary < ms_buy_signals summary)%nat
    | BAISSIER => (ms_buy_signals summary < ms_sell_signals summary)%nat
    | NEUTRE => True
    end.
Proof.
  intros summary. unfold summary, get_market_summary. simpl. clear summary.
  split; [apply count_of_partition|].
  split; [apply recommend_all_length|].
  split; [by rewrite length_take, sorted_by_length|].
  split; [by rewrite length_take, sorted_by_length|].
  split; [rewrite length_take; lia|].
  set (b := count_of BUY _). set (s := count_of SELL _).
  assert (Hb : 0 <= inject_Z (Z.of_nat b)) by (rewrite <- (Zle_Qle 0); lia).
  assert (Hs : 0 <= inject_Z (Z.of_nat s)) by (rewrite <- (Zle_Qle 0); lia).
  repeat case_decide; try done.
  - assert (inject_Z (Z.of_nat s) < inject_Z (Z.of_nat b)) as Hlt by lra.
    rewrite <- Zlt_Qlt in Hlt. lia.
  - assert (inject_Z (Z.of_nat b) < inject_Z (Z.of_nat s)) as Hlt by lra.
    rewrite <- Zlt_Qlt in Hlt. lia.
Qed.

End BatchFacts.
